(** * TujiFund database abstraction layer: drivers, schema manager, migration runner

    A shallow embedding of the Go code of the repository:
    - [backend/database/base_driver.go] (BaseDriver, DBConfig, DBDriver),
    - the SQLite driver source file (Connect, InitializeSchema, TransformQuery),
    - the listings of [docs/DB_ABSTRACTION_IMPLEMENTATION.md] ("the guide"):
      NewSQLiteConfig, PostgresDriver, NewDriver, SchemaManager, and the
      [main] functions of the application and of the migration script.

    Go strings are byte strings; they are modelled by [string], whose
    characters are the 256 values of [ascii].  Go's [int] is modelled by [Z]
    where the value comes from a configuration and by [nat] for loop indices
    that are bounded by a slice length. *)

From Stdlib Require Import String Ascii List Arith ZArith Lia Bool DecimalString.
From Stdlib Require DecimalPos.
Import ListNotations.
Open Scope string_scope.

(* ===================================================================== *)
(** * Part I: definitions *)
(* ===================================================================== *)

(** ** The pieces of Go's [strings] and [fmt] packages the code calls *)

Module strings.

(** [strings.Split(s, sep)] for a separator of one byte, which is how the
    code calls it ([";"] and ["?"]).  The result is never empty: a string
    without separator gives the one-element slice [[s]]. *)
Fixpoint Split (s : string) (sep : ascii) : list string :=
  match s with
  | EmptyString => [EmptyString]
  | String c r =>
      if Ascii.eqb c sep then EmptyString :: Split r sep
      else match Split r sep with
           | [] => [String c EmptyString]
           | p :: ps => String c p :: ps
           end
  end.

(** [strings.HasPrefix(s, prefix)]. *)
Fixpoint HasPrefix (s prefix : string) {struct prefix} : bool :=
  match prefix with
  | EmptyString => true
  | String p ps =>
      match s with
      | EmptyString => false
      | String c cs => Ascii.eqb c p && HasPrefix cs ps
      end
  end.

(** [strings.Contains(s, substr)]: [substr] occurs somewhere in [s]. *)
Fixpoint Contains (s substr : string) : bool :=
  HasPrefix s substr ||
  match s with
  | EmptyString => false
  | String _ r => Contains r substr
  end.

(** The six ASCII white space bytes of [strings.TrimSpace]'s fast path:
    tab, line feed, vertical tab, form feed, carriage return, space. *)
Definition asciiSpace (c : ascii) : bool :=
  let n := nat_of_ascii c in
  (((9 <=? n) && (n <=? 13)) || (n =? 32))%nat.

(** The UTF-8 encodings of the other runes of [unicode.IsSpace]: U+0085,
    U+00A0, U+1680, U+2000..U+200A, U+2028, U+2029, U+202F, U+205F, U+3000.
    [spaceRune2 a b] and [spaceRune3 a b c] take the bytes in the order in
    which they occur in the string. *)
Definition spaceRune2 (a b : ascii) : bool :=
  ((nat_of_ascii a =? 194) && ((nat_of_ascii b =? 133) || (nat_of_ascii b =? 160)))%nat.

Definition spaceRune3 (a b c : ascii) : bool :=
  let x := nat_of_ascii a in
  let y := nat_of_ascii b in
  let z := nat_of_ascii c in
  (((x =? 225) && (y =? 154) && (z =? 128)) ||
   ((x =? 226) && (y =? 128) &&
      (((128 <=? z) && (z <=? 138)) || (z =? 168) || (z =? 169) || (z =? 175))) ||
   ((x =? 226) && (y =? 129) && (z =? 159)) ||
   ((x =? 227) && (y =? 128) && (z =? 128)))%nat.

(** [strings.TrimLeftFunc(s, unicode.IsSpace)]. *)
Fixpoint TrimLeftSpace (s : string) : string :=
  match s with
  | EmptyString => EmptyString
  | String a r1 =>
      if asciiSpace a then TrimLeftSpace r1
      else match r1 with
           | EmptyString => s
           | String b r2 =>
               if spaceRune2 a b then TrimLeftSpace r2
               else match r2 with
                    | EmptyString => s
                    | String c r3 =>
                        if spaceRune3 a b c then TrimLeftSpace r3 else s
                    end
           end
  end.

(** The same scan from the end, on the reversed list of bytes: the bytes
    of a rune are met last byte first. *)
Fixpoint trimRevSpace (l : list ascii) : list ascii :=
  match l with
  | [] => []
  | a :: r1 =>
      if asciiSpace a then trimRevSpace r1
      else match r1 with
           | [] => l
           | b :: r2 =>
               if spaceRune2 b a then trimRevSpace r2
               else match r2 with
                    | [] => l
                    | c :: r3 =>
                        if spaceRune3 c b a then trimRevSpace r3 else l
                    end
           end
  end.

Definition TrimRightSpace (s : string) : string :=
  string_of_list_ascii (rev (trimRevSpace (rev (list_ascii_of_string s)))).

(** [strings.TrimSpace(s)]: leading and trailing white space removed. *)
Definition TrimSpace (s : string) : string :=
  TrimRightSpace (TrimLeftSpace s).

End strings.

Module fmt.

(** [fmt.Sprintf("%d", i)] for a non-negative index. *)
Definition Sprint_nat (i : nat) : string :=
  NilEmpty.string_of_uint (Nat.to_uint i).

(** [fmt.Sprintf("%d", n)] for a Go [int]. *)
Definition Sprint_int (n : Z) : string :=
  NilEmpty.string_of_int (Z.to_int n).

End fmt.

(** ** Errors

    Go's [error] values as the code builds them: an error of the operating
    system or of the database engine is opaque and has a message;
    [fmt.Errorf("...: %w", err)] wraps [err] and its message is the format
    with [err.Error()] substituted. *)

Inductive error : Type :=
| errorString (msg : string)
| wrapError (msg : string) (err : error).

Definition Error (e : error) : string :=
  match e with
  | errorString msg => msg
  | wrapError msg _ => msg
  end.

Definition Unwrap (e : error) : option error :=
  match e with
  | errorString _ => None
  | wrapError _ err => Some err
  end.

(** [fmt.Errorf(prefix + "%w", err)]. *)
Definition Errorf_w (prefix : string) (err : error) : error :=
  wrapError (prefix ++ Error err) err.

(** ** Configuration (backend/database/config.go)

    The fields are those of the guide; the struct of the source file calls
    the user [UserName] and has no [ConnMaxLifetime]. *)

Record DBConfig : Type := mkDBConfig {
  Driver : string;          (* "sqlite" or "postgres" *)
  SQLitePath : string;
  Host : string;
  Port : Z;
  User : string;
  Password : string;
  DBName : string;
  SSLMode : string;
  MaxOpenConns : Z;
  MaxIdleConns : Z;
  ConnMaxLifetime : Z       (* in seconds *)
}.

(** The zero value [DBConfig{}]. *)
Definition DBConfig_zero : DBConfig :=
  mkDBConfig "" "" "" 0 "" "" "" "" 0 0 0.

(** [NewSQLiteConfig(path)]. *)
Definition NewSQLiteConfig (path : string) : DBConfig :=
  {| Driver := "sqlite";
     SQLitePath := path;
     Host := ""; Port := 0; User := ""; Password := ""; DBName := ""; SSLMode := "";
     MaxOpenConns := 1;    (* SQLite supports only one writer *)
     MaxIdleConns := 2;
     ConnMaxLifetime := 3600 |}.

(** [NewPostgresConfig(host, port, user, password, dbname, sslmode)]. *)
Definition NewPostgresConfig (host : string) (port : Z)
    (user password dbname sslmode : string) : DBConfig :=
  {| Driver := "postgres";
     SQLitePath := "";
     Host := host; Port := port; User := user; Password := password;
     DBName := dbname; SSLMode := sslmode;
     MaxOpenConns := 10;
     MaxIdleConns := 5;
     ConnMaxLifetime := 3600 |}.

(** ** The connection pool handle of [database/sql]

    [*sql.DB] as far as the drivers use it: the driver name and data source
    name it was opened with, and the pool limits.  [maxOpen <= 0] means
    unlimited; [maxIdleCount = 0] means the default of two idle connections
    and a negative value means none; [maxLifetime] is a [time.Duration] in
    nanoseconds.  A nil pointer is [None]. *)

Record DB : Type := mkDB {
  driverName : string;
  dataSourceName : string;
  maxOpen : Z;
  maxIdleCount : Z;
  maxLifetime : Z
}.

Definition maxIdleConnsLocked (db : DB) : Z :=
  if (maxIdleCount db =? 0)%Z then 2%Z
  else if (maxIdleCount db <? 0)%Z then 0%Z
  else maxIdleCount db.

Definition with_maxIdleCount (n : Z) (db : DB) : DB :=
  mkDB (driverName db) (dataSourceName db) (maxOpen db) n (maxLifetime db).

Definition with_maxOpen (n : Z) (db : DB) : DB :=
  mkDB (driverName db) (dataSourceName db) n (maxIdleCount db) (maxLifetime db).

Definition with_maxLifetime (n : Z) (db : DB) : DB :=
  mkDB (driverName db) (dataSourceName db) (maxOpen db) (maxIdleCount db) n.

(** [db.SetMaxIdleConns(n)]. *)
Definition SetMaxIdleConns (n : Z) (db : DB) : DB :=
  let db1 := with_maxIdleCount (if (0 <? n)%Z then n else (-1)%Z) db in
  if ((0 <? maxOpen db1) && (maxOpen db1 <? maxIdleConnsLocked db1))%Z
  then with_maxIdleCount (maxOpen db1) db1
  else db1.

(** [db.SetMaxOpenConns(n)]. *)
Definition SetMaxOpenConns (n : Z) (db : DB) : DB :=
  let db1 := with_maxOpen (if (n <? 0)%Z then 0%Z else n) db in
  if ((0 <? maxOpen db1) && (maxOpen db1 <? maxIdleConnsLocked db1))%Z
  then SetMaxIdleConns n db1
  else db1.

(** 64-bit two's complement wrap-around, for [time.Duration] arithmetic. *)
Definition wrap64 (z : Z) : Z :=
  ((z + 2 ^ 63) mod 2 ^ 64 - 2 ^ 63)%Z.

(** [db.SetConnMaxLifetime(d)]. *)
Definition SetConnMaxLifetime (d : Z) (db : DB) : DB :=
  with_maxLifetime (if (d <? 0)%Z then 0%Z else d) db.

(** The number of connections the pool may open at once: [None] when it is
    unlimited. *)
Definition openLimit (db : DB) : option Z :=
  if (maxOpen db <=? 0)%Z then None else Some (maxOpen db).

(** ** The outside world

    The operating system and the database engines are a state [World] with
    one transition per call the code makes.  [filepath.Dir] and
    [filepath.Join] depend on the platform and are taken as given. *)

Record Sys : Type := mkSys {
  World : Type;
  filepath_Dir : string -> string;
  filepath_Join : string -> string -> string;
  (* os.MkdirAll(path, 0755) *)
  os_MkdirAll : string -> World -> option error * World;
  (* os.IsNotExist(err) for _, err := os.Stat(path) *)
  os_Stat_IsNotExist : string -> World -> bool;
  (* os.ReadFile(path) *)
  os_ReadFile : string -> World -> string * option error;
  (* sql.Open(driverName, dataSourceName) *)
  sql_Open : string -> string -> World -> option error * World;
  (* db.Ping() *)
  sql_Ping : DB -> World -> option error * World;
  (* db.Exec(query) *)
  sql_Exec : DB -> string -> World -> option error * World
}.

(** The calls made to the outside world, in the order they were made. *)
Inductive Event : Type :=
| EvMkdirAll (path : string)
| EvStat (path : string)
| EvReadFile (path : string)
| EvOpen (driver dsn : string)
| EvPing (db : DB)
| EvExec (db : DB) (query : string).

(** A run either returns or panics (nil pointer dereference). *)
Inductive Res (A : Type) : Type :=
| Ret (a : A)
| Panic.
Arguments Ret {A} a.
Arguments Panic {A}.

Section Effects.

Context {sys : Sys}.

Definition State : Type := (World sys * list Event)%type.

Definition M (A : Type) : Type := State -> Res A * State.

Definition ret {A} (a : A) : M A := fun s => (Ret a, s).

Definition bind {A B} (c : M A) (k : A -> M B) : M B :=
  fun s =>
    match c s with
    | (Ret a, s') => k a s'
    | (Panic, s') => (Panic, s')
    end.

Definition panic {A} : M A := fun s => (Panic, s).

Definition MkdirAll (path : string) : M (option error) :=
  fun s =>
    let (err, w) := os_MkdirAll sys path (fst s) in
    (Ret err, (w, (snd s ++ [EvMkdirAll path])%list)).

Definition Stat_IsNotExist (path : string) : M bool :=
  fun s => (Ret (os_Stat_IsNotExist sys path (fst s)), (fst s, (snd s ++ [EvStat path])%list)).

Definition ReadFile (path : string) : M (string * option error) :=
  fun s => (Ret (os_ReadFile sys path (fst s)), (fst s, (snd s ++ [EvReadFile path])%list)).

(** [sql.Open]: a fresh handle, or nil and the error. *)
Definition Open (driver dsn : string) : M (option DB * option error) :=
  fun s =>
    let (err, w) := sql_Open sys driver dsn (fst s) in
    (Ret match err with
         | None => (Some (mkDB driver dsn 0 0 0), None)
         | Some e => (None, Some e)
         end,
     (w, (snd s ++ [EvOpen driver dsn])%list)).

(** Methods of [*sql.DB]; on a nil receiver they panic. *)
Definition Ping (db : option DB) : M (option error) :=
  match db with
  | None => panic
  | Some p =>
      fun s =>
        let (err, w) := sql_Ping sys p (fst s) in
        (Ret err, (w, (snd s ++ [EvPing p])%list))
  end.

Definition Exec (db : option DB) (query : string) : M (option error) :=
  match db with
  | None => panic
  | Some p =>
      fun s =>
        let (err, w) := sql_Exec sys p query (fst s) in
        (Ret err, (w, (snd s ++ [EvExec p query])%list))
  end.

Definition setPool (f : DB -> DB) (db : option DB) : M (option DB) :=
  match db with
  | None => panic
  | Some p => ret (Some (f p))
  end.

End Effects.

Arguments State : clear implicits.
Arguments M : clear implicits.

Declare Scope go_scope.
Delimit Scope go_scope with go.
Notation "x <- c ;; k" := (bind c (fun x => k))
  (at level 61, c at next level, right associativity) : go_scope.
Notation "' p <- c ;; k" := (bind c (fun x => match x with p => k end))
  (at level 61, p pattern, c at next level, right associativity) : go_scope.
Open Scope go_scope.

(** ** The SQLite driver *)

Module SQLiteDriver.

Record t : Type := mk {
  db : option DB;
  conf : DBConfig
}.

(** [&SQLiteDriver{}] *)
Definition zero : t := mk None DBConfig_zero.

Definition dsn_of (conf : DBConfig) : string :=
  "file:" ++ SQLitePath conf ++ "?cache=shared&_journal_mode=WAL".

Section WithSys.

Context {sys : Sys}.

(** [Connect] as the driver's source file has it.  The branch taken when
    [sql.Open] fails has an empty body, so the function goes on with the
    nil handle; the pragma ends in a colon.  The result is the returned
    error and the receiver after the call. *)
Definition Connect (d : t) (conf : DBConfig) : M sys (option error * t) :=
  err <- MkdirAll (filepath_Dir sys (SQLitePath conf)) ;;
  match err with
  | Some e => ret (Some (Errorf_w "failed to create database directory: " e), d)
  | None =>
      let dsn := dsn_of conf in
      '(db, err) <- Open "sqlite" dsn ;;
      (* if err != nil { } *)
      err <- Ping db ;;
      match err with
      | Some e => ret (Some (Errorf_w "failed to ping the SQLite database: " e), d)
      | None =>
          err <- Exec db "PRAGMA foreign_keys = ON:" ;;
          match err with
          | Some e => ret (Some (Errorf_w "failed to enable foreign keys: " e), d)
          | None =>
              db <- setPool (SetMaxOpenConns (MaxOpenConns conf)) db ;;
              db <- setPool (SetMaxIdleConns (MaxIdleConns conf)) db ;;
              ret (None, mk db conf)
          end
      end
  end.

(** [Connect] as the guide lists it: an error of [sql.Open] is returned,
    and the pragma ends in a semicolon. *)
Definition Connect_guide (d : t) (conf : DBConfig) : M sys (option error * t) :=
  err <- MkdirAll (filepath_Dir sys (SQLitePath conf)) ;;
  match err with
  | Some e => ret (Some (Errorf_w "failed to create database directory: " e), d)
  | None =>
      let dsn := dsn_of conf in
      '(db, err) <- Open "sqlite" dsn ;;
      match err with
      | Some e => ret (Some (Errorf_w "failed to connect to SQLite database: " e), d)
      | None =>
          err <- Ping db ;;
          match err with
          | Some e => ret (Some (Errorf_w "failed to ping SQLite database: " e), d)
          | None =>
              err <- Exec db "PRAGMA foreign_keys = ON;" ;;
              match err with
              | Some e => ret (Some (Errorf_w "failed to enable foreign keys: " e), d)
              | None =>
                  db <- setPool (SetMaxOpenConns (MaxOpenConns conf)) db ;;
                  db <- setPool (SetMaxIdleConns (MaxIdleConns conf)) db ;;
                  ret (None, mk db conf)
              end
          end
      end
  end.

(** [InitializeSchema] of the driver's source file: the whole schema file
    goes to the engine as one [Exec].  (The source binds the bytes read to
    [path] and then converts [schema]; the bytes read are meant.) *)
Definition InitializeSchema (d : t) : M sys (option error) :=
  let path := filepath_Join sys "database" "database_schema.sql" in
  '(schema, err) <- ReadFile path ;;
  match err with
  | Some e => ret (Some (Errorf_w "failed to read sche,a file: " e))
  | None =>
      err <- Exec (db d) schema ;;
      match err with
      | Some e =>
          (* Ignore "already exists" errors *)
          if negb (strings.Contains (Error e) "already exists")
          then ret (Some (Errorf_w "failed to excute schema: " e))
          else ret None
      | None => ret None
      end
  end.

End WithSys.

(** [GetDialect] (spelt [GetDialet] in the driver's source file). *)
Definition GetDialect (d : t) : string := "sqlite".

(** [TransformQuery]: [return query] (the guide; the driver's source file
    has the same body with the identifier spelt [quer]). *)
Definition TransformQuery (d : t) (query : string) : string := query.

End SQLiteDriver.

(** ** The PostgreSQL driver (guide) *)

Module PostgresDriver.

Record t : Type := mk {
  db : option DB;
  conf : DBConfig
}.

Definition zero : t := mk None DBConfig_zero.

Definition dsn_of (conf : DBConfig) : string :=
  "host=" ++ Host conf ++ " port=" ++ fmt.Sprint_int (Port conf) ++
  " user=" ++ User conf ++ " password=" ++ Password conf ++
  " dbname=" ++ DBName conf ++ " sslmode=" ++ SSLMode conf.

Section WithSys.

Context {sys : Sys}.

Definition Connect (d : t) (conf : DBConfig) : M sys (option error * t) :=
  let dsn := dsn_of conf in
  '(db, err) <- Open "postgres" dsn ;;
  match err with
  | Some e => ret (Some (Errorf_w "failed to connect to PostgreSQL database: " e), d)
  | None =>
      err <- Ping db ;;
      match err with
      | Some e => ret (Some (Errorf_w "failed to ping PostgreSQL database: " e), d)
      | None =>
          db <- setPool (SetMaxOpenConns (MaxOpenConns conf)) db ;;
          db <- setPool (SetMaxIdleConns (MaxIdleConns conf)) db ;;
          db <- setPool (SetConnMaxLifetime
                           (wrap64 (ConnMaxLifetime conf * 1000000000))) db ;;
          ret (None, mk db conf)
      end
  end.

End WithSys.

Definition GetDialect (d : t) : string := "postgres".

(** The loop [for i := 1; i < len(parts); i++ { result += "$i" + parts[i] }]
    over the parts that remain, [i] being the index of the first of them. *)
Fixpoint appendParts (i : nat) (parts : list string) (result : string) : string :=
  match parts with
  | [] => result
  | p :: rest => appendParts (S i) rest (result ++ ("$" ++ fmt.Sprint_nat i) ++ p)
  end.

(** [TransformQuery]: SQLite placeholders [?] to [$1], [$2], ... *)
Definition TransformQuery (d : t) (query : string) : string :=
  let parts := strings.Split query "?" in
  if (length parts <=? 1)%nat then query
  else match parts with
       | [] => query
       | p0 :: rest => appendParts 1 rest p0
       end.

End PostgresDriver.

(** ** The driver interface

    [DBDriver] has two implementations; an interface value is one of them. *)

Inductive DBDriver : Type :=
| SQLite (d : SQLiteDriver.t)
| Postgres (d : PostgresDriver.t).

Definition pool (drv : DBDriver) : option DB :=
  match drv with
  | SQLite d => SQLiteDriver.db d
  | Postgres d => PostgresDriver.db d
  end.

Definition GetDialect (drv : DBDriver) : string :=
  match drv with
  | SQLite d => SQLiteDriver.GetDialect d
  | Postgres d => PostgresDriver.GetDialect d
  end.

Definition TransformQuery (drv : DBDriver) (query : string) : string :=
  match drv with
  | SQLite d => SQLiteDriver.TransformQuery d query
  | Postgres d => PostgresDriver.TransformQuery d query
  end.

(** [Exec] of a driver is [BaseDriver.Exec]: [d.db.Exec(query, args...)]. *)
Definition DBDriver_Exec {sys : Sys} (drv : DBDriver) (query : string)
  : M sys (option error) :=
  Exec (pool drv) query.

(** ** The factory (guide)

    [driver.Connect] of the SQLite branch is the method of the driver's
    source file. *)

Definition NewDriver {sys : Sys} (conf : DBConfig)
  : M sys (option DBDriver * option error) :=
  if Driver conf =? "sqlite" then
    '(err, driver) <- SQLiteDriver.Connect SQLiteDriver.zero conf ;;
    match err with
    | Some e => ret (None, Some e)
    | None => ret (Some (SQLite driver), None)
    end
  else if Driver conf =? "postgres" then
    '(err, driver) <- PostgresDriver.Connect PostgresDriver.zero conf ;;
    match err with
    | Some e => ret (None, Some e)
    | None => ret (Some (Postgres driver), None)
    end
  else ret (None, Some (errorString ("unsupported database driver: " ++ Driver conf))).

(** ** The schema manager (guide) *)

Module SchemaManager.

Record t : Type := mk { driver : DBDriver }.

Definition NewSchemaManager (driver : DBDriver) : t := mk driver.

Section WithSys.

Context {sys : Sys}.

(** The loop [for _, stmt := range statements] of [InitializeSchema]. *)
Fixpoint execStatements (drv : DBDriver) (statements : list string)
  : M sys (option error) :=
  match statements with
  | [] => ret None
  | stmt :: rest =>
      let stmt := strings.TrimSpace stmt in
      if stmt =? "" then execStatements drv rest
      else
        (* Transform the query for the specific dialect *)
        let stmt := TransformQuery drv stmt in
        err <- DBDriver_Exec drv stmt ;;
        match err with
        | Some e =>
            (* Ignore "already exists" errors *)
            if negb (strings.Contains (Error e) "already exists")
            then ret (Some (Errorf_w "failed to execute schema statement: " e))
            else execStatements drv rest
        | None => execStatements drv rest
        end
  end.

Definition schemaPath_of (drv : DBDriver) : string :=
  filepath_Join sys "database" ("schema_" ++ GetDialect drv ++ ".sql").

Definition InitializeSchema (sm : t) : M sys (option error) :=
  (* Load the appropriate schema file based on the dialect *)
  let schemaPath := schemaPath_of (driver sm) in
  (* If dialect-specific schema doesn't exist, fall back to the generic one *)
  notExist <- Stat_IsNotExist schemaPath ;;
  let schemaPath :=
    if notExist : bool then filepath_Join sys "database" "database_schema.sql"
    else schemaPath in
  '(schema, err) <- ReadFile schemaPath ;;
  match err with
  | Some e => ret (Some (Errorf_w "failed to read schema file: " e))
  | None =>
      (* Split the schema into individual statements *)
      let statements := strings.Split schema ";" in
      execStatements (driver sm) statements
  end.

End WithSys.

End SchemaManager.

(** ** The migration runner

    What the repository has of it: [migrateData], whose body is a comment
    and [return nil], and the configuration [DatabaseConfig.Migration]
    with [BatchSize], [TimeoutSeconds] and [RetryAttempts], which
    [migrateData] does not receive. *)

Module MigrationRunner.


(** [migrateData] as the guide has it. *)
Definition migrateData {sys : Sys} (source target : DBDriver) : M sys (option error) :=
  (* Implement data migration logic for each table *)
  ret None.

End MigrationRunner.

(** ** A small world to run the code in

    A file system given by a table of files and an engine that knows three
    kinds of statement: the foreign-key pragma, [CREATE TABLE], which fails
    with "already exists" on a table it has, and [INSERT].  Anything else
    is a syntax error, unless the engine is [lenient].

    The engine is a stand-in, not SQLite: the statements it knows, the name
    it keeps for a table (all that follows [CREATE TABLE]) and the wording
    of its errors are its own.  The theorems are about every engine; this
    one only gives them a run to be shown on.  Where the wording of an
    error matters, the [scripted] engine below answers with the messages a
    run is given. *)

Module Fixture.

Record Engine : Type := mkEngine {
  dirs : list string;
  tables : list string;
  foreign_keys : bool
}.

Record Setup : Type := mkSetup {
  mkdir_error : option error;
  open_error : option error;
  ping_error : option error;
  lenient : bool;
  files : list (string * string)
}.

Definition empty : Engine := mkEngine [] [] false.

Fixpoint lookup (path : string) (fs : list (string * string)) : option string :=
  match fs with
  | [] => None
  | (p, content) :: rest => if p =? path then Some content else lookup path rest
  end.

Fixpoint init (parts : list string) : list string :=
  match parts with
  | [] => []
  | [_] => []
  | p :: rest => p :: init rest
  end.

Definition Dir (path : string) : string :=
  match init (strings.Split path "/") with
  | [] => "."
  | parts => String.concat "/" parts
  end.

Definition Join (a b : string) : string := a ++ "/" ++ b.

Definition exec (s : Setup) (query : string) (w : Engine) : option error * Engine :=
  if query =? "PRAGMA foreign_keys = ON;" then
    (None, mkEngine (dirs w) (tables w) true)
  else if strings.HasPrefix query "CREATE TABLE " then
    let name := substring 13 (String.length query - 13) query in
    if existsb (String.eqb name) (tables w)
    then (Some (errorString ("table " ++ name ++ " already exists")), w)
    else (None, mkEngine (dirs w) (name :: tables w) (foreign_keys w))
  else if strings.HasPrefix query "INSERT " then (None, w)
  else if lenient s then (None, w)
  else (Some (errorString "SQL logic error: syntax error"), w).

Definition system (s : Setup) : Sys :=
  {| World := Engine;
     filepath_Dir := Dir;
     filepath_Join := Join;
     os_MkdirAll := fun path w =>
       match mkdir_error s with
       | Some e => (Some e, w)
       | None => (None, mkEngine (path :: dirs w) (tables w) (foreign_keys w))
       end;
     os_Stat_IsNotExist := fun path _ =>
       match lookup path (files s) with Some _ => false | None => true end;
     os_ReadFile := fun path _ =>
       match lookup path (files s) with
       | Some content => (content, None)
       | None => ("", Some (errorString ("open " ++ path ++ ": no such file or directory")))
       end;
     sql_Open := fun _ _ w => (open_error s, w);
     sql_Ping := fun _ w => (ping_error s, w);
     sql_Exec := fun _ query w => exec s query w |}.

(** Everything works and the engine is strict: it refuses a statement it
    does not know. *)
Definition sound (fs : list (string * string)) : Setup :=
  mkSetup None None None false fs.

(** Everything works and the engine takes every statement. *)
Definition permissive (fs : list (string * string)) : Setup :=
  mkSetup None None None true fs.

Definition start (s : Setup) : State (system s) := (empty, []).

(** [sql.Open] fails. *)
Definition no_driver (fs : list (string * string)) : Setup :=
  mkSetup None (Some (errorString "sql: unknown driver")) None false fs.

(** A configuration that asks for ten connections. *)
Definition ten_connections : DBConfig :=
  {| Driver := "sqlite";
     SQLitePath := "data/tujifund.db";
     Host := ""; Port := 0; User := ""; Password := ""; DBName := ""; SSLMode := "";
     MaxOpenConns := 10;
     MaxIdleConns := 2;
     ConnMaxLifetime := 3600 |}.

(** Schema files. *)
Definition two_tables : list (string * string) :=
  [("database/database_schema.sql",
    "CREATE TABLE users (id INTEGER); CREATE TABLE loans (id INTEGER);")].

Definition broken_schema : list (string * string) :=
  [("database/schema_sqlite.sql",
    "CREATE TABLE users (id INTEGER); DROP everything; CREATE TABLE loans (id INTEGER);")].

Definition literal_schema : list (string * string) :=
  [("database/database_schema.sql", "INSERT INTO t VALUES ('a;b')")].

(** A connected SQLite driver, as [Connect_guide] leaves it for
    [NewSQLiteConfig "data/tujifund.db"]. *)
Definition sqlite_pool : DB :=
  mkDB "sqlite" "file:data/tujifund.db?cache=shared&_journal_mode=WAL" 1 1 0.

Definition sqlite_driver : DBDriver :=
  SQLite (SQLiteDriver.mk (Some sqlite_pool) (NewSQLiteConfig "data/tujifund.db")).

Definition postgres_driver : DBDriver :=
  Postgres (PostgresDriver.mk
              (Some (mkDB "postgres" "host=localhost port=5432 user=u password=p dbname=d sslmode=disable" 10 5 3600000000000))
              (NewPostgresConfig "localhost" 5432 "u" "p" "d" "disable")).







(** A schema file with terminators and white space only. *)
Definition blank_schema : list (string * string) :=
  [("database/database_schema.sql", " ; ;  ")].

(** A driver that has not been connected. *)
Definition unconnected : DBDriver := SQLite SQLiteDriver.zero.

(** A PostgreSQL configuration whose lifetime in nanoseconds does not
    fit 64 bits. *)
Definition long_lived : DBConfig :=
  {| Driver := "postgres";
     SQLitePath := "";
     Host := "localhost"; Port := 5432; User := "u"; Password := "p";
     DBName := "d"; SSLMode := "disable";
     MaxOpenConns := 10;
     MaxIdleConns := 5;
     ConnMaxLifetime := 9223372037 |}.

(** An engine that answers from a script: a statement listed in
    [answers] fails with the message listed for it, every other statement
    is accepted and kept.  The file system is that of [system]. *)
Definition scripted (answers fs : list (string * string)) : Sys :=
  {| World := list string;
     filepath_Dir := Dir;
     filepath_Join := Join;
     os_MkdirAll := fun _ w => (None, w);
     os_Stat_IsNotExist := fun path _ =>
       match lookup path fs with Some _ => false | None => true end;
     os_ReadFile := fun path _ =>
       match lookup path fs with
       | Some content => (content, None)
       | None => ("", Some (errorString ("open " ++ path ++ ": no such file or directory")))
       end;
     sql_Open := fun _ _ w => (None, w);
     sql_Ping := fun _ w => (None, w);
     sql_Exec := fun _ query w =>
       match lookup query answers with
       | Some msg => (Some (errorString msg), w)
       | None => (None, (w ++ [query])%list)
       end |}.

Definition quote : string := String (ascii_of_nat 34) EmptyString.

(** The message of the SQLite driver for a statement it cannot parse
    after [DROP]. *)
Definition near_everything : string :=
  "SQL logic error: near " ++ quote ++ "everything" ++ quote ++ ": syntax error (1)".

(** A script in which [DROP everything] is a syntax error. *)
Definition drop_fails : list (string * string) :=
  [("DROP everything", near_everything)].

(** The message of the SQLite driver for a table that is there, and a
    script in which the table [users] is. *)
Definition users_exists : list (string * string) :=
  [("CREATE TABLE users (id INTEGER)",
    "SQL logic error: table users already exists (1)")].

(** The bad statement as the third and as the first of a schema. *)
Definition drop_third : list (string * string) :=
  [("database/database_schema.sql",
    "CREATE TABLE users (id INTEGER); CREATE TABLE loans (id INTEGER); DROP everything;")].

Definition drop_first : list (string * string) :=
  [("database/database_schema.sql",
    "DROP everything; CREATE TABLE users (id INTEGER);")].

(** An environment given by a table of variables. *)
Definition env (vars : list (string * string)) (name : string) : string :=
  match lookup name vars with
  | Some v => v
  | None => ""
  end.

End Fixture.

(** ** Descriptions the code is compared with

    These follow the words of the specification, not the code. *)

Module Described.

(** Every [?] of the statement, from left to right, becomes the next of
    the markers [$k], [$(k+1)], ... *)
Fixpoint number_marks (k : nat) (s : string) : string :=
  match s with
  | EmptyString => EmptyString
  | String c r =>
      if Ascii.eqb c "?" then ("$" ++ fmt.Sprint_nat k) ++ number_marks (S k) r
      else String c (number_marks k r)
  end.

(** The same, but a [?] inside a single-quoted string literal is left
    untouched: [in_literal] tells whether the scan is inside one. *)
Fixpoint number_marks_outside_literals (in_literal : bool) (k : nat) (s : string)
  : string :=
  match s with
  | EmptyString => EmptyString
  | String c r =>
      if Ascii.eqb c "'" then
        String c (number_marks_outside_literals (negb in_literal) k r)
      else if Ascii.eqb c "?" && negb in_literal then
        ("$" ++ fmt.Sprint_nat k) ++ number_marks_outside_literals in_literal (S k) r
      else String c (number_marks_outside_literals in_literal k r)
  end.

(** Splitting on [sep] "while respecting quoted literals": a separator
    inside a single-quoted literal does not split. *)
Fixpoint split_outside_literals (in_literal : bool) (s : string) (sep : ascii)
  : list string :=
  match s with
  | EmptyString => [EmptyString]
  | String c r =>
      if Ascii.eqb c sep && negb in_literal
      then EmptyString :: split_outside_literals in_literal r sep
      else
        let in_literal' := if Ascii.eqb c "'" then negb in_literal else in_literal in
        match split_outside_literals in_literal' r sep with
        | [] => [String c EmptyString]
        | p :: ps => String c p :: ps
        end
  end.

Definition nonblank (s : string) : bool := negb (s =? "").

(** The statements of a schema source for a driver: the pieces between
    the terminators, trimmed, without the blank ones, each passed through
    the driver's [TransformQuery], in source order. *)
Definition prepare (drv : DBDriver) (pieces : list string) : list string :=
  map (TransformQuery drv) (filter nonblank (map strings.TrimSpace pieces)).

Definition statements_of (drv : DBDriver) (schema : string) : list string :=
  prepare drv (strings.Split schema ";").

Definition statements_of_literal_aware (drv : DBDriver) (schema : string)
  : list string :=
  prepare drv (split_outside_literals false schema ";").


(** The decimal digits. *)
Definition is_digit (c : ascii) : bool :=
  ((48 <=? nat_of_ascii c) && (nat_of_ascii c <=? 57))%nat.

(** The call is an [Exec] on the pool of the driver. *)
Definition exec_on (drv : DBDriver) (ev : Event) : Prop :=
  match ev with
  | EvExec p _ => pool drv = Some p
  | _ => False
  end.

(** The statements sent to the engine, in order, in a log of calls. *)
Fixpoint executed (log : list Event) : list string :=
  match log with
  | [] => []
  | EvExec _ query :: rest => query :: executed rest
  | _ :: rest => executed rest
  end.

(** The fresh handle [sql.Open] gives the SQLite Connect. *)
Definition opened (conf : DBConfig) : DB :=
  mkDB "sqlite" (SQLiteDriver.dsn_of conf) 0 0 0.

(** What the SQLite driver holds after a successful Connect. *)
Definition connected (conf : DBConfig) : SQLiteDriver.t :=
  SQLiteDriver.mk
    (Some (SetMaxIdleConns (MaxIdleConns conf)
             (SetMaxOpenConns (MaxOpenConns conf) (opened conf))))
    conf.

Section WithSys.

Context {sys : Sys}.

(** The calls of a successful SQLite Connect whose pragma is [pragma]. *)
Definition connect_calls (conf : DBConfig) (pragma : string) : list Event :=
  [EvMkdirAll (filepath_Dir sys (SQLitePath conf));
   EvOpen "sqlite" (SQLiteDriver.dsn_of conf);
   EvPing (opened conf);
   EvExec (opened conf) pragma].

(** The world after the engine has executed [queries] one after the
    other, whatever each of them returned. *)
Fixpoint exec_all (p : DB) (queries : list string) (w : World sys) : World sys :=
  match queries with
  | [] => w
  | q :: rest => exec_all p rest (snd (sql_Exec sys p q w))
  end.

(** [q] fails in [w] with an error that is not an "already exists" one. *)
Definition fatal (p : DB) (q : string) (w : World sys) : bool :=
  match fst (sql_Exec sys p q w) with
  | Some e => negb (strings.Contains (Error e) "already exists")
  | None => false
  end.

(** The first of [queries] to fail fatally when they are executed one
    after the other from [w], with its position and its error. *)
Fixpoint first_fatal (p : DB) (queries : list string) (w : World sys)
  : option (nat * error) :=
  match queries with
  | [] => None
  | q :: rest =>
      if fatal p q w then
        match fst (sql_Exec sys p q w) with
        | Some e => Some (0, e)
        | None => None
        end
      else
        match first_fatal p rest (snd (sql_Exec sys p q w)) with
        | Some (i, e) => Some (S i, e)
        | None => None
        end
  end.

(** The calls of a run that executed [queries] on the pool [p]. *)
Definition exec_calls (p : DB) (queries : list string) : list Event :=
  map (EvExec p) queries.

(** The outcome of a statement loop that stops at the first fatal failure:
    no error and every statement executed, or the wrapped error and the
    statements up to the failing one executed. *)
Definition loop_outcome (p : DB) (queries : list string) (s : State sys)
  : Res (option error) * State sys :=
  match first_fatal p queries (fst s) with
  | None =>
      (Ret None,
       (exec_all p queries (fst s), (snd s ++ exec_calls p queries)%list))
  | Some (i, cause) =>
      (Ret (Some (Errorf_w "failed to execute schema statement: " cause)),
       (exec_all p (firstn (S i) queries) (fst s),
        (snd s ++ exec_calls p (firstn (S i) queries))%list))
  end.

(** The schema file [InitializeSchema] reads in world [w]: the one of the
    dialect, or the generic one if that does not exist. *)
Definition selected (drv : DBDriver) (w : World sys) : string :=
  if os_Stat_IsNotExist sys (SchemaManager.schemaPath_of (sys:=sys) drv) w
  then filepath_Join sys "database" "database_schema.sql"
  else SchemaManager.schemaPath_of (sys:=sys) drv.

(** The calls of [InitializeSchema] before the statement loop. *)
Definition load_calls (drv : DBDriver) (w : World sys) : list Event :=
  [EvStat (SchemaManager.schemaPath_of (sys := sys) drv); EvReadFile (selected drv w)].

End WithSys.

Arguments connect_calls sys conf pragma : clear implicits.

End Described.

(** ** More of the code: the other methods and the two [main] functions *)

Module strconv.

(** [strconv.Atoi(s)] for a 64-bit [int]: an optional sign, then one or
    more decimal digits and nothing else, the value being in the range of
    [int]; [None] is a non-nil error. *)
Definition Atoi (s : string) : option Z :=
  match s with
  | EmptyString => None
  | String c r =>
      let body := if Ascii.eqb c "-" || Ascii.eqb c "+" then r else s in
      match body with
      | EmptyString => None
      | String _ _ =>
          match NilEmpty.uint_of_string body with
          | None => None
          | Some d =>
              let n := Z.of_uint d in
              let v := if Ascii.eqb c "-" then (- n)%Z else n in
              if ((- 2 ^ 63 <=? v) && (v <=? 2 ^ 63 - 1))%Z then Some v else None
          end
      end
  end.

End strconv.

(** [Ping] of the SQLite driver: [d.db.Ping()]. *)
Definition SQLiteDriver_Ping {sys : Sys} (d : SQLiteDriver.t) : M sys (option error) :=
  Ping (SQLiteDriver.db d).

(** [main] of backend/main.go (guide). *)
Module Main.

(** [os.Getenv]: the value of a variable, empty when it is not set. *)
Definition Getenv : Type := string -> string.

(** The configuration [main] builds from the environment, or the message
    of its [log.Fatalf]. *)
Definition config (getenv : Getenv) : string + DBConfig :=
  let dbDriver := getenv "DB_DRIVER" in
  let dbDriver := if dbDriver =? "" then "sqlite" else dbDriver in
  if dbDriver =? "sqlite" then
    let dbPath := getenv "DB_PATH" in
    let dbPath := if dbPath =? "" then "data/tujifund.db" else dbPath in
    inr (NewSQLiteConfig dbPath)
  else if dbDriver =? "postgres" then
    let host := getenv "DB_HOST" in
    let host := if host =? "" then "localhost" else host in
    let portStr := getenv "DB_PORT" in
    let port := match strconv.Atoi portStr with
                | Some port => port
                | None => 5432%Z
                end in
    let user := getenv "DB_USER" in
    let password := getenv "DB_PASSWORD" in
    let dbName := getenv "DB_NAME" in
    let sslMode := getenv "DB_SSLMODE" in
    let sslMode := if sslMode =? "" then "disable" else sslMode in
    inr (NewPostgresConfig host port user password dbName sslMode)
  else inl ("Unsupported database driver: " ++ dbDriver).

(** How [main] goes on: it has stopped in [log.Fatalf], or it continues
    with the driver, having logged [logs]. *)
Inductive Exit : Type :=
| Fatalf (msg : string)
| Continue (driver : DBDriver) (logs : list string).

Definition main {sys : Sys} (getenv : Getenv) : M sys Exit :=
  match config getenv with
  | inl msg => ret (Fatalf msg)
  | inr config =>
      (* Create database driver *)
      '(driver, err) <- NewDriver config ;;
      match err with
      | Some e => ret (Fatalf ("Failed to create database driver: " ++ Error e))
      | None =>
          match driver with
          | None => panic
          | Some driver =>
              (* Initialize schema *)
              let schemaManager := SchemaManager.NewSchemaManager driver in
              err <- SchemaManager.InitializeSchema schemaManager ;;
              match err with
              | Some e =>
                  ret (Continue driver
                         ["Failed to initialize database schema: " ++ Error e;
                          "Attempting to continue with existing schema..."])
              | None => ret (Continue driver [])
              end
          end
      end
  end.

End Main.

(** [main] of backend/database/migrations/scripts/migrate.go (guide), from
    the values of its flags. *)
Module Migrate.

Record Flags : Type := mkFlags {
  sqlite : string;
  pghost : string;
  pgport : Z;
  pguser : string;
  pgpassword : string;
  pgdbname : string
}.

(** The flags when only the three required ones are given: the others
    have their defaults. *)
Definition flags (sqlitePath user dbname : string) : Flags :=
  mkFlags sqlitePath "localhost" 5432 user "" dbname.

Inductive Exit : Type :=
| Usage                      (* the usage text and [os.Exit(1)] *)
| Fatalf (msg : string)
| Completed.                 (* "Migration completed successfully" *)

Definition main {sys : Sys} (f : Flags) : M sys Exit :=
  (* Validate required parameters *)
  if (sqlite f =? "") || (pguser f =? "") || (pgdbname f =? "") then ret Usage
  else
    (* Connect to SQLite database *)
    let sqliteConfig := NewSQLiteConfig (sqlite f) in
    '(sqliteDriver, err) <- NewDriver sqliteConfig ;;
    match err with
    | Some e => ret (Fatalf ("Failed to connect to SQLite database: " ++ Error e))
    | None =>
        (* Connect to PostgreSQL database *)
        let pgConfig :=
          NewPostgresConfig (pghost f) (pgport f) (pguser f) (pgpassword f)
            (pgdbname f) "disable" in
        '(pgDriver, err) <- NewDriver pgConfig ;;
        match err with
        | Some e => ret (Fatalf ("Failed to connect to PostgreSQL database: " ++ Error e))
        | None =>
            match sqliteDriver, pgDriver with
            | Some sqliteDriver, Some pgDriver =>
                (* Initialize PostgreSQL schema *)
                let schemaManager := SchemaManager.NewSchemaManager pgDriver in
                err <- SchemaManager.InitializeSchema schemaManager ;;
                match err with
                | Some e =>
                    ret (Fatalf ("Failed to initialize PostgreSQL schema: " ++ Error e))
                | None =>
                    (* Migrate data *)
                    err <- MigrationRunner.migrateData sqliteDriver pgDriver ;;
                    match err with
                    | Some e => ret (Fatalf ("Migration failed: " ++ Error e))
                    | None => ret Completed
                    end
                end
            | _, _ => panic
            end
        end
    end.

End Migrate.

(* ===================================================================== *)
(** * Part II: properties *)
(* ===================================================================== *)

Import Described.

(** ** [strings] *)

Lemma Split_nonempty (s : string) (sep : ascii) : strings.Split s sep <> [].
Proof.
  destruct s as [|c r]; simpl; [discriminate|].
  destruct (Ascii.eqb c sep); [discriminate|].
  destruct (strings.Split r sep); discriminate.
Qed.

Lemma Contains_cons (c : ascii) (r : string) (m : ascii) :
  strings.Contains (String c r) (String m EmptyString)
  = Ascii.eqb c m || strings.Contains r (String m EmptyString).
Proof.
  simpl. now rewrite andb_true_r.
Qed.

(** A string without the separator is one piece. *)
Lemma Split_without_sep (s : string) (sep : ascii) :
  strings.Contains s (String sep EmptyString) = false ->
  strings.Split s sep = [s].
Proof.
  induction s as [|c r IH]; intros H; [reflexivity|].
  rewrite Contains_cons in H. apply orb_false_iff in H as [Hc Hr].
  simpl. rewrite Hc, (IH Hr). reflexivity.
Qed.

Lemma append_assoc (a b c : string) : (a ++ b) ++ c = a ++ (b ++ c).
Proof.
  induction a as [|x a IH]; simpl; congruence.
Qed.

Lemma append_nil_r (a : string) : a ++ "" = a.
Proof.
  induction a as [|x a IH]; simpl; congruence.
Qed.

(** ** [PostgresDriver.TransformQuery] *)

Lemma appendParts_cons (c : ascii) (parts : list string) :
  forall i result,
    PostgresDriver.appendParts i parts (String c result)
    = String c (PostgresDriver.appendParts i parts result).
Proof.
  induction parts as [|p rest IH]; intros i result; simpl; [reflexivity|].
  apply IH.
Qed.

Lemma appendParts_empty (parts : list string) :
  forall i result,
    PostgresDriver.appendParts i parts result
    = result ++ PostgresDriver.appendParts i parts EmptyString.
Proof.
  induction parts as [|p rest IH]; intros i result; simpl.
  - now rewrite append_nil_r.
  - rewrite IH. rewrite (IH (S i) (String "$" _)).
    now rewrite append_assoc.
Qed.

(** The loop over the parts of [Split] numbers the marks of the string. *)
Lemma appendParts_Split (s : string) :
  forall k,
    match strings.Split s "?" with
    | [] => False
    | p0 :: rest => PostgresDriver.appendParts k rest p0 = Described.number_marks k s
    end.
Proof.
  induction s as [|c r IH]; intros k; simpl; [reflexivity|].
  destruct (Ascii.eqb c "?") eqn:Hc.
  - specialize (IH (S k)).
    destruct (strings.Split r "?") as [|p0 rest]; [contradiction|].
    simpl. rewrite <- IH.
    rewrite (appendParts_empty rest (S k) (String _ _)).
    rewrite (appendParts_empty rest (S k) p0).
    simpl. now rewrite append_assoc.
  - specialize (IH k).
    destruct (strings.Split r "?") as [|p0 rest]; [contradiction|].
    rewrite appendParts_cons. now rewrite IH.
Qed.

Lemma Split_singleton (s : string) (sep : ascii) :
  forall p, strings.Split s sep = [p] -> p = s.
Proof.
  induction s as [|c r IH]; intros p; simpl.
  - now intros [= <-].
  - destruct (Ascii.eqb c sep).
    + intros [= _ H]. now apply Split_nonempty in H.
    + destruct (strings.Split r sep) as [|p' ps] eqn:E.
      * now apply Split_nonempty in E.
      * intros [= <- ->]. now rewrite (IH p' eq_refl).
Qed.

(** The code's [TransformQuery] numbers every [?] of the statement. *)
Lemma TransformQuery_number_marks (d : PostgresDriver.t) (query : string) :
  PostgresDriver.TransformQuery d query = Described.number_marks 1 query.
Proof.
  unfold PostgresDriver.TransformQuery.
  pose proof (appendParts_Split query 1) as H.
  destruct (strings.Split query "?") as [|p0 rest] eqn:E; [contradiction|].
  destruct rest as [|p1 rest].
  - simpl in *. rewrite <- H. symmetry. now apply (Split_singleton _ "?").
  - exact H.
Qed.

(** Where the statement has no quote, numbering every mark and numbering
    the marks outside literals are the same. *)
Lemma number_marks_without_quote (s : string) :
  forall k,
    strings.Contains s "'" = false ->
    Described.number_marks_outside_literals false k s = Described.number_marks k s.
Proof.
  induction s as [|c r IH]; intros k H; [reflexivity|].
  rewrite Contains_cons in H. apply orb_false_iff in H as [Hc Hr].
  simpl. rewrite Hc. destruct (Ascii.eqb c "?"); simpl; now rewrite IH.
Qed.

(** C1 (as amended): the PostgreSQL driver's TransformQuery rewrites every
    [?] character of the statement, from left to right, to [$1], [$2], ...,
    also a [?] inside a single-quoted literal.  The first example of the
    specification comes out as stated; the second comes out with both
    marks numbered. *)
Theorem PostgresDriver_TransformQuery_every_mark :
  (forall (d : PostgresDriver.t) (query : string),
      PostgresDriver.TransformQuery d query = Described.number_marks 1 query)
  /\ PostgresDriver.TransformQuery PostgresDriver.zero
       "SELECT * FROM t WHERE a=? AND b=?"
     = "SELECT * FROM t WHERE a=$1 AND b=$2"
  /\ PostgresDriver.TransformQuery PostgresDriver.zero
       "SELECT '?' FROM t WHERE a=?"
     = "SELECT '$1' FROM t WHERE a=$2".
Proof.
  split; [exact TransformQuery_number_marks|].
  split; reflexivity.
Qed.

(** C1 (as stated) fails: the [?] inside the literal is rewritten. *)
Lemma PostgresDriver_TransformQuery_rewrites_literal :
  PostgresDriver.TransformQuery PostgresDriver.zero "SELECT '?' FROM t WHERE a=?"
  <> "SELECT '?' FROM t WHERE a=$1"
  /\ PostgresDriver.TransformQuery PostgresDriver.zero "SELECT '?' FROM t WHERE a=?"
     <> Described.number_marks_outside_literals false 1 "SELECT '?' FROM t WHERE a=?".
Proof.
  split; vm_compute; discriminate.
Qed.

(** ** [SQLiteDriver.TransformQuery] *)

(** C6: the SQLite driver's TransformQuery is the identity, and so
    applying it twice is the same as applying it once. *)
Theorem SQLiteDriver_TransformQuery_identity :
  forall (d : SQLiteDriver.t) (q : string),
    SQLiteDriver.TransformQuery d q = q
    /\ SQLiteDriver.TransformQuery d (SQLiteDriver.TransformQuery d q)
       = SQLiteDriver.TransformQuery d q.
Proof.
  intros d q. split; reflexivity.
Qed.

(** ** [TransformQuery] of the interface *)

Lemma PostgresDriver_TransformQuery_no_mark (d : PostgresDriver.t) (q : string) :
  strings.Contains q "?" = false -> PostgresDriver.TransformQuery d q = q.
Proof.
  intros H. unfold PostgresDriver.TransformQuery.
  now rewrite (Split_without_sep q "?" H).
Qed.

(** ** [SQLiteDriver.Connect] *)

Lemma executed_app (l1 l2 : list Event) :
  Described.executed (l1 ++ l2) = (Described.executed l1 ++ Described.executed l2)%list.
Proof.
  induction l1 as [|ev l1 IH]; simpl; [reflexivity|].
  destruct ev; simpl; congruence.
Qed.

Ltac run_monad :=
  unfold bind, ret, panic, MkdirAll, Open, Ping, Exec, setPool,
    Stat_IsNotExist, ReadFile; simpl.

Section ConnectFacts.

Context {sys : Sys}.

(** A successful Connect of the source file: every call succeeded, the
    last of them being the [Exec] of the pragma with the colon. *)
Lemma Connect_success (d : SQLiteDriver.t) (conf : DBConfig)
    (s s' : State sys) (d' : SQLiteDriver.t) :
  SQLiteDriver.Connect d conf s = (Ret (None, d'), s') ->
  exists w1 w2 w3 w4,
    os_MkdirAll sys (filepath_Dir sys (SQLitePath conf)) (fst s) = (None, w1)
    /\ sql_Open sys "sqlite" (SQLiteDriver.dsn_of conf) w1 = (None, w2)
    /\ sql_Ping sys (opened conf) w2 = (None, w3)
    /\ sql_Exec sys (opened conf) "PRAGMA foreign_keys = ON:" w3 = (None, w4)
    /\ s' = (w4, (snd s ++ connect_calls sys conf "PRAGMA foreign_keys = ON:")%list)
    /\ d' = connected conf.
Proof.
  unfold SQLiteDriver.Connect. run_monad.
  destruct (os_MkdirAll sys _ (fst s)) as [[e1|] w1] eqn:E1; simpl; [discriminate|].
  destruct (sql_Open sys _ _ w1) as [[e2|] w2] eqn:E2; simpl; [discriminate|].
  fold (opened conf).
  destruct (sql_Ping sys _ w2) as [[e3|] w3] eqn:E3; simpl; [discriminate|].
  destruct (sql_Exec sys _ _ w3) as [[e4|] w4] eqn:E4; simpl; [discriminate|].
  intros [= <- <-].
  exists w1, w2, w3, w4. repeat split; try assumption.
  unfold connect_calls. now rewrite <- !app_assoc.
Qed.

(** The same for the Connect of the guide, with the pragma it has. *)
Lemma Connect_guide_success (d : SQLiteDriver.t) (conf : DBConfig)
    (s s' : State sys) (d' : SQLiteDriver.t) :
  SQLiteDriver.Connect_guide d conf s = (Ret (None, d'), s') ->
  exists w1 w2 w3 w4,
    os_MkdirAll sys (filepath_Dir sys (SQLitePath conf)) (fst s) = (None, w1)
    /\ sql_Open sys "sqlite" (SQLiteDriver.dsn_of conf) w1 = (None, w2)
    /\ sql_Ping sys (opened conf) w2 = (None, w3)
    /\ sql_Exec sys (opened conf) "PRAGMA foreign_keys = ON;" w3 = (None, w4)
    /\ s' = (w4, (snd s ++ connect_calls sys conf "PRAGMA foreign_keys = ON;")%list)
    /\ d' = connected conf.
Proof.
  unfold SQLiteDriver.Connect_guide. run_monad.
  destruct (os_MkdirAll sys _ (fst s)) as [[e1|] w1] eqn:E1; simpl; [discriminate|].
  destruct (sql_Open sys _ _ w1) as [[e2|] w2] eqn:E2; simpl; [discriminate|].
  fold (opened conf).
  destruct (sql_Ping sys _ w2) as [[e3|] w3] eqn:E3; simpl; [discriminate|].
  destruct (sql_Exec sys _ _ w3) as [[e4|] w4] eqn:E4; simpl; [discriminate|].
  intros [= <- <-].
  exists w1, w2, w3, w4. repeat split; try assumption.
  unfold connect_calls. now rewrite <- !app_assoc.
Qed.

(** The Connect of the source file, by the answers to its calls. *)
Lemma Connect_cases (d : SQLiteDriver.t) (conf : DBConfig) (s : State sys) :
  SQLiteDriver.Connect d conf s
  = match os_MkdirAll sys (filepath_Dir sys (SQLitePath conf)) (fst s) with
    | (Some e, w1) =>
        (Ret (Some (Errorf_w "failed to create database directory: " e), d),
         (w1, (snd s ++ [EvMkdirAll (filepath_Dir sys (SQLitePath conf))])%list))
    | (None, w1) =>
        match sql_Open sys "sqlite" (SQLiteDriver.dsn_of conf) w1 with
        | (Some e, w2) =>
            (Panic,
             (w2, (snd s ++ [EvMkdirAll (filepath_Dir sys (SQLitePath conf));
                             EvOpen "sqlite" (SQLiteDriver.dsn_of conf)])%list))
        | (None, w2) =>
            match sql_Ping sys (opened conf) w2 with
            | (Some e, w3) =>
                (Ret (Some (Errorf_w "failed to ping the SQLite database: " e), d),
                 (w3, (snd s ++ [EvMkdirAll (filepath_Dir sys (SQLitePath conf));
                                 EvOpen "sqlite" (SQLiteDriver.dsn_of conf);
                                 EvPing (opened conf)])%list))
            | (None, w3) =>
                match sql_Exec sys (opened conf) "PRAGMA foreign_keys = ON:" w3 with
                | (Some e, w4) =>
                    (Ret (Some (Errorf_w "failed to enable foreign keys: " e), d),
                     (w4, (snd s ++ connect_calls sys conf "PRAGMA foreign_keys = ON:")%list))
                | (None, w4) =>
                    (Ret (None, connected conf),
                     (w4, (snd s ++ connect_calls sys conf "PRAGMA foreign_keys = ON:")%list))
                end
            end
        end
    end.
Proof.
  unfold SQLiteDriver.Connect. run_monad.
  destruct (os_MkdirAll sys _ (fst s)) as [[e1|] w1]; simpl; [reflexivity|].
  destruct (sql_Open sys _ _ w1) as [[e2|] w2]; simpl;
    [now rewrite <- !app_assoc|].
  fold (opened conf).
  destruct (sql_Ping sys _ w2) as [[e3|] w3]; simpl;
    [now rewrite <- !app_assoc|].
  destruct (sql_Exec sys _ _ w3) as [[e4|] w4]; simpl;
    unfold connect_calls; now rewrite <- !app_assoc.
Qed.

(** The Connect of the guide, by the answers to its calls. *)
Lemma Connect_guide_cases (d : SQLiteDriver.t) (conf : DBConfig) (s : State sys) :
  SQLiteDriver.Connect_guide d conf s
  = match os_MkdirAll sys (filepath_Dir sys (SQLitePath conf)) (fst s) with
    | (Some e, w1) =>
        (Ret (Some (Errorf_w "failed to create database directory: " e), d),
         (w1, (snd s ++ [EvMkdirAll (filepath_Dir sys (SQLitePath conf))])%list))
    | (None, w1) =>
        match sql_Open sys "sqlite" (SQLiteDriver.dsn_of conf) w1 with
        | (Some e, w2) =>
            (Ret (Some (Errorf_w "failed to connect to SQLite database: " e), d),
             (w2, (snd s ++ [EvMkdirAll (filepath_Dir sys (SQLitePath conf));
                             EvOpen "sqlite" (SQLiteDriver.dsn_of conf)])%list))
        | (None, w2) =>
            match sql_Ping sys (opened conf) w2 with
            | (Some e, w3) =>
                (Ret (Some (Errorf_w "failed to ping SQLite database: " e), d),
                 (w3, (snd s ++ [EvMkdirAll (filepath_Dir sys (SQLitePath conf));
                                 EvOpen "sqlite" (SQLiteDriver.dsn_of conf);
                                 EvPing (opened conf)])%list))
            | (None, w3) =>
                match sql_Exec sys (opened conf) "PRAGMA foreign_keys = ON;" w3 with
                | (Some e, w4) =>
                    (Ret (Some (Errorf_w "failed to enable foreign keys: " e), d),
                     (w4, (snd s ++ connect_calls sys conf "PRAGMA foreign_keys = ON;")%list))
                | (None, w4) =>
                    (Ret (None, connected conf),
                     (w4, (snd s ++ connect_calls sys conf "PRAGMA foreign_keys = ON;")%list))
                end
            end
        end
    end.
Proof.
  unfold SQLiteDriver.Connect_guide. run_monad.
  destruct (os_MkdirAll sys _ (fst s)) as [[e1|] w1]; simpl; [reflexivity|].
  destruct (sql_Open sys _ _ w1) as [[e2|] w2]; simpl;
    [now rewrite <- !app_assoc|].
  fold (opened conf).
  destruct (sql_Ping sys _ w2) as [[e3|] w3]; simpl;
    [now rewrite <- !app_assoc|].
  destruct (sql_Exec sys _ _ w3) as [[e4|] w4]; simpl;
    unfold connect_calls; now rewrite <- !app_assoc.
Qed.

(** Setting the idle limit leaves the open limit alone. *)
Lemma maxOpen_SetMaxIdleConns (n : Z) (p : DB) :
  maxOpen (SetMaxIdleConns n p) = maxOpen p.
Proof.
  unfold SetMaxIdleConns. simpl.
  destruct (_ && _); reflexivity.
Qed.

Lemma maxOpen_SetMaxOpenConns (n : Z) (p : DB) :
  maxOpen (SetMaxOpenConns n p) = if (n <? 0)%Z then 0%Z else n.
Proof.
  unfold SetMaxOpenConns. simpl.
  destruct (_ && _); [rewrite maxOpen_SetMaxIdleConns|]; reflexivity.
Qed.

Lemma openLimit_connected (conf : DBConfig) (p : DB) :
  SQLiteDriver.db (connected conf) = Some p ->
  openLimit p
  = if (MaxOpenConns conf <=? 0)%Z then None else Some (MaxOpenConns conf).
Proof.
  intros [= <-]. unfold openLimit.
  rewrite maxOpen_SetMaxIdleConns, maxOpen_SetMaxOpenConns.
  destruct (MaxOpenConns conf <? 0)%Z eqn:E1;
    destruct (MaxOpenConns conf <=? 0)%Z eqn:E2; try reflexivity; lia.
Qed.

End ConnectFacts.

(** C5 (as amended): after a successful SQLite Connect, of the source file
    or of the guide, the pool's limit on open connections is the
    MaxOpenConns of the configuration it was given (no limit when that is
    zero or negative).  Connect applies no cap of its own; the limit is one
    for a configuration made by NewSQLiteConfig, whose MaxOpenConns is 1. *)
Theorem Connect_open_limit_is_configured :
  forall (sys : Sys) (d d' : SQLiteDriver.t) (conf : DBConfig) (s s' : State sys),
    SQLiteDriver.Connect d conf s = (Ret (None, d'), s')
    \/ SQLiteDriver.Connect_guide d conf s = (Ret (None, d'), s') ->
    exists p,
      SQLiteDriver.db d' = Some p
      /\ openLimit p
         = (if (MaxOpenConns conf <=? 0)%Z then None else Some (MaxOpenConns conf))
      /\ (forall path, conf = NewSQLiteConfig path -> openLimit p = Some 1%Z).
Proof.
  intros sys d d' conf s s' H.
  assert (Hd : d' = connected conf).
  { destruct H as [H|H].
    - apply Connect_success in H. destruct H as (?&?&?&?&_&_&_&_&_&->). reflexivity.
    - apply Connect_guide_success in H.
      destruct H as (?&?&?&?&_&_&_&_&_&->). reflexivity. }
  subst d'. eexists. split; [reflexivity|].
  split.
  - now apply openLimit_connected.
  - intros path ->. reflexivity.
Qed.

Lemma Connect_open_limit_is_configured_witness :
  exists p,
    Some (SetMaxIdleConns 2 (SetMaxOpenConns 1 (opened (NewSQLiteConfig "data/tujifund.db"))))
    = Some p
    /\ openLimit p = Some 1%Z
    /\ (forall path,
          NewSQLiteConfig "data/tujifund.db" = NewSQLiteConfig path ->
          openLimit p = Some 1%Z).
Proof.
  exact (Connect_open_limit_is_configured
           (Fixture.system (Fixture.sound []))
           SQLiteDriver.zero
           (connected (NewSQLiteConfig "data/tujifund.db"))
           (NewSQLiteConfig "data/tujifund.db")
           (Fixture.start _)
           _
           (or_intror eq_refl)).
Defined.

(** C5 (as stated) fails: with MaxOpenConns 10 in the configuration, a
    successful Connect, of the source file or of the guide, leaves a pool
    that may open ten connections. *)
Lemma Connect_keeps_ten_connections :
  (exists d' s' p,
      SQLiteDriver.Connect (sys := Fixture.system (Fixture.permissive []))
        SQLiteDriver.zero Fixture.ten_connections (Fixture.start _)
      = (Ret (None, d'), s')
      /\ SQLiteDriver.db d' = Some p
      /\ openLimit p = Some 10%Z)
  /\ (exists d' s' p,
      SQLiteDriver.Connect_guide (sys := Fixture.system (Fixture.sound []))
        SQLiteDriver.zero Fixture.ten_connections (Fixture.start _)
      = (Ret (None, d'), s')
      /\ SQLiteDriver.db d' = Some p
      /\ openLimit p = Some 10%Z).
Proof.
  split; do 3 eexists; (split; [cbv; reflexivity|]); split; reflexivity.
Qed.

(** C8: where the claim breaks.  When [os.MkdirAll] succeeds and [sql.Open]
    fails, the Connect of the source file does not return the error: the
    branch for it is empty, and the [Ping] on the nil handle panics. *)
Theorem Connect_open_failure_panics :
  forall (sys : Sys) (d : SQLiteDriver.t) (conf : DBConfig) (s : State sys)
         (w1 w2 : World sys) (e : error),
    os_MkdirAll sys (filepath_Dir sys (SQLitePath conf)) (fst s) = (None, w1) ->
    sql_Open sys "sqlite" (SQLiteDriver.dsn_of conf) w1 = (Some e, w2) ->
    fst (SQLiteDriver.Connect d conf s) = Panic.
Proof.
  intros sys d conf s w1 w2 e H1 H2.
  unfold SQLiteDriver.Connect. run_monad.
  rewrite H1. simpl. rewrite H2. reflexivity.
Qed.

Lemma Connect_open_failure_panics_witness :
  fst (SQLiteDriver.Connect (sys := Fixture.system (Fixture.no_driver []))
         SQLiteDriver.zero (NewSQLiteConfig "data/tujifund.db") (Fixture.start _))
  = Panic.
Proof.
  apply (Connect_open_failure_panics (Fixture.system (Fixture.no_driver []))
           SQLiteDriver.zero (NewSQLiteConfig "data/tujifund.db") (Fixture.start _)
           (Fixture.mkEngine ["data"] [] false)
           (Fixture.mkEngine ["data"] [] false)
           (errorString "sql: unknown driver")); reflexivity.
Defined.

Section ConnectFailures.

Context {sys : Sys}.

(** X13: an error the source file's Connect returns is the error of one
    of its calls, wrapped: of MkdirAll, or of the Ping of the opened pool,
    or of the Exec of its pragma, each with its own message before the
    cause's; the calls before the failing one have succeeded, and the
    handle is left as it was. *)
Lemma Connect_error (d d' : SQLiteDriver.t) (conf : DBConfig)
    (s s' : State sys) (e : error) :
  SQLiteDriver.Connect d conf s = (Ret (Some e, d'), s') ->
  d' = d
  /\ exists cause,
       (e = Errorf_w "failed to create database directory: " cause
        /\ os_MkdirAll sys (filepath_Dir sys (SQLitePath conf)) (fst s)
           = (Some cause, fst s'))
       \/ (e = Errorf_w "failed to ping the SQLite database: " cause
           /\ exists w1 w2,
                os_MkdirAll sys (filepath_Dir sys (SQLitePath conf)) (fst s) = (None, w1)
                /\ sql_Open sys "sqlite" (SQLiteDriver.dsn_of conf) w1 = (None, w2)
                /\ sql_Ping sys (opened conf) w2 = (Some cause, fst s'))
       \/ (e = Errorf_w "failed to enable foreign keys: " cause
           /\ exists w1 w2 w3,
                os_MkdirAll sys (filepath_Dir sys (SQLitePath conf)) (fst s) = (None, w1)
                /\ sql_Open sys "sqlite" (SQLiteDriver.dsn_of conf) w1 = (None, w2)
                /\ sql_Ping sys (opened conf) w2 = (None, w3)
                /\ sql_Exec sys (opened conf) "PRAGMA foreign_keys = ON:" w3
                   = (Some cause, fst s')).
Proof.
  rewrite Connect_cases.
  destruct (os_MkdirAll sys _ (fst s)) as [[e1|] w1].
  { intros [= <- <- <-]. split; [reflexivity|]. exists e1. left. now split. }
  destruct (sql_Open sys _ _ w1) as [[e2|] w2] eqn:E2; [discriminate|].
  destruct (sql_Ping sys _ w2) as [[e3|] w3] eqn:E3.
  { intros [= <- <- <-]. split; [reflexivity|]. exists e3. right. left.
    split; [reflexivity|]. now exists w1, w2. }
  destruct (sql_Exec sys _ _ w3) as [[e4|] w4] eqn:E4; [|discriminate].
  intros [= <- <- <-]. split; [reflexivity|]. exists e4. right. right.
  split; [reflexivity|]. now exists w1, w2, w3.
Qed.

(** X14: the Connect of the guide does what C8 says.  It never panics.
    When the directory is made and [sql.Open] fails, it returns the error
    of [sql.Open] wrapped, with the handle as it was, and calls nothing
    more.  Every error it returns is the error of one of its four calls,
    wrapped with the message of that call, the calls before it having
    succeeded, and the handle is left as it was. *)
Lemma Connect_guide_failure (d : SQLiteDriver.t) (conf : DBConfig) (s : State sys) :
  fst (SQLiteDriver.Connect_guide d conf s) <> Panic
  /\ (forall w1 w2 cause,
         os_MkdirAll sys (filepath_Dir sys (SQLitePath conf)) (fst s) = (None, w1) ->
         sql_Open sys "sqlite" (SQLiteDriver.dsn_of conf) w1 = (Some cause, w2) ->
         SQLiteDriver.Connect_guide d conf s
         = (Ret (Some (Errorf_w "failed to connect to SQLite database: " cause), d),
            (w2, (snd s ++ [EvMkdirAll (filepath_Dir sys (SQLitePath conf));
                            EvOpen "sqlite" (SQLiteDriver.dsn_of conf)])%list)))
  /\ (forall d' s' e,
         SQLiteDriver.Connect_guide d conf s = (Ret (Some e, d'), s') ->
         d' = d
         /\ exists cause,
              (e = Errorf_w "failed to create database directory: " cause
               /\ os_MkdirAll sys (filepath_Dir sys (SQLitePath conf)) (fst s)
                  = (Some cause, fst s'))
              \/ (e = Errorf_w "failed to connect to SQLite database: " cause
                  /\ exists w1,
                       os_MkdirAll sys (filepath_Dir sys (SQLitePath conf)) (fst s)
                       = (None, w1)
                       /\ sql_Open sys "sqlite" (SQLiteDriver.dsn_of conf) w1
                          = (Some cause, fst s'))
              \/ (e = Errorf_w "failed to ping SQLite database: " cause
                  /\ exists w1 w2,
                       os_MkdirAll sys (filepath_Dir sys (SQLitePath conf)) (fst s)
                       = (None, w1)
                       /\ sql_Open sys "sqlite" (SQLiteDriver.dsn_of conf) w1 = (None, w2)
                       /\ sql_Ping sys (opened conf) w2 = (Some cause, fst s'))
              \/ (e = Errorf_w "failed to enable foreign keys: " cause
                  /\ exists w1 w2 w3,
                       os_MkdirAll sys (filepath_Dir sys (SQLitePath conf)) (fst s)
                       = (None, w1)
                       /\ sql_Open sys "sqlite" (SQLiteDriver.dsn_of conf) w1 = (None, w2)
                       /\ sql_Ping sys (opened conf) w2 = (None, w3)
                       /\ sql_Exec sys (opened conf) "PRAGMA foreign_keys = ON;" w3
                          = (Some cause, fst s'))).
Proof.
  rewrite Connect_guide_cases.
  destruct (os_MkdirAll sys _ (fst s)) as [[e1|] w1].
  { split; [discriminate|]. split; [discriminate|].
    intros d' s' e [= <- <- <-]. split; [reflexivity|]. exists e1. left. now split. }
  destruct (sql_Open sys _ _ w1) as [[e2|] w2] eqn:E2.
  { split; [discriminate|]. split.
    - intros w1' w2' cause [= <-]. rewrite E2. now intros [= <- <-].
    - intros d' s' e [= <- <- <-]. split; [reflexivity|]. exists e2. right. left.
      split; [reflexivity|]. now exists w1. }
  destruct (sql_Ping sys _ w2) as [[e3|] w3] eqn:E3.
  { split; [discriminate|]. split.
    - intros w1' w2' cause [= <-]. rewrite E2. discriminate.
    - intros d' s' e [= <- <- <-]. split; [reflexivity|]. exists e3.
      right. right. left. split; [reflexivity|]. now exists w1, w2. }
  destruct (sql_Exec sys _ _ w3) as [[e4|] w4] eqn:E4.
  { split; [discriminate|]. split.
    - intros w1' w2' cause [= <-]. rewrite E2. discriminate.
    - intros d' s' e [= <- <- <-]. split; [reflexivity|]. exists e4.
      right. right. right. split; [reflexivity|]. now exists w1, w2, w3. }
  split; [discriminate|]. split; [|discriminate].
  intros w1' w2' cause [= <-]. rewrite E2. discriminate.
Qed.

(** [NewDriver] hands out a driver only with no error, and then the
    driver has a pool. *)
Lemma NewDriver_driver_has_pool (conf : DBConfig) (s s' : State sys)
    (drv : DBDriver) (err : option error) :
  NewDriver conf s = (Ret (Some drv, err), s') ->
  err = None /\ pool drv <> None.
Proof.
  unfold NewDriver.
  destruct (Driver conf =? "sqlite").
  - unfold bind at 1.
    destruct (SQLiteDriver.Connect SQLiteDriver.zero conf s) as [[[[e|] d']|] s1] eqn:E;
      unfold ret; try discriminate.
    intros [= <- <- <-]. split; [reflexivity|].
    apply Connect_success in E. destruct E as (?&?&?&?&_&_&_&_&_&->).
    discriminate.
  - destruct (Driver conf =? "postgres"); [|unfold ret; discriminate].
    unfold PostgresDriver.Connect. run_monad.
    destruct (sql_Open sys _ _ (fst s)) as [[e2|] w2]; simpl; [discriminate|].
    destruct (sql_Ping sys _ w2) as [[e3|] w3]; simpl; [discriminate|].
    intros [= <- <- <-]. split; [reflexivity | discriminate].
Qed.

End ConnectFailures.

(** C9: a successful SQLite Connect, of the source file or of the guide,
    has opened the data source that asks for WAL journaling and has then
    executed its foreign-key pragma statement, the engine answering no
    error; these are its last calls, after the directory and the ping.
    When the engine answers an error to the pragma, Connect returns that
    error wrapped as "failed to enable foreign keys", with the handle as it
    was.  The pragma statement of the source file ends in a colon: on an
    engine that refuses that statement its Connect never returns success. *)
Theorem Connect_success_follows_pragma :
  forall (sys : Sys) (d : SQLiteDriver.t) (conf : DBConfig) (s : State sys),
    (forall d' s',
        SQLiteDriver.Connect d conf s = (Ret (None, d'), s') ->
        exists w1 w2 w3,
          os_MkdirAll sys (filepath_Dir sys (SQLitePath conf)) (fst s) = (None, w1)
          /\ sql_Open sys "sqlite"
               ("file:" ++ SQLitePath conf ++ "?cache=shared&_journal_mode=WAL") w1
             = (None, w2)
          /\ sql_Ping sys (opened conf) w2 = (None, w3)
          /\ sql_Exec sys (opened conf) "PRAGMA foreign_keys = ON:" w3 = (None, fst s')
          /\ snd s' = (snd s ++ connect_calls sys conf "PRAGMA foreign_keys = ON:")%list)
    /\ (forall d' s',
          SQLiteDriver.Connect_guide d conf s = (Ret (None, d'), s') ->
          exists w1 w2 w3,
            os_MkdirAll sys (filepath_Dir sys (SQLitePath conf)) (fst s) = (None, w1)
            /\ sql_Open sys "sqlite"
                 ("file:" ++ SQLitePath conf ++ "?cache=shared&_journal_mode=WAL") w1
               = (None, w2)
            /\ sql_Ping sys (opened conf) w2 = (None, w3)
            /\ sql_Exec sys (opened conf) "PRAGMA foreign_keys = ON;" w3 = (None, fst s')
            /\ snd s' = (snd s ++ connect_calls sys conf "PRAGMA foreign_keys = ON;")%list)
    /\ (forall w1 w2 w3 w4 cause,
          os_MkdirAll sys (filepath_Dir sys (SQLitePath conf)) (fst s) = (None, w1) ->
          sql_Open sys "sqlite" (SQLiteDriver.dsn_of conf) w1 = (None, w2) ->
          sql_Ping sys (opened conf) w2 = (None, w3) ->
          (sql_Exec sys (opened conf) "PRAGMA foreign_keys = ON:" w3 = (Some cause, w4) ->
           SQLiteDriver.Connect d conf s
           = (Ret (Some (Errorf_w "failed to enable foreign keys: " cause), d),
              (w4, (snd s ++ connect_calls sys conf "PRAGMA foreign_keys = ON:")%list)))
          /\ (sql_Exec sys (opened conf) "PRAGMA foreign_keys = ON;" w3 = (Some cause, w4) ->
              SQLiteDriver.Connect_guide d conf s
              = (Ret (Some (Errorf_w "failed to enable foreign keys: " cause), d),
                 (w4, (snd s ++ connect_calls sys conf "PRAGMA foreign_keys = ON;")%list))))
    /\ ((forall p w, fst (sql_Exec sys p "PRAGMA foreign_keys = ON:" w) <> None) ->
        forall d' s', SQLiteDriver.Connect d conf s <> (Ret (None, d'), s')).
Proof.
  intros sys d conf s. split; [|split; [|split]].
  - intros d' s' H. apply Connect_success in H.
    destruct H as (w1 & w2 & w3 & w4 & H1 & H2 & H3 & H4 & -> & _).
    now exists w1, w2, w3.
  - intros d' s' H. apply Connect_guide_success in H.
    destruct H as (w1 & w2 & w3 & w4 & H1 & H2 & H3 & H4 & -> & _).
    now exists w1, w2, w3.
  - intros w1 w2 w3 w4 cause H1 H2 H3. split; intros H4.
    + now rewrite Connect_cases, H1, H2, H3, H4.
    + now rewrite Connect_guide_cases, H1, H2, H3, H4.
  - intros Hstrict d' s' H. apply Connect_success in H.
    destruct H as (w1 & w2 & w3 & w4 & _ & _ & _ & H4 & _).
    apply (Hstrict (opened conf) w3). now rewrite H4.
Qed.

Lemma Connect_success_follows_pragma_witness :
  (exists w1 w2 w3,
      os_MkdirAll (Fixture.system (Fixture.sound [])) "data" Fixture.empty = (None, w1)
      /\ sql_Open (Fixture.system (Fixture.sound [])) "sqlite"
           "file:data/tujifund.db?cache=shared&_journal_mode=WAL" w1
         = (None, w2)
      /\ sql_Ping (Fixture.system (Fixture.sound []))
           (opened (NewSQLiteConfig "data/tujifund.db")) w2
         = (None, w3)
      /\ sql_Exec (Fixture.system (Fixture.sound []))
           (opened (NewSQLiteConfig "data/tujifund.db")) "PRAGMA foreign_keys = ON;" w3
         = (None, Fixture.mkEngine ["data"] [] true)
      /\ connect_calls (Fixture.system (Fixture.sound []))
           (NewSQLiteConfig "data/tujifund.db") "PRAGMA foreign_keys = ON;"
         = ([] ++ connect_calls (Fixture.system (Fixture.sound []))
                    (NewSQLiteConfig "data/tujifund.db") "PRAGMA foreign_keys = ON;")%list)
  /\ SQLiteDriver.Connect (sys := Fixture.system (Fixture.sound []))
       SQLiteDriver.zero (NewSQLiteConfig "data/tujifund.db") (Fixture.start _)
     = (Ret (Some (Errorf_w "failed to enable foreign keys: "
                     (errorString "SQL logic error: syntax error")),
             SQLiteDriver.zero),
        (Fixture.mkEngine ["data"] [] false,
         ([] ++ connect_calls (Fixture.system (Fixture.sound []))
                  (NewSQLiteConfig "data/tujifund.db") "PRAGMA foreign_keys = ON:")%list))
  /\ (forall d' s',
         SQLiteDriver.Connect (sys := Fixture.system (Fixture.sound []))
           SQLiteDriver.zero (NewSQLiteConfig "data/tujifund.db") (Fixture.start _)
         <> (Ret (None, d'), s')).
Proof.
  pose proof (Connect_success_follows_pragma (Fixture.system (Fixture.sound []))
                SQLiteDriver.zero (NewSQLiteConfig "data/tujifund.db") (Fixture.start _))
    as (_ & Hguide & Hfail & Hnever).
  split; [|split].
  - exact (Hguide (connected (NewSQLiteConfig "data/tujifund.db"))
             (Fixture.mkEngine ["data"] [] true,
              connect_calls (Fixture.system (Fixture.sound []))
                (NewSQLiteConfig "data/tujifund.db") "PRAGMA foreign_keys = ON;")
             eq_refl).
  - exact (proj1 (Hfail (Fixture.mkEngine ["data"] [] false)
                    (Fixture.mkEngine ["data"] [] false)
                    (Fixture.mkEngine ["data"] [] false)
                    (Fixture.mkEngine ["data"] [] false)
                    (errorString "SQL logic error: syntax error")
                    eq_refl eq_refl eq_refl) eq_refl).
  - apply Hnever. intros p w. discriminate.
Defined.

(** An engine that takes the foreign-key pragma but no malformed statement
    makes the source file's Connect fail at the pragma, every time. *)
Lemma Connect_strict_engine_rejects_pragma :
  fst (SQLiteDriver.Connect (sys := Fixture.system (Fixture.sound []))
         SQLiteDriver.zero (NewSQLiteConfig "data/tujifund.db") (Fixture.start _))
  = Ret (Some (Errorf_w "failed to enable foreign keys: "
                 (errorString "SQL logic error: syntax error")),
         SQLiteDriver.zero).
Proof.
  reflexivity.
Qed.

(** X15: the Connect of the guide does what C9 says: when it returns
    success it has opened the data source with WAL journaling and the one
    statement it has executed is the foreign-key pragma. *)
Lemma Connect_guide_enables_foreign_keys (sys : Sys) (d d' : SQLiteDriver.t)
    (conf : DBConfig) (s s' : State sys) :
  SQLiteDriver.Connect_guide d conf s = (Ret (None, d'), s') ->
  exists calls,
    snd s' = (snd s ++ calls)%list
    /\ In (EvOpen "sqlite" ("file:" ++ SQLitePath conf ++ "?cache=shared&_journal_mode=WAL"))
          calls
    /\ executed calls = ["PRAGMA foreign_keys = ON;"].
Proof.
  intros H.
  apply Connect_guide_success in H. destruct H as (w1&w2&w3&w4&_&_&_&_&->&_).
  exists (connect_calls sys conf "PRAGMA foreign_keys = ON;").
  split; [reflexivity|]. split; [simpl; auto|]. reflexivity.
Qed.

(** ** [SchemaManager.InitializeSchema] *)

Lemma prepare_cons (drv : DBDriver) (piece : string) (rest : list string) :
  prepare drv (piece :: rest)
  = if strings.TrimSpace piece =? ""
    then prepare drv rest
    else TransformQuery drv (strings.TrimSpace piece) :: prepare drv rest.
Proof.
  unfold prepare, nonblank. simpl.
  destruct (strings.TrimSpace piece =? ""); reflexivity.
Qed.

Section SchemaFacts.

Context {sys : Sys}.
Variable drv : DBDriver.
Variable p : DB.
Hypothesis Hpool : pool drv = Some p.

Lemma executed_exec_calls (queries : list string) :
  executed (exec_calls p queries) = queries.
Proof.
  induction queries as [|q rest IH]; simpl; congruence.
Qed.

Lemma loop_outcome_cons (q : string) (rest : list string) (s : State sys) :
  loop_outcome p (q :: rest) s
  = if fatal p q (fst s) then
      match fst (sql_Exec sys p q (fst s)) with
      | Some e =>
          (Ret (Some (Errorf_w "failed to execute schema statement: " e)),
           (snd (sql_Exec sys p q (fst s)), (snd s ++ [EvExec p q])%list))
      | None => loop_outcome p rest (snd (sql_Exec sys p q (fst s)),
                                   (snd s ++ [EvExec p q])%list)
      end
    else loop_outcome p rest (snd (sql_Exec sys p q (fst s)),
                            (snd s ++ [EvExec p q])%list).
Proof.
  unfold loop_outcome. simpl first_fatal.
  destruct (fatal p q (fst s)) eqn:Hf.
  - unfold fatal in Hf.
    destruct (fst (sql_Exec sys p q (fst s))) as [e|]; [|discriminate].
    reflexivity.
  - simpl fst. simpl snd.
    destruct (first_fatal p rest (snd (sql_Exec sys p q (fst s)))) as [[i e]|];
      simpl; now rewrite <- app_assoc.
Qed.

(** The loop of [InitializeSchema] stops at the first fatal failure and
    has executed the prepared statements up to it, in order. *)
Lemma execStatements_outcome (pieces : list string) :
  forall s : State sys,
    SchemaManager.execStatements drv pieces s = loop_outcome p (prepare drv pieces) s.
Proof.
  induction pieces as [|piece rest IH]; intros s.
  - unfold loop_outcome. simpl. unfold ret, exec_calls. simpl.
    rewrite app_nil_r. now destruct s.
  - rewrite prepare_cons. simpl SchemaManager.execStatements.
    destruct (strings.TrimSpace piece =? ""); [apply IH|].
    rewrite loop_outcome_cons.
    unfold DBDriver_Exec, bind, Exec. rewrite Hpool.
    unfold fatal.
    destruct (sql_Exec sys p _ (fst s)) as [[e|] w'] eqn:E; simpl.
    + destruct (strings.Contains (Error e) "already exists"); simpl.
      * apply IH.
      * reflexivity.
    + apply IH.
Qed.

Lemma InitializeSchema_outcome (schema : string) (s : State sys) :
  os_ReadFile sys (selected drv (fst s)) (fst s) = (schema, None) ->
  SchemaManager.InitializeSchema (SchemaManager.mk drv) s
  = loop_outcome p (statements_of drv schema)
      (fst s, (snd s ++ load_calls drv (fst s))%list).
Proof.
  intros Hread.
  unfold SchemaManager.InitializeSchema. run_monad.
  fold (selected drv (fst s)). rewrite Hread.
  rewrite execStatements_outcome. unfold load_calls.
  now rewrite <- app_assoc.
Qed.

(** [first_fatal] finds the first position at which a statement fails
    fatally in the world the statements before it have left. *)
Lemma first_fatal_at (queries : list string) :
  forall (w : World sys) (i : nat) (q : string) (cause : error),
    nth_error queries i = Some q ->
    (forall j qj, j < i -> nth_error queries j = Some qj ->
                  fatal p qj (exec_all p (firstn j queries) w) = false) ->
    fst (sql_Exec sys p q (exec_all p (firstn i queries) w)) = Some cause ->
    strings.Contains (Error cause) "already exists" = false ->
    first_fatal p queries w = Some (i, cause).
Proof.
  induction queries as [|q0 rest IH]; intros w i q cause Hnth Hbefore Hfail Hmsg.
  - destruct i; discriminate.
  - destruct i as [|i]; simpl in *.
    + injection Hnth as ->. unfold fatal. rewrite Hfail, Hmsg. reflexivity.
    + pose proof (Hbefore 0 q0 (Nat.lt_0_succ i) eq_refl) as H0.
      simpl in H0. rewrite H0.
      rewrite (IH (snd (sql_Exec sys p q0 w)) i q cause Hnth); auto.
      intros j qj Hj Hq. apply (Hbefore (S j) qj); [lia | exact Hq].
Qed.

Lemma first_fatal_inv (queries : list string) :
  forall (w : World sys) (i : nat) (cause : error),
    first_fatal p queries w = Some (i, cause) ->
    exists q,
      nth_error queries i = Some q
      /\ fst (sql_Exec sys p q (exec_all p (firstn i queries) w)) = Some cause
      /\ strings.Contains (Error cause) "already exists" = false.
Proof.
  induction queries as [|q0 rest IH]; intros w i cause H; [discriminate|].
  simpl in H. destruct (fatal p q0 w) eqn:Hf.
  - unfold fatal in Hf.
    destruct (fst (sql_Exec sys p q0 w)) as [e|] eqn:E; [|discriminate].
    injection H as <- <-. exists q0. simpl. repeat split; auto.
    now apply negb_true_iff in Hf.
  - destruct (first_fatal p rest (snd (sql_Exec sys p q0 w))) as [[i' e]|] eqn:E;
      [|discriminate].
    injection H as <- <-. apply IH in E. exact E.
Qed.

Lemma first_fatal_none (queries : list string) :
  (forall q w e, In q queries -> fst (sql_Exec sys p q w) = Some e ->
                 strings.Contains (Error e) "already exists" = true) ->
  forall w : World sys, first_fatal p queries w = None.
Proof.
  induction queries as [|q0 rest IH]; intros H w; [reflexivity|].
  simpl. assert (Hf : fatal p q0 w = false).
  { unfold fatal. destruct (fst (sql_Exec sys p q0 w)) as [e|] eqn:E; [|reflexivity].
    now rewrite (H q0 w e (or_introl eq_refl) E). }
  rewrite Hf, IH; [reflexivity|].
  intros q w' e Hin. apply H. now right.
Qed.

Lemma first_fatal_none_at (queries : list string) :
  forall w : World sys,
    (forall j qj, nth_error queries j = Some qj ->
                  fatal p qj (exec_all p (firstn j queries) w) = false) ->
    first_fatal p queries w = None.
Proof.
  induction queries as [|q0 rest IH]; intros w H; [reflexivity|].
  simpl. rewrite (H 0 q0 eq_refl : fatal p q0 w = false).
  rewrite IH; [reflexivity|].
  intros j qj Hj. exact (H (S j) qj Hj).
Qed.

End SchemaFacts.

Lemma firstn_S_nth_error {A : Type} (l : list A) :
  forall i x, nth_error l i = Some x -> firstn (S i) l = (firstn i l ++ [x])%list.
Proof.
  induction l as [|a l IH]; intros [|i] x H; try discriminate.
  - now injection H as ->.
  - simpl in *. now rewrite <- (IH i x H).
Qed.

Lemma exec_all_app {sys : Sys} (p : DB) (l1 l2 : list string) :
  forall w : World sys, exec_all p (l1 ++ l2) w = exec_all p l2 (exec_all p l1 w).
Proof.
  induction l1 as [|q l1 IH]; intros w; simpl; [reflexivity|apply IH].
Qed.

(** C3 (as amended): given a connected driver, InitializeSchema splits the
    selected schema source on every [;] (also one inside a quoted literal),
    trims the pieces, discards the blank ones, passes each remaining
    statement through the driver's TransformQuery and executes them in
    source order, up to the first failure that is not an "already exists"
    one.  When no statement fails that way in the state the statements
    before it have left, every statement is executed, in order, and nil is
    returned.  When the statement at index [i] is the first to fail that
    way, the statements executed are those up to index [i], it included,
    in order, none after it, and the error is returned.  In both cases
    the calls are given exactly: the Stat and the ReadFile of the schema
    file, then one Exec for each statement executed. *)
Theorem InitializeSchema_executes_split_statements :
  forall (sys : Sys) (drv : DBDriver) (p : DB) (schema : string) (s : State sys),
    pool drv = Some p ->
    os_ReadFile sys (selected drv (fst s)) (fst s) = (schema, None) ->
    ((forall j qj,
         nth_error (statements_of drv schema) j = Some qj ->
         fatal p qj (exec_all p (firstn j (statements_of drv schema)) (fst s)) = false) ->
     SchemaManager.InitializeSchema (SchemaManager.mk drv) s
     = (Ret None,
        (exec_all p (statements_of drv schema) (fst s),
         (snd s ++ load_calls drv (fst s)
            ++ exec_calls p (statements_of drv schema))%list)))
    /\ (forall (i : nat) (q : string) (cause : error),
          nth_error (statements_of drv schema) i = Some q ->
          (forall j qj,
              j < i ->
              nth_error (statements_of drv schema) j = Some qj ->
              fatal p qj (exec_all p (firstn j (statements_of drv schema)) (fst s))
              = false) ->
          fst (sql_Exec sys p q
                 (exec_all p (firstn i (statements_of drv schema)) (fst s)))
          = Some cause ->
          strings.Contains (Error cause) "already exists" = false ->
          SchemaManager.InitializeSchema (SchemaManager.mk drv) s
          = (Ret (Some (Errorf_w "failed to execute schema statement: " cause)),
             (exec_all p (firstn (S i) (statements_of drv schema)) (fst s),
              (snd s ++ load_calls drv (fst s)
                 ++ exec_calls p (firstn (S i) (statements_of drv schema)))%list))).
Proof.
  intros sys drv p schema s Hpool Hread.
  rewrite (InitializeSchema_outcome drv p Hpool schema s Hread).
  unfold loop_outcome. simpl fst. simpl snd. split.
  - intros Hnone. rewrite (first_fatal_none_at p _ _ Hnone).
    now rewrite <- app_assoc.
  - intros i q cause Hq Hbefore Hfail Hmsg.
    rewrite (first_fatal_at p _ _ i q cause Hq Hbefore Hfail Hmsg).
    now rewrite <- app_assoc.
Qed.

Lemma InitializeSchema_executes_split_statements_witness :
  SchemaManager.InitializeSchema
    (sys := Fixture.scripted [] Fixture.two_tables)
    (SchemaManager.mk Fixture.sqlite_driver) ([], [])
  = (Ret None,
     (["CREATE TABLE users (id INTEGER)"; "CREATE TABLE loans (id INTEGER)"],
      [EvStat "database/schema_sqlite.sql";
       EvReadFile "database/database_schema.sql";
       EvExec Fixture.sqlite_pool "CREATE TABLE users (id INTEGER)";
       EvExec Fixture.sqlite_pool "CREATE TABLE loans (id INTEGER)"]))
  /\ SchemaManager.InitializeSchema
       (sys := Fixture.scripted Fixture.drop_fails Fixture.drop_third)
       (SchemaManager.mk Fixture.sqlite_driver) ([], [])
     = (Ret (Some (Errorf_w "failed to execute schema statement: "
                     (errorString Fixture.near_everything))),
        (["CREATE TABLE users (id INTEGER)"; "CREATE TABLE loans (id INTEGER)"],
         [EvStat "database/schema_sqlite.sql";
          EvReadFile "database/database_schema.sql";
          EvExec Fixture.sqlite_pool "CREATE TABLE users (id INTEGER)";
          EvExec Fixture.sqlite_pool "CREATE TABLE loans (id INTEGER)";
          EvExec Fixture.sqlite_pool "DROP everything"])).
Proof.
  split.
  - refine (proj1 (InitializeSchema_executes_split_statements
                     (Fixture.scripted [] Fixture.two_tables)
                     Fixture.sqlite_driver Fixture.sqlite_pool
                     "CREATE TABLE users (id INTEGER); CREATE TABLE loans (id INTEGER);"
                     ([], []) eq_refl eq_refl) _).
    intros [|[|j]] qj Hq; [injection Hq as <-; reflexivity
                          |injection Hq as <-; reflexivity
                          |destruct j; discriminate].
  - refine (proj2 (InitializeSchema_executes_split_statements
                     (Fixture.scripted Fixture.drop_fails Fixture.drop_third)
                     Fixture.sqlite_driver Fixture.sqlite_pool
                     "CREATE TABLE users (id INTEGER); CREATE TABLE loans (id INTEGER); DROP everything;"
                     ([], []) eq_refl eq_refl)
                  2 "DROP everything" (errorString Fixture.near_everything)
                  eq_refl _ eq_refl eq_refl).
    intros [|[|j]] qj Hj Hq; [injection Hq as <-; reflexivity
                             |injection Hq as <-; reflexivity
                             |lia].
Defined.

(** C3 (as stated) fails: the terminator inside the literal ['a;b'] splits
    the statement in two, and both halves are executed. *)
Lemma InitializeSchema_splits_inside_literal :
  let run :=
    SchemaManager.InitializeSchema
      (sys := Fixture.system (Fixture.permissive Fixture.literal_schema))
      (SchemaManager.mk Fixture.sqlite_driver) (Fixture.start _) in
  fst run = Ret None
  /\ executed (snd (snd run)) = ["INSERT INTO t VALUES ('a"; "b')"]
  /\ statements_of_literal_aware Fixture.sqlite_driver "INSERT INTO t VALUES ('a;b')"
     = ["INSERT INTO t VALUES ('a;b')"]
  /\ executed (snd (snd run))
     <> statements_of_literal_aware Fixture.sqlite_driver "INSERT INTO t VALUES ('a;b')".
Proof.
  vm_compute. repeat split; discriminate.
Qed.

(** C4 (as amended): a statement failure whose message contains "already
    exists" is swallowed: when the statements fail in no other way,
    InitializeSchema executes all of them and returns nil, and it does so
    on a first call and on the call after it.  Any other failure aborts at
    once: when the statement at index [i] is the first to fail otherwise,
    with the engine's error [cause], no statement after it is executed and
    the error returned is [cause] wrapped, its message being "failed to
    execute schema statement: " followed by the message of [cause]: it is
    made from [cause] alone, without the index and without the statement.
    No error is returned in any other way. *)
Theorem InitializeSchema_swallows_already_exists :
  forall (sys : Sys) (drv : DBDriver) (p : DB) (schema : string),
    pool drv = Some p ->
    (forall w, os_ReadFile sys (selected drv w) w = (schema, None)) ->
    (forall s : State sys,
        (forall j qj e,
            nth_error (statements_of drv schema) j = Some qj ->
            fst (sql_Exec sys p qj
                   (exec_all p (firstn j (statements_of drv schema)) (fst s)))
            = Some e ->
            strings.Contains (Error e) "already exists" = true) ->
        fst (SchemaManager.InitializeSchema (SchemaManager.mk drv) s) = Ret None
        /\ executed (skipn (length (snd s))
                       (snd (snd (SchemaManager.InitializeSchema (SchemaManager.mk drv) s))))
           = statements_of drv schema)
    /\ ((forall q w e,
            In q (statements_of drv schema) ->
            fst (sql_Exec sys p q w) = Some e ->
            strings.Contains (Error e) "already exists" = true) ->
        forall s : State sys, exists s1 s2,
          SchemaManager.InitializeSchema (SchemaManager.mk drv) s = (Ret None, s1)
          /\ SchemaManager.InitializeSchema (SchemaManager.mk drv) s1 = (Ret None, s2))
    /\ (forall (s : State sys) (i : nat) (q : string) (cause : error),
          nth_error (statements_of drv schema) i = Some q ->
          (forall j qj,
              j < i ->
              nth_error (statements_of drv schema) j = Some qj ->
              fatal p qj (exec_all p (firstn j (statements_of drv schema)) (fst s))
              = false) ->
          fst (sql_Exec sys p q
                 (exec_all p (firstn i (statements_of drv schema)) (fst s)))
          = Some cause ->
          strings.Contains (Error cause) "already exists" = false ->
          fst (SchemaManager.InitializeSchema (SchemaManager.mk drv) s)
          = Ret (Some (wrapError ("failed to execute schema statement: " ++ Error cause)
                         cause))
          /\ executed (skipn (length (snd s))
                         (snd (snd (SchemaManager.InitializeSchema (SchemaManager.mk drv) s))))
             = firstn (S i) (statements_of drv schema))
    /\ (forall (s s' : State sys) (e : error),
          SchemaManager.InitializeSchema (SchemaManager.mk drv) s = (Ret (Some e), s') ->
          exists i q cause,
            nth_error (statements_of drv schema) i = Some q
            /\ fst (sql_Exec sys p q
                      (exec_all p (firstn i (statements_of drv schema)) (fst s)))
               = Some cause
            /\ strings.Contains (Error cause) "already exists" = false
            /\ e = wrapError ("failed to execute schema statement: " ++ Error cause) cause
            /\ executed (skipn (length (snd s)) (snd s'))
               = firstn (S i) (statements_of drv schema)).
Proof.
  intros sys drv p schema Hpool Hread.
  assert (Hlog : forall (s : State sys) (queries : list string),
             executed (skipn (length (snd s))
                         ((snd s ++ load_calls drv (fst s)) ++ exec_calls p queries))
             = queries).
  { intros s queries.
    rewrite <- app_assoc, skipn_app, skipn_all, Nat.sub_diag.
    simpl skipn. rewrite app_nil_l.
    change (executed (exec_calls p queries) = queries).
    apply executed_exec_calls. }
  split; [|split; [|split]].
  - intros s Hae.
    rewrite (InitializeSchema_outcome drv p Hpool schema _ (Hread _)).
    unfold loop_outcome. simpl fst. simpl snd.
    rewrite (first_fatal_none_at p).
    + split; [reflexivity|apply Hlog].
    + intros j qj Hq. unfold fatal.
      destruct (fst (sql_Exec sys p qj _)) as [e|] eqn:E; [|reflexivity].
      now rewrite (Hae j qj e Hq E).
  - intros Hae s.
    do 2 eexists.
    rewrite !(InitializeSchema_outcome drv p Hpool schema _ (Hread _)).
    unfold loop_outcome. simpl fst.
    rewrite !(first_fatal_none p _ Hae). split; reflexivity.
  - intros s i q cause Hq Hbefore Hfail Hmsg.
    rewrite (InitializeSchema_outcome drv p Hpool schema _ (Hread _)).
    unfold loop_outcome. simpl fst. simpl snd.
    rewrite (first_fatal_at p _ _ i q cause Hq Hbefore Hfail Hmsg).
    split; [reflexivity|apply Hlog].
  - intros s s' e.
    rewrite (InitializeSchema_outcome drv p Hpool schema _ (Hread _)).
    unfold loop_outcome. simpl fst. simpl snd.
    destruct (first_fatal p (statements_of drv schema) (fst s)) as [[i cause]|] eqn:E;
      [|discriminate].
    intros [= <- <-].
    destruct (first_fatal_inv p _ _ _ _ E) as (q & Hq & Hfail & Hmsg).
    exists i, q, cause. repeat split; auto.
    apply Hlog.
Qed.

(** In the small world, creating a table fails only with "already exists". *)
Lemma two_tables_only_already_exists :
  forall q w e,
    In q ["CREATE TABLE users (id INTEGER)"; "CREATE TABLE loans (id INTEGER)"] ->
    fst (Fixture.exec (Fixture.sound Fixture.two_tables) q w) = Some e ->
    strings.Contains (Error e) "already exists" = true.
Proof.
  intros q w e [<-|[<-|[]]]; unfold Fixture.exec; cbn;
    destruct (existsb _ (Fixture.tables w)); cbn; intros [= <-]; reflexivity.
Defined.

Lemma InitializeSchema_swallows_already_exists_witness :
  (fst (SchemaManager.InitializeSchema
          (sys := Fixture.scripted Fixture.users_exists Fixture.two_tables)
          (SchemaManager.mk Fixture.sqlite_driver) ([], []))
   = Ret None
   /\ executed (snd (snd (SchemaManager.InitializeSchema
                            (sys := Fixture.scripted Fixture.users_exists Fixture.two_tables)
                            (SchemaManager.mk Fixture.sqlite_driver) ([], []))))
      = ["CREATE TABLE users (id INTEGER)"; "CREATE TABLE loans (id INTEGER)"])
  /\ (exists s1 s2,
      SchemaManager.InitializeSchema
        (sys := Fixture.system (Fixture.sound Fixture.two_tables))
        (SchemaManager.mk Fixture.sqlite_driver) (Fixture.start _) = (Ret None, s1)
      /\ SchemaManager.InitializeSchema
           (sys := Fixture.system (Fixture.sound Fixture.two_tables))
           (SchemaManager.mk Fixture.sqlite_driver) s1 = (Ret None, s2))
  /\ fst (SchemaManager.InitializeSchema
            (sys := Fixture.scripted Fixture.drop_fails Fixture.drop_third)
            (SchemaManager.mk Fixture.sqlite_driver) ([], []))
     = Ret (Some (wrapError
                    ("failed to execute schema statement: " ++ Fixture.near_everything)
                    (errorString Fixture.near_everything)))
  /\ executed (snd (snd (SchemaManager.InitializeSchema
                           (sys := Fixture.scripted Fixture.drop_fails Fixture.drop_third)
                           (SchemaManager.mk Fixture.sqlite_driver) ([], []))))
     = ["CREATE TABLE users (id INTEGER)"; "CREATE TABLE loans (id INTEGER)";
        "DROP everything"].
Proof.
  split; [|split].
  - destruct (InitializeSchema_swallows_already_exists
                (Fixture.scripted Fixture.users_exists Fixture.two_tables)
                Fixture.sqlite_driver Fixture.sqlite_pool
                "CREATE TABLE users (id INTEGER); CREATE TABLE loans (id INTEGER);"
                eq_refl (fun w => eq_refl)) as (H & _).
    refine (H ([], []) _).
    intros [|[|j]] qj e Hq He;
      [injection Hq as <-; injection He as <-; reflexivity
      |injection Hq as <-; discriminate He
      |destruct j; discriminate Hq].
  - destruct (InitializeSchema_swallows_already_exists
                (Fixture.system (Fixture.sound Fixture.two_tables))
                Fixture.sqlite_driver Fixture.sqlite_pool
                "CREATE TABLE users (id INTEGER); CREATE TABLE loans (id INTEGER);"
                eq_refl (fun w => eq_refl)) as (_ & H & _).
    exact (H two_tables_only_already_exists (Fixture.start _)).
  - destruct (InitializeSchema_swallows_already_exists
                (Fixture.scripted Fixture.drop_fails Fixture.drop_third)
                Fixture.sqlite_driver Fixture.sqlite_pool
                "CREATE TABLE users (id INTEGER); CREATE TABLE loans (id INTEGER); DROP everything;"
                eq_refl (fun w => eq_refl)) as (_ & _ & H & _).
    refine (H ([], []) 2 "DROP everything" (errorString Fixture.near_everything)
              eq_refl _ eq_refl eq_refl).
    intros [|[|j]] qj Hj Hq; [injection Hq as <-; reflexivity
                             |injection Hq as <-; reflexivity
                             |lia].
Defined.

(** The second call meets "already exists" twice and returns no error. *)
Lemma InitializeSchema_twice :
  let sys := Fixture.system (Fixture.sound Fixture.two_tables) in
  let first := SchemaManager.InitializeSchema (sys := sys)
                 (SchemaManager.mk Fixture.sqlite_driver) (Fixture.start _) in
  let second := SchemaManager.InitializeSchema (sys := sys)
                  (SchemaManager.mk Fixture.sqlite_driver) (snd first) in
  fst first = Ret None
  /\ fst second = Ret None
  /\ fst (Fixture.exec (Fixture.sound Fixture.two_tables)
            "CREATE TABLE users (id INTEGER)" (fst (snd first)))
     = Some (errorString "table users (id INTEGER) already exists").
Proof.
  vm_compute. repeat split.
Qed.

(** C4 (as stated) fails: the third statement, at index 2, is a syntax
    error.  The error returned wraps the engine's error and its message is
    the engine's behind a fixed text: the statement is not in it and the
    index is not in it.  The same statement failing at index 0 of another
    schema gives the same error. *)
Lemma InitializeSchema_error_without_index :
  exists e,
    fst (SchemaManager.InitializeSchema
           (sys := Fixture.scripted Fixture.drop_fails Fixture.drop_third)
           (SchemaManager.mk Fixture.sqlite_driver) ([], []))
    = Ret (Some e)
    /\ nth_error (statements_of Fixture.sqlite_driver
                    "CREATE TABLE users (id INTEGER); CREATE TABLE loans (id INTEGER); DROP everything;")
                 2
       = Some "DROP everything"
    /\ Error e = "failed to execute schema statement: " ++ Fixture.near_everything
    /\ Unwrap e = Some (errorString Fixture.near_everything)
    /\ strings.Contains (Error e) "DROP everything" = false
    /\ strings.Contains (Error e) (fmt.Sprint_nat 2) = false
    /\ nth_error (statements_of Fixture.sqlite_driver
                    "DROP everything; CREATE TABLE users (id INTEGER);")
                 0
       = Some "DROP everything"
    /\ fst (SchemaManager.InitializeSchema
              (sys := Fixture.scripted Fixture.drop_fails Fixture.drop_first)
              (SchemaManager.mk Fixture.sqlite_driver) ([], []))
       = Ret (Some e).
Proof.
  eexists. split; [vm_compute; reflexivity|].
  repeat split.
Qed.

(** C10: schema application is not atomic.  When the statement at index
    [i] is the first to fail with an error that is not "already exists",
    InitializeSchema returns the wrapped error; the statements it has sent
    to the engine are those before [i], in order, and the failing one, and
    the database is in the state these executions have left: nothing is
    undone. *)
Theorem InitializeSchema_not_atomic :
  forall (sys : Sys) (drv : DBDriver) (p : DB) (schema : string) (s : State sys)
         (i : nat) (q : string) (cause : error),
    pool drv = Some p ->
    os_ReadFile sys (selected drv (fst s)) (fst s) = (schema, None) ->
    nth_error (statements_of drv schema) i = Some q ->
    (forall j qj,
        j < i ->
        nth_error (statements_of drv schema) j = Some qj ->
        fatal p qj (exec_all p (firstn j (statements_of drv schema)) (fst s)) = false) ->
    fst (sql_Exec sys p q (exec_all p (firstn i (statements_of drv schema)) (fst s)))
    = Some cause ->
    strings.Contains (Error cause) "already exists" = false ->
    exists calls,
      SchemaManager.InitializeSchema (SchemaManager.mk drv) s
      = (Ret (Some (Errorf_w "failed to execute schema statement: " cause)),
         (snd (sql_Exec sys p q
                 (exec_all p (firstn i (statements_of drv schema)) (fst s))),
          (snd s ++ calls)%list))
      /\ executed calls = (firstn i (statements_of drv schema) ++ [q])%list.
Proof.
  intros sys drv p schema s i q cause Hpool Hread Hq Hbefore Hfail Hmsg.
  rewrite (InitializeSchema_outcome drv p Hpool schema s Hread).
  unfold loop_outcome. simpl fst. simpl snd.
  rewrite (first_fatal_at p _ _ i q cause Hq Hbefore Hfail Hmsg).
  rewrite (firstn_S_nth_error _ i q Hq), exec_all_app. simpl exec_all.
  exists (load_calls drv (fst s) ++ exec_calls p (firstn i (statements_of drv schema) ++ [q]))%list.
  split; [now rewrite <- app_assoc|].
  now rewrite executed_app, executed_exec_calls.
Qed.

Lemma InitializeSchema_not_atomic_witness :
  exists calls,
    SchemaManager.InitializeSchema
      (sys := Fixture.system (Fixture.sound Fixture.broken_schema))
      (SchemaManager.mk Fixture.sqlite_driver) (Fixture.start _)
    = (Ret (Some (Errorf_w "failed to execute schema statement: "
                    (errorString "SQL logic error: syntax error"))),
       (Fixture.mkEngine [] ["users (id INTEGER)"] false, ([] ++ calls)%list))
    /\ executed calls = ["CREATE TABLE users (id INTEGER)"; "DROP everything"].
Proof.
  refine (InitializeSchema_not_atomic
            (Fixture.system (Fixture.sound Fixture.broken_schema))
            Fixture.sqlite_driver Fixture.sqlite_pool
            "CREATE TABLE users (id INTEGER); DROP everything; CREATE TABLE loans (id INTEGER);"
            (Fixture.start _) 1 "DROP everything"
            (errorString "SQL logic error: syntax error")
            eq_refl eq_refl eq_refl _ eq_refl eq_refl).
  intros [|j] qj Hj Hq; [|lia].
  injection Hq as <-. reflexivity.
Defined.

(** ** The migration runner *)



(** ** Further facts on the SQLite driver's source file *)

Section SQLiteDriverFacts.

Context {sys : Sys}.

(** X16: a failure to create the directory is returned wrapped, by both
    versions of Connect, and nothing else is called. *)
Lemma Connect_mkdir_failure (d : SQLiteDriver.t) (conf : DBConfig)
    (s : State sys) (e : error) (w1 : World sys) :
  os_MkdirAll sys (filepath_Dir sys (SQLitePath conf)) (fst s) = (Some e, w1) ->
  SQLiteDriver.Connect d conf s
  = (Ret (Some (Errorf_w "failed to create database directory: " e), d),
     (w1, (snd s ++ [EvMkdirAll (filepath_Dir sys (SQLitePath conf))])%list))
  /\ SQLiteDriver.Connect_guide d conf s = SQLiteDriver.Connect d conf s.
Proof.
  intros H. unfold SQLiteDriver.Connect, SQLiteDriver.Connect_guide. run_monad.
  rewrite H. split; reflexivity.
Qed.

(** X9: the driver's own InitializeSchema hands the whole file to the
    engine and swallows an "already exists" error as the schema manager
    does; any other error of the engine is returned wrapped. *)
Lemma SQLiteDriver_InitializeSchema_outcome (d : SQLiteDriver.t) (p : DB)
    (schema : string) (s : State sys) :
  SQLiteDriver.db d = Some p ->
  os_ReadFile sys (filepath_Join sys "database" "database_schema.sql") (fst s)
  = (schema, None) ->
  fst (SQLiteDriver.InitializeSchema d s)
  = Ret match fst (sql_Exec sys p schema (fst s)) with
        | Some e =>
            if strings.Contains (Error e) "already exists" then None
            else Some (Errorf_w "failed to excute schema: " e)
        | None => None
        end.
Proof.
  intros Hdb Hread. unfold SQLiteDriver.InitializeSchema. run_monad.
  rewrite Hread, Hdb. simpl.
  destruct (sql_Exec sys p schema (fst s)) as [[e|] w]; simpl; [|reflexivity].
  destruct (strings.Contains (Error e) "already exists"); reflexivity.
Qed.

End SQLiteDriverFacts.

(* ===================================================================== *)
(** * Part III: further properties of the code *)
(* ===================================================================== *)

(** ** What [PostgresDriver.TransformQuery] leaves and keeps *)

Lemma Contains_app_char (a b : string) (c : ascii) :
  strings.Contains (a ++ b) (String c EmptyString)
  = strings.Contains a (String c EmptyString)
    || strings.Contains b (String c EmptyString).
Proof.
  induction a as [|x a IH].
  - simpl. destruct b; reflexivity.
  - change (String x a ++ b) with (String x (a ++ b)).
    rewrite !Contains_cons, IH. now rewrite orb_assoc.
Qed.

Lemma eqb_digit (d c : ascii) :
  is_digit d = true -> is_digit c = false -> Ascii.eqb d c = false.
Proof.
  intros Hd Hc. destruct (Ascii.eqb_spec d c) as [->|]; [congruence|reflexivity].
Qed.

(** A character that is no digit does not occur in a printed number. *)
Lemma string_of_uint_digits (c : ascii) (d : Decimal.uint) :
  is_digit c = false ->
  strings.Contains (NilEmpty.string_of_uint d) (String c EmptyString) = false.
Proof.
  intros Hc.
  induction d as [|d IH|d IH|d IH|d IH|d IH|d IH|d IH|d IH|d IH|d IH];
    [reflexivity|..];
    simpl NilEmpty.string_of_uint; rewrite Contains_cons, IH, orb_false_r;
    now apply eqb_digit.
Qed.

Lemma number_marks_no_mark (s : string) :
  forall k, strings.Contains (number_marks k s) "?" = false.
Proof.
  induction s as [|c r IH]; intros k; [reflexivity|].
  cbn [number_marks]. destruct (Ascii.eqb c "?") eqn:Hc.
  - cbn [append]. rewrite Contains_cons, Contains_app_char, IH, orb_false_r.
    unfold fmt.Sprint_nat. now rewrite string_of_uint_digits.
  - now rewrite Contains_cons, Hc, IH.
Qed.

Lemma number_marks_plain (s : string) :
  forall k, strings.Contains s "?" = false -> number_marks k s = s.
Proof.
  induction s as [|c r IH]; intros k H; [reflexivity|].
  rewrite Contains_cons in H. apply orb_false_iff in H as [Hc Hr].
  simpl. now rewrite Hc, IH.
Qed.

Lemma number_marks_app_plain (a b : string) :
  forall k, strings.Contains b "?" = false ->
            number_marks k (a ++ b) = number_marks k a ++ b.
Proof.
  induction a as [|c a IH]; intros k H.
  - now apply number_marks_plain.
  - cbn [number_marks append]. destruct (Ascii.eqb c "?").
    + cbn [append]. now rewrite (IH _ H), append_assoc.
    + cbn [append]. now rewrite (IH _ H).
Qed.

Lemma number_marks_plain_app (a b : string) :
  forall k, strings.Contains a "?" = false ->
            number_marks k (a ++ b) = a ++ number_marks k b.
Proof.
  induction a as [|c a IH]; intros k H; [reflexivity|].
  rewrite Contains_cons in H. apply orb_false_iff in H as [Hc Ha].
  simpl. now rewrite Hc, IH.
Qed.

(** X1: the result of the PostgreSQL TransformQuery has no [?] left in it,
    whatever the statement. *)
Theorem PostgresDriver_TransformQuery_leaves_no_mark :
  forall (d : PostgresDriver.t) (query : string),
    strings.Contains (PostgresDriver.TransformQuery d query) "?" = false.
Proof.
  intros d query. rewrite TransformQuery_number_marks. apply number_marks_no_mark.
Qed.

(** X2: the PostgreSQL TransformQuery is idempotent: a statement that has
    been transformed is not changed by transforming it again. *)
Theorem PostgresDriver_TransformQuery_idempotent :
  forall (d : PostgresDriver.t) (query : string),
    PostgresDriver.TransformQuery d (PostgresDriver.TransformQuery d query)
    = PostgresDriver.TransformQuery d query.
Proof.
  intros d query. apply PostgresDriver_TransformQuery_no_mark.
  rewrite TransformQuery_number_marks. apply number_marks_no_mark.
Qed.

(** X3: text without [?] put before or after a statement is left as it is
    and does not change how the statement is transformed. *)
Theorem PostgresDriver_TransformQuery_plain_context :
  forall (d : PostgresDriver.t) (plain query : string),
    strings.Contains plain "?" = false ->
    PostgresDriver.TransformQuery d (query ++ plain)
    = PostgresDriver.TransformQuery d query ++ plain
    /\ PostgresDriver.TransformQuery d (plain ++ query)
       = plain ++ PostgresDriver.TransformQuery d query.
Proof.
  intros d plain query H. rewrite !TransformQuery_number_marks.
  split; [now apply number_marks_app_plain | now apply number_marks_plain_app].
Qed.

Lemma PostgresDriver_TransformQuery_plain_context_witness :
  PostgresDriver.TransformQuery PostgresDriver.zero
    ("SELECT * FROM t WHERE a=? AND b=?" ++ " ORDER BY a")
  = PostgresDriver.TransformQuery PostgresDriver.zero
      "SELECT * FROM t WHERE a=? AND b=?" ++ " ORDER BY a"
  /\ PostgresDriver.TransformQuery PostgresDriver.zero
       (" ORDER BY a" ++ "SELECT * FROM t WHERE a=? AND b=?")
     = " ORDER BY a" ++ PostgresDriver.TransformQuery PostgresDriver.zero
                          "SELECT * FROM t WHERE a=? AND b=?".
Proof.
  exact (PostgresDriver_TransformQuery_plain_context PostgresDriver.zero
           " ORDER BY a" "SELECT * FROM t WHERE a=? AND b=?" eq_refl).
Defined.

(** ** [TransformQuery] of both drivers *)

(** C7 (as amended): for both drivers the result of TransformQuery depends
    on the statement only, not on the state of the driver handle (two
    calls on the same statement give the same result).  A statement in
    which the character [?] does not occur is returned unchanged by both;
    the PostgreSQL driver changes every statement in which it occurs,
    wherever it stands, and the SQLite driver changes none. *)
Theorem TransformQuery_unchanged_without_mark :
  forall (d d' : DBDriver) (q : string),
    (GetDialect d = GetDialect d' -> TransformQuery d q = TransformQuery d' q)
    /\ (strings.Contains q "?" = false -> TransformQuery d q = q)
    /\ (GetDialect d = "postgres" ->
        strings.Contains q "?" = true -> TransformQuery d q <> q)
    /\ (GetDialect d = "sqlite" -> TransformQuery d q = q).
Proof.
  intros d d' q. split; [|split; [|split]].
  - destruct d as [a|a], d' as [b|b]; simpl; intros H;
      try reflexivity; try discriminate.
  - destruct d as [a|a]; simpl; intros H; [reflexivity|].
    now apply PostgresDriver_TransformQuery_no_mark.
  - destruct d as [a|a]; simpl; [discriminate|]. intros _ Hq Heq.
    rewrite TransformQuery_number_marks in Heq.
    pose proof (number_marks_no_mark q 1) as Hnone.
    rewrite Heq, Hq in Hnone. discriminate.
  - destruct d as [a|a]; simpl; [reflexivity|discriminate].
Qed.

Lemma TransformQuery_unchanged_without_mark_witness :
  TransformQuery Fixture.postgres_driver "SELECT name FROM users"
  = TransformQuery (Postgres PostgresDriver.zero) "SELECT name FROM users"
  /\ TransformQuery Fixture.postgres_driver "SELECT name FROM users"
     = "SELECT name FROM users"
  /\ TransformQuery Fixture.postgres_driver "SELECT name FROM users WHERE id = ?"
     <> "SELECT name FROM users WHERE id = ?"
  /\ TransformQuery Fixture.sqlite_driver "SELECT name FROM users WHERE id = ?"
     = "SELECT name FROM users WHERE id = ?".
Proof.
  split; [|split; [|split]].
  - exact (proj1 (TransformQuery_unchanged_without_mark Fixture.postgres_driver
                    (Postgres PostgresDriver.zero) "SELECT name FROM users") eq_refl).
  - exact (proj1 (proj2 (TransformQuery_unchanged_without_mark Fixture.postgres_driver
                           Fixture.postgres_driver "SELECT name FROM users")) eq_refl).
  - exact (proj1 (proj2 (proj2 (TransformQuery_unchanged_without_mark
                                  Fixture.postgres_driver Fixture.postgres_driver
                                  "SELECT name FROM users WHERE id = ?")))
             eq_refl eq_refl).
  - exact (proj2 (proj2 (proj2 (TransformQuery_unchanged_without_mark
                                  Fixture.sqlite_driver Fixture.sqlite_driver
                                  "SELECT name FROM users WHERE id = ?")))
             eq_refl).
Defined.

(** C7 (as stated) fails: the statement has no placeholder, its only [?]
    being inside a string literal (numbering the marks outside literals
    leaves it as it is), and the PostgreSQL driver changes it. *)
Lemma TransformQuery_changes_literal :
  number_marks_outside_literals false 1 "SELECT 'why?' AS q" = "SELECT 'why?' AS q"
  /\ TransformQuery Fixture.postgres_driver "SELECT 'why?' AS q" = "SELECT 'why$1' AS q"
  /\ TransformQuery Fixture.postgres_driver "SELECT 'why?' AS q" <> "SELECT 'why?' AS q".
Proof.
  split; [reflexivity|]. split; [reflexivity|]. discriminate.
Qed.

(** ** More on [SchemaManager.InitializeSchema] *)

Section SchemaEdges.

Context {sys : Sys}.
Variable drv : DBDriver.

(** With only blank pieces the loop makes no call, whatever the pool. *)
Lemma execStatements_blank (pieces : list string) :
  prepare drv pieces = [] ->
  forall s : State sys, SchemaManager.execStatements drv pieces s = (Ret None, s).
Proof.
  induction pieces as [|piece rest IH]; intros H s; [reflexivity|].
  rewrite prepare_cons in H. simpl.
  destruct (strings.TrimSpace piece =? ""); [now apply IH | discriminate].
Qed.

(** Without a pool the loop panics at the first statement, before any
    call. *)
Lemma execStatements_no_pool (pieces : list string) :
  pool drv = None ->
  prepare drv pieces <> [] ->
  forall s : State sys, SchemaManager.execStatements drv pieces s = (Panic, s).
Proof.
  intros Hpool.
  induction pieces as [|piece rest IH]; intros H s; [contradiction|].
  rewrite prepare_cons in H. simpl.
  destruct (strings.TrimSpace piece =? ""); [now apply IH|].
  unfold DBDriver_Exec, bind, Exec. now rewrite Hpool.
Qed.

Lemma InitializeSchema_load (s : State sys) :
  SchemaManager.InitializeSchema (SchemaManager.mk drv) s
  = match os_ReadFile sys (selected drv (fst s)) (fst s) with
    | (_, Some e) =>
        (Ret (Some (Errorf_w "failed to read schema file: " e)),
         (fst s, (snd s ++ load_calls drv (fst s))%list))
    | (schema, None) =>
        SchemaManager.execStatements drv (strings.Split schema ";")
          (fst s, (snd s ++ load_calls drv (fst s))%list)
    end.
Proof.
  unfold SchemaManager.InitializeSchema. run_monad.
  fold (selected drv (fst s)).
  destruct (os_ReadFile sys (selected drv (fst s)) (fst s)) as [schema [e|]];
    unfold load_calls; now rewrite <- app_assoc.
Qed.

End SchemaEdges.

(** X4: when the selected schema file cannot be read, InitializeSchema
    returns the error wrapped as "failed to read schema file: ...", has
    made no call to the engine and leaves the world as it was; this is so
    for a driver without pool too. *)
Theorem InitializeSchema_read_failure :
  forall (sys : Sys) (drv : DBDriver) (s : State sys) (data : string) (e : error),
    os_ReadFile sys (selected drv (fst s)) (fst s) = (data, Some e) ->
    SchemaManager.InitializeSchema (SchemaManager.mk drv) s
    = (Ret (Some (wrapError ("failed to read schema file: " ++ Error e) e)),
       (fst s, (snd s ++ [EvStat (SchemaManager.schemaPath_of (sys := sys) drv);
                          EvReadFile (selected drv (fst s))])%list)).
Proof.
  intros sys drv s data e H. rewrite InitializeSchema_load, H. reflexivity.
Qed.

Lemma InitializeSchema_read_failure_witness :
  SchemaManager.InitializeSchema (sys := Fixture.system (Fixture.sound []))
    (SchemaManager.mk Fixture.unconnected) (Fixture.start _)
  = (Ret (Some (wrapError
                  "failed to read schema file: open database/database_schema.sql: no such file or directory"
                  (errorString "open database/database_schema.sql: no such file or directory"))),
     (Fixture.empty,
      [EvStat "database/schema_sqlite.sql"; EvReadFile "database/database_schema.sql"])).
Proof.
  exact (InitializeSchema_read_failure (Fixture.system (Fixture.sound []))
           Fixture.unconnected (Fixture.start _) ""
           (errorString "open database/database_schema.sql: no such file or directory")
           eq_refl).
Defined.

(** X5: a schema file that holds only terminators and white space (an
    empty file, for one) makes InitializeSchema return no error without a
    call to the engine, also on a driver without pool. *)
Theorem InitializeSchema_blank_schema :
  forall (sys : Sys) (drv : DBDriver) (s : State sys) (schema : string),
    os_ReadFile sys (selected drv (fst s)) (fst s) = (schema, None) ->
    statements_of drv schema = [] ->
    SchemaManager.InitializeSchema (SchemaManager.mk drv) s
    = (Ret None, (fst s, (snd s ++ load_calls drv (fst s))%list)).
Proof.
  intros sys drv s schema Hread Hblank.
  rewrite InitializeSchema_load, Hread. now apply execStatements_blank.
Qed.

Lemma InitializeSchema_blank_schema_witness :
  SchemaManager.InitializeSchema
    (sys := Fixture.system (Fixture.sound Fixture.blank_schema))
    (SchemaManager.mk Fixture.unconnected) (Fixture.start _)
  = (Ret None,
     (Fixture.empty,
      [EvStat "database/schema_sqlite.sql"; EvReadFile "database/database_schema.sql"])).
Proof.
  exact (InitializeSchema_blank_schema
           (Fixture.system (Fixture.sound Fixture.blank_schema))
           Fixture.unconnected (Fixture.start _) " ; ;  " eq_refl eq_refl).
Defined.

(** X6: on a driver whose pool is nil, InitializeSchema of a schema with at
    least one statement panics; it has read the file and made no call to
    the engine. *)
Theorem InitializeSchema_without_pool_panics :
  forall (sys : Sys) (drv : DBDriver) (s : State sys) (schema : string),
    pool drv = None ->
    os_ReadFile sys (selected drv (fst s)) (fst s) = (schema, None) ->
    statements_of drv schema <> [] ->
    SchemaManager.InitializeSchema (SchemaManager.mk drv) s
    = (Panic, (fst s, (snd s ++ load_calls drv (fst s))%list)).
Proof.
  intros sys drv s schema Hpool Hread Hsome.
  rewrite InitializeSchema_load, Hread. now apply execStatements_no_pool.
Qed.

Lemma InitializeSchema_without_pool_panics_witness :
  SchemaManager.InitializeSchema
    (sys := Fixture.system (Fixture.sound Fixture.two_tables))
    (SchemaManager.mk Fixture.unconnected) (Fixture.start _)
  = (Panic,
     (Fixture.empty,
      [EvStat "database/schema_sqlite.sql"; EvReadFile "database/database_schema.sql"])).
Proof.
  refine (InitializeSchema_without_pool_panics
            (Fixture.system (Fixture.sound Fixture.two_tables))
            Fixture.unconnected (Fixture.start _)
            "CREATE TABLE users (id INTEGER); CREATE TABLE loans (id INTEGER);"
            eq_refl eq_refl _).
  discriminate.
Defined.

(** *** What reaches the engine *)

Lemma Contains_char_In (s : string) (c : ascii) :
  strings.Contains s (String c EmptyString) = true <-> In c (list_ascii_of_string s).
Proof.
  induction s as [|a r IH]; simpl list_ascii_of_string.
  - split; [discriminate | intros []].
  - rewrite Contains_cons, orb_true_iff, IH. simpl.
    split; (intros [H|H]; [left|right; exact H]).
    + now apply Ascii.eqb_eq in H.
    + now apply Ascii.eqb_eq.
Qed.

Lemma Split_pieces_no_sep (s : string) (sep : ascii) :
  Forall (fun p => strings.Contains p (String sep EmptyString) = false)
         (strings.Split s sep).
Proof.
  induction s as [|c r IH]; simpl.
  - constructor; [reflexivity | constructor].
  - destruct (Ascii.eqb c sep) eqn:Hc.
    + constructor; [reflexivity | exact IH].
    + destruct (strings.Split r sep) as [|p ps]; [repeat constructor|].
      * now rewrite Contains_cons, Hc.
      * inversion IH as [|? ? Hp Hps]; subst.
        constructor; [|exact Hps]. now rewrite Contains_cons, Hc, Hp.
Qed.

(** Trimming only takes characters away. *)
Lemma TrimLeftSpace_incl (n : nat) :
  forall (s : string) (c : ascii),
    String.length s <= n ->
    In c (list_ascii_of_string (strings.TrimLeftSpace s)) ->
    In c (list_ascii_of_string s).
Proof.
  induction n as [|n IH]; intros s c Hlen H.
  - destruct s; [exact H | simpl in Hlen; lia].
  - destruct s as [|a r1]; [exact H|].
    simpl in Hlen. simpl strings.TrimLeftSpace in H.
    destruct (strings.asciiSpace a).
    { right. apply IH; [lia | exact H]. }
    destruct r1 as [|b r2]; [exact H|].
    simpl in Hlen.
    destruct (strings.spaceRune2 a b).
    { right. right. apply IH; [lia | exact H]. }
    destruct r2 as [|c' r3]; [exact H|].
    simpl in Hlen.
    destruct (strings.spaceRune3 a b c'); [|exact H].
    right. right. right. apply IH; [lia | exact H].
Qed.

Lemma trimRevSpace_incl (n : nat) :
  forall (l : list ascii) (c : ascii),
    length l <= n -> In c (strings.trimRevSpace l) -> In c l.
Proof.
  induction n as [|n IH]; intros l c Hlen H.
  - destruct l; [exact H | simpl in Hlen; lia].
  - destruct l as [|a r1]; [exact H|].
    simpl in Hlen. simpl strings.trimRevSpace in H.
    destruct (strings.asciiSpace a).
    { right. apply IH; [lia | exact H]. }
    destruct r1 as [|b r2]; [exact H|].
    simpl in Hlen.
    destruct (strings.spaceRune2 b a).
    { right. right. apply IH; [lia | exact H]. }
    destruct r2 as [|c' r3]; [exact H|].
    simpl in Hlen.
    destruct (strings.spaceRune3 c' b a); [|exact H].
    right. right. right. apply IH; [lia | exact H].
Qed.

Lemma TrimSpace_keeps (s : string) (c : ascii) :
  strings.Contains s (String c EmptyString) = false ->
  strings.Contains (strings.TrimSpace s) (String c EmptyString) = false.
Proof.
  intros H.
  destruct (strings.Contains (strings.TrimSpace s) (String c EmptyString)) eqn:E;
    [|reflexivity].
  apply Contains_char_In in E.
  unfold strings.TrimSpace, strings.TrimRightSpace in E.
  rewrite list_ascii_of_string_of_list_ascii in E.
  apply in_rev, (trimRevSpace_incl _ _ _ (le_n _)), in_rev in E.
  apply (TrimLeftSpace_incl _ _ _ (le_n _)), Contains_char_In in E.
  congruence.
Qed.

Lemma number_marks_keeps (c : ascii) (s : string) :
  is_digit c = false ->
  Ascii.eqb "$" c = false ->
  forall k,
    strings.Contains s (String c EmptyString) = false ->
    strings.Contains (number_marks k s) (String c EmptyString) = false.
Proof.
  intros Hd Hc.
  induction s as [|a r IH]; intros k H; [reflexivity|].
  rewrite Contains_cons in H. apply orb_false_iff in H as [Ha Hr].
  cbn [number_marks]. destruct (Ascii.eqb a "?").
  - cbn [append]. rewrite Contains_cons, Contains_app_char, Hc, (IH _ Hr).
    unfold fmt.Sprint_nat. now rewrite string_of_uint_digits.
  - now rewrite Contains_cons, Ha, (IH _ Hr).
Qed.

Lemma TransformQuery_keeps_terminator (drv : DBDriver) (q : string) :
  strings.Contains q ";" = false ->
  strings.Contains (TransformQuery drv q) ";" = false.
Proof.
  intros H. destruct drv as [d|d]; simpl; [exact H|].
  rewrite TransformQuery_number_marks. now apply number_marks_keeps.
Qed.

Lemma TransformQuery_nonempty (drv : DBDriver) (q : string) :
  q <> "" -> TransformQuery drv q <> "".
Proof.
  intros H. destruct drv as [d|d]; simpl; [exact H|].
  rewrite TransformQuery_number_marks.
  destruct q as [|a r]; [contradiction|].
  simpl. destruct (Ascii.eqb a "?"); discriminate.
Qed.

(** A prepared statement is not empty and holds no terminator. *)
Lemma prepare_clean (drv : DBDriver) (pieces : list string) :
  Forall (fun p => strings.Contains p ";" = false) pieces ->
  Forall (fun q => q <> "" /\ strings.Contains q ";" = false) (prepare drv pieces).
Proof.
  induction 1 as [|piece rest Hp Hrest IH]; [constructor|].
  rewrite prepare_cons.
  destruct (strings.TrimSpace piece =? "") eqn:E; [exact IH|].
  constructor; [|exact IH]. split.
  - apply TransformQuery_nonempty. now apply String.eqb_neq.
  - now apply TransformQuery_keeps_terminator, TrimSpace_keeps.
Qed.

Section SchemaCalls.

Context {sys : Sys}.
Variable drv : DBDriver.

Lemma exec_calls_on (p : DB) (queries : list string) :
  pool drv = Some p -> Forall (exec_on drv) (exec_calls p queries).
Proof.
  intros H. induction queries; constructor; auto.
Qed.

(** The calls of the statement loop, whatever the pool and the outcome:
    [Exec] calls on the pool of the driver, for the first statements of
    the prepared list, in order. *)
Lemma execStatements_calls (pieces : list string) (s : State sys) :
  exists rest n,
    snd (snd (SchemaManager.execStatements drv pieces s)) = (snd s ++ rest)%list
    /\ Forall (exec_on drv) rest
    /\ executed rest = firstn n (prepare drv pieces).
Proof.
  destruct (pool drv) as [p|] eqn:Hpool.
  - rewrite (execStatements_outcome drv p Hpool). unfold loop_outcome.
    destruct (first_fatal p (prepare drv pieces) (fst s)) as [[i e]|].
    + exists (exec_calls p (firstn (S i) (prepare drv pieces))), (S i).
      split; [reflexivity|]. split; [now apply exec_calls_on|].
      apply executed_exec_calls.
    + exists (exec_calls p (prepare drv pieces)), (length (prepare drv pieces)).
      split; [reflexivity|]. split; [now apply exec_calls_on|].
      now rewrite executed_exec_calls, firstn_all.
  - exists [], 0. rewrite app_nil_r. split; [|split; [constructor|reflexivity]].
    destruct (prepare drv pieces) as [|q qs] eqn:E.
    + now rewrite (execStatements_blank drv pieces E).
    + rewrite (execStatements_no_pool drv pieces Hpool); [reflexivity|].
      rewrite E. discriminate.
Qed.

Lemma InitializeSchema_calls (s : State sys) :
  exists rest n,
    snd (snd (SchemaManager.InitializeSchema (SchemaManager.mk drv) s))
    = (snd s ++ load_calls drv (fst s) ++ rest)%list
    /\ Forall (exec_on drv) rest
    /\ executed rest
       = firstn n (statements_of drv
                     (fst (os_ReadFile sys (selected drv (fst s)) (fst s)))).
Proof.
  rewrite InitializeSchema_load.
  destruct (os_ReadFile sys (selected drv (fst s)) (fst s)) as [schema [e|]].
  - exists [], 0. rewrite app_nil_r. repeat split. constructor.
  - destruct (execStatements_calls (strings.Split schema ";")
                (fst s, (snd s ++ load_calls drv (fst s))%list))
      as (rest & n & Hcalls & Hon & Hexec).
    exists rest, n. rewrite Hcalls. simpl snd.
    split; [now rewrite <- app_assoc|]. split; [exact Hon | exact Hexec].
Qed.

End SchemaCalls.

(** X7: every run of InitializeSchema, whatever its outcome, makes one
    [Stat] of the dialect's schema file and one [ReadFile] of the file it
    selects, and after these only [Exec] calls on the pool of its own
    driver: it opens and pings nothing and reads no second file. *)
Theorem InitializeSchema_calls_shape :
  forall (sys : Sys) (drv : DBDriver) (s : State sys),
    exists rest,
      snd (snd (SchemaManager.InitializeSchema (SchemaManager.mk drv) s))
      = (snd s ++ [EvStat (SchemaManager.schemaPath_of (sys := sys) drv);
                   EvReadFile (selected drv (fst s))] ++ rest)%list
      /\ Forall (exec_on drv) rest.
Proof.
  intros sys drv s.
  destruct (InitializeSchema_calls drv s) as (rest & n & Hcalls & Hon & _).
  exists rest. split; [exact Hcalls | exact Hon].
Qed.

(** X8: no statement InitializeSchema sends to the engine is empty, and
    none holds a terminator [;]: each is one piece of the file. *)
Theorem InitializeSchema_sends_clean_statements :
  forall (sys : Sys) (drv : DBDriver) (s : State sys) (q : string),
    In q (executed
            (skipn (length (snd s))
               (snd (snd (SchemaManager.InitializeSchema (SchemaManager.mk drv) s))))) ->
    q <> "" /\ strings.Contains q ";" = false.
Proof.
  intros sys drv s q H.
  destruct (InitializeSchema_calls drv s) as (rest & n & Hcalls & _ & Hexec).
  rewrite Hcalls, skipn_app, skipn_all, Nat.sub_diag in H.
  simpl in H. rewrite Hexec in H.
  pose proof (prepare_clean drv _ (Split_pieces_no_sep
                (fst (os_ReadFile sys (selected drv (fst s)) (fst s))) ";")) as Hclean.
  rewrite Forall_forall in Hclean. apply Hclean.
  unfold statements_of in H.
  rewrite <- (firstn_skipn n (prepare drv _)). apply in_or_app. now left.
Qed.

Lemma InitializeSchema_sends_clean_statements_witness :
  "b')" <> "" /\ strings.Contains "b')" ";" = false.
Proof.
  apply (InitializeSchema_sends_clean_statements
           (Fixture.system (Fixture.permissive Fixture.literal_schema))
           Fixture.sqlite_driver (Fixture.start _) "b')").
  right. left. reflexivity.
Defined.

(** ** More on the SQLite driver's source file *)

(** A run of the driver's own InitializeSchema that the engine takes. *)
Lemma SQLiteDriver_InitializeSchema_outcome_witness :
  fst (SQLiteDriver.InitializeSchema
         (sys := Fixture.system (Fixture.sound Fixture.literal_schema))
         (connected (NewSQLiteConfig "data/tujifund.db")) (Fixture.start _))
  = Ret None.
Proof.
  exact (SQLiteDriver_InitializeSchema_outcome
           (sys := Fixture.system (Fixture.sound Fixture.literal_schema))
           (connected (NewSQLiteConfig "data/tujifund.db"))
           (SetMaxIdleConns 2 (SetMaxOpenConns 1 (opened (NewSQLiteConfig "data/tujifund.db"))))
           "INSERT INTO t VALUES ('a;b')" (Fixture.start _) eq_refl eq_refl).
Defined.

(** X10: the driver's own InitializeSchema reads the generic schema file
    only (it looks for no file of a dialect) and hands the whole file to
    the engine in one [Exec], however many statements the file holds. *)
Theorem SQLiteDriver_InitializeSchema_one_exec :
  forall (sys : Sys) (d : SQLiteDriver.t) (p : DB) (schema : string) (s : State sys),
    SQLiteDriver.db d = Some p ->
    os_ReadFile sys (filepath_Join sys "database" "database_schema.sql") (fst s)
    = (schema, None) ->
    snd (SQLiteDriver.InitializeSchema d s)
    = (snd (sql_Exec sys p schema (fst s)),
       (snd s ++ [EvReadFile (filepath_Join sys "database" "database_schema.sql");
                  EvExec p schema])%list).
Proof.
  intros sys d p schema s Hdb Hread.
  unfold SQLiteDriver.InitializeSchema. run_monad.
  rewrite Hread, Hdb. simpl.
  destruct (sql_Exec sys p schema (fst s)) as [[e|] w]; simpl.
  - destruct (strings.Contains (Error e) "already exists"); simpl;
      now rewrite <- app_assoc.
  - now rewrite <- app_assoc.
Qed.

Lemma SQLiteDriver_InitializeSchema_one_exec_witness :
  snd (SQLiteDriver.InitializeSchema
         (sys := Fixture.system (Fixture.sound Fixture.two_tables))
         (connected (NewSQLiteConfig "data/tujifund.db")) (Fixture.start _))
  = (Fixture.mkEngine [] ["users (id INTEGER); CREATE TABLE loans (id INTEGER);"] false,
     [EvReadFile "database/database_schema.sql";
      EvExec (SetMaxIdleConns 2 (SetMaxOpenConns 1 (opened (NewSQLiteConfig "data/tujifund.db"))))
        "CREATE TABLE users (id INTEGER); CREATE TABLE loans (id INTEGER);"]).
Proof.
  exact (SQLiteDriver_InitializeSchema_one_exec
           (Fixture.system (Fixture.sound Fixture.two_tables))
           (connected (NewSQLiteConfig "data/tujifund.db"))
           _ "CREATE TABLE users (id INTEGER); CREATE TABLE loans (id INTEGER);"
           (Fixture.start _) eq_refl eq_refl).
Defined.

(** X11: on a handle without pool the driver's own InitializeSchema
    returns the wrapped read error when the schema file cannot be read,
    and panics when it can; in both cases nothing reaches the engine. *)
Theorem SQLiteDriver_InitializeSchema_without_pool :
  forall (sys : Sys) (d : SQLiteDriver.t) (s : State sys),
    SQLiteDriver.db d = None ->
    SQLiteDriver.InitializeSchema d s
    = (match os_ReadFile sys (filepath_Join sys "database" "database_schema.sql") (fst s) with
       | (_, Some e) => Ret (Some (Errorf_w "failed to read sche,a file: " e))
       | (_, None) => Panic
       end,
       (fst s,
        (snd s ++ [EvReadFile (filepath_Join sys "database" "database_schema.sql")])%list)).
Proof.
  intros sys d s Hdb.
  unfold SQLiteDriver.InitializeSchema. run_monad.
  destruct (os_ReadFile sys _ (fst s)) as [schema [e|]]; [reflexivity|].
  now rewrite Hdb.
Qed.

Lemma SQLiteDriver_InitializeSchema_without_pool_witness :
  SQLiteDriver.InitializeSchema
    (sys := Fixture.system (Fixture.sound Fixture.two_tables))
    SQLiteDriver.zero (Fixture.start _)
  = (Panic, (Fixture.empty, [EvReadFile "database/database_schema.sql"])).
Proof.
  exact (SQLiteDriver_InitializeSchema_without_pool
           (Fixture.system (Fixture.sound Fixture.two_tables))
           SQLiteDriver.zero (Fixture.start _) eq_refl).
Defined.

(** *** Connect *)

Section ConnectOrder.

Context {sys : Sys}.

(** An error return hands back the handle it was given. *)
Lemma Connect_error_handle (d d' : SQLiteDriver.t) (conf : DBConfig)
    (s s' : State sys) (e : error) :
  SQLiteDriver.Connect d conf s = (Ret (Some e, d'), s') -> d' = d.
Proof.
  unfold SQLiteDriver.Connect. run_monad.
  destruct (os_MkdirAll sys _ (fst s)) as [[e1|] w1]; simpl;
    [now intros [= _ <- _]|].
  destruct (sql_Open sys _ _ w1) as [[e2|] w2]; simpl; [discriminate|].
  destruct (sql_Ping sys _ w2) as [[e3|] w3]; simpl; [now intros [= _ <- _]|].
  destruct (sql_Exec sys _ _ w3) as [[e4|] w4]; simpl; [now intros [= _ <- _]|].
  discriminate.
Qed.

End ConnectOrder.

Lemma dataSourceName_SetMaxIdleConns (n : Z) (p : DB) :
  dataSourceName (SetMaxIdleConns n p) = dataSourceName p.
Proof.
  unfold SetMaxIdleConns. simpl. destruct (_ && _); reflexivity.
Qed.

Lemma dataSourceName_SetMaxOpenConns (n : Z) (p : DB) :
  dataSourceName (SetMaxOpenConns n p) = dataSourceName p.
Proof.
  unfold SetMaxOpenConns. simpl.
  destruct (_ && _); [rewrite dataSourceName_SetMaxIdleConns|]; reflexivity.
Qed.

(** X12: when the directory is made and the pool is opened but does not
    answer the ping, both versions of Connect return the error of the ping
    wrapped (the source file as "failed to ping the SQLite database", the
    guide as "failed to ping SQLite database"), leave the handle as it was
    and have made three calls: MkdirAll, Open and Ping, in this order.  No
    statement is executed on a pool that has not answered the ping. *)
Theorem Connect_ping_failure :
  forall (sys : Sys) (d : SQLiteDriver.t) (conf : DBConfig) (s : State sys)
         (w1 w2 w3 : World sys) (cause : error),
    os_MkdirAll sys (filepath_Dir sys (SQLitePath conf)) (fst s) = (None, w1) ->
    sql_Open sys "sqlite" (SQLiteDriver.dsn_of conf) w1 = (None, w2) ->
    sql_Ping sys (opened conf) w2 = (Some cause, w3) ->
    SQLiteDriver.Connect d conf s
    = (Ret (Some (Errorf_w "failed to ping the SQLite database: " cause), d),
       (w3, (snd s ++ [EvMkdirAll (filepath_Dir sys (SQLitePath conf));
                       EvOpen "sqlite" (SQLiteDriver.dsn_of conf);
                       EvPing (opened conf)])%list))
    /\ SQLiteDriver.Connect_guide d conf s
       = (Ret (Some (Errorf_w "failed to ping SQLite database: " cause), d),
          (w3, (snd s ++ [EvMkdirAll (filepath_Dir sys (SQLitePath conf));
                          EvOpen "sqlite" (SQLiteDriver.dsn_of conf);
                          EvPing (opened conf)])%list)).
Proof.
  intros sys d conf s w1 w2 w3 cause H1 H2 H3.
  now rewrite Connect_cases, Connect_guide_cases, H1, H2, H3.
Qed.

Lemma Connect_ping_failure_witness :
  SQLiteDriver.Connect
    (sys := Fixture.system
              (Fixture.mkSetup None None
                 (Some (errorString "unable to open database file")) false []))
    SQLiteDriver.zero (NewSQLiteConfig "data/tujifund.db") (Fixture.start _)
  = (Ret (Some (Errorf_w "failed to ping the SQLite database: "
                  (errorString "unable to open database file")),
          SQLiteDriver.zero),
     (Fixture.mkEngine ["data"] [] false,
      ([] ++ [EvMkdirAll "data";
              EvOpen "sqlite" "file:data/tujifund.db?cache=shared&_journal_mode=WAL";
              EvPing (opened (NewSQLiteConfig "data/tujifund.db"))])%list))
  /\ SQLiteDriver.Connect_guide
       (sys := Fixture.system
                 (Fixture.mkSetup None None
                    (Some (errorString "unable to open database file")) false []))
       SQLiteDriver.zero (NewSQLiteConfig "data/tujifund.db") (Fixture.start _)
     = (Ret (Some (Errorf_w "failed to ping SQLite database: "
                     (errorString "unable to open database file")),
             SQLiteDriver.zero),
        (Fixture.mkEngine ["data"] [] false,
         ([] ++ [EvMkdirAll "data";
                 EvOpen "sqlite" "file:data/tujifund.db?cache=shared&_journal_mode=WAL";
                 EvPing (opened (NewSQLiteConfig "data/tujifund.db"))])%list)).
Proof.
  exact (Connect_ping_failure
           (Fixture.system
              (Fixture.mkSetup None None
                 (Some (errorString "unable to open database file")) false []))
           SQLiteDriver.zero (NewSQLiteConfig "data/tujifund.db") (Fixture.start _)
           (Fixture.mkEngine ["data"] [] false) (Fixture.mkEngine ["data"] [] false)
           (Fixture.mkEngine ["data"] [] false)
           (errorString "unable to open database file") eq_refl eq_refl eq_refl).
Defined.

(** Runs of the two versions of Connect that fail, and one of the guide's
    that succeeds. *)
Lemma Connect_error_witness :
  exists cause,
    Errorf_w "failed to enable foreign keys: "
      (errorString "SQL logic error: syntax error")
    = Errorf_w "failed to enable foreign keys: " cause
    /\ sql_Exec (Fixture.system (Fixture.sound []))
         (opened (NewSQLiteConfig "data/tujifund.db")) "PRAGMA foreign_keys = ON:"
         (Fixture.mkEngine ["data"] [] false)
       = (Some cause, Fixture.mkEngine ["data"] [] false).
Proof.
  destruct (Connect_error (sys := Fixture.system (Fixture.sound []))
              SQLiteDriver.zero SQLiteDriver.zero (NewSQLiteConfig "data/tujifund.db")
              (Fixture.start _)
              (Fixture.mkEngine ["data"] [] false,
               connect_calls (Fixture.system (Fixture.sound []))
                 (NewSQLiteConfig "data/tujifund.db") "PRAGMA foreign_keys = ON:")
              (Errorf_w "failed to enable foreign keys: "
                 (errorString "SQL logic error: syntax error"))
              eq_refl)
    as [_ [cause [[H _]|[[H _]|[H (w1 & w2 & w3 & H1 & H2 & H3 & H4)]]]]].
  - discriminate H.
  - discriminate H.
  - exists cause. split; [exact H|].
    injection H1 as <-. injection H2 as <-. injection H3 as <-. exact H4.
Defined.

Lemma Connect_guide_failure_witness :
  SQLiteDriver.Connect_guide (sys := Fixture.system (Fixture.no_driver []))
    SQLiteDriver.zero (NewSQLiteConfig "data/tujifund.db") (Fixture.start _)
  = (Ret (Some (Errorf_w "failed to connect to SQLite database: "
                  (errorString "sql: unknown driver")),
          SQLiteDriver.zero),
     (Fixture.mkEngine ["data"] [] false,
      ([] ++ [EvMkdirAll "data";
              EvOpen "sqlite" "file:data/tujifund.db?cache=shared&_journal_mode=WAL"])%list)).
Proof.
  exact (proj1 (proj2 (Connect_guide_failure
                         (sys := Fixture.system (Fixture.no_driver []))
                         SQLiteDriver.zero (NewSQLiteConfig "data/tujifund.db")
                         (Fixture.start _)))
           (Fixture.mkEngine ["data"] [] false) (Fixture.mkEngine ["data"] [] false)
           (errorString "sql: unknown driver") eq_refl eq_refl).
Defined.

Lemma Connect_guide_enables_foreign_keys_witness :
  exists calls,
    snd (snd (SQLiteDriver.Connect_guide (sys := Fixture.system (Fixture.sound []))
                SQLiteDriver.zero (NewSQLiteConfig "data/tujifund.db")
                (Fixture.start _)))
    = ([] ++ calls)%list
    /\ In (EvOpen "sqlite" "file:data/tujifund.db?cache=shared&_journal_mode=WAL") calls
    /\ executed calls = ["PRAGMA foreign_keys = ON;"].
Proof.
  exact (Connect_guide_enables_foreign_keys (Fixture.system (Fixture.sound []))
           SQLiteDriver.zero _ (NewSQLiteConfig "data/tujifund.db")
           (Fixture.start _) _ eq_refl).
Defined.

Lemma Connect_mkdir_failure_witness :
  SQLiteDriver.Connect
    (sys := Fixture.system
              (Fixture.mkSetup (Some (errorString "mkdir data: permission denied"))
                 None None false []))
    SQLiteDriver.zero (NewSQLiteConfig "data/tujifund.db") (Fixture.start _)
  = (Ret (Some (Errorf_w "failed to create database directory: "
                  (errorString "mkdir data: permission denied")),
          SQLiteDriver.zero),
     (Fixture.empty, [EvMkdirAll "data"])).
Proof.
  exact (proj1 (Connect_mkdir_failure
                  (sys := Fixture.system
                            (Fixture.mkSetup
                               (Some (errorString "mkdir data: permission denied"))
                               None None false []))
                  SQLiteDriver.zero (NewSQLiteConfig "data/tujifund.db")
                  (Fixture.start _) (errorString "mkdir data: permission denied")
                  Fixture.empty eq_refl)).
Defined.

(** X17: a handle that was fresh stays without pool when Connect, of the
    source file or of the guide, returns an error, and [Ping] on it then
    panics; after a successful Connect of either, [Ping] asks the engine
    about the pool Connect has opened, with the limits of the
    configuration, and returns its answer. *)
Theorem Connect_then_Ping :
  forall (sys : Sys) (conf : DBConfig) (s s' : State sys) (d' : SQLiteDriver.t),
    (forall e,
        SQLiteDriver.Connect SQLiteDriver.zero conf s = (Ret (Some e, d'), s')
        \/ SQLiteDriver.Connect_guide SQLiteDriver.zero conf s = (Ret (Some e, d'), s') ->
        SQLiteDriver_Ping d' s' = (Panic, s'))
    /\ (SQLiteDriver.Connect SQLiteDriver.zero conf s = (Ret (None, d'), s')
        \/ SQLiteDriver.Connect_guide SQLiteDriver.zero conf s = (Ret (None, d'), s') ->
        exists p,
          SQLiteDriver.db d' = Some p
          /\ dataSourceName p = SQLiteDriver.dsn_of conf
          /\ maxOpen p = (if (MaxOpenConns conf <? 0)%Z then 0%Z else MaxOpenConns conf)
          /\ SQLiteDriver_Ping d' s'
             = (Ret (fst (sql_Ping sys p (fst s'))),
                (snd (sql_Ping sys p (fst s')), (snd s' ++ [EvPing p])%list))).
Proof.
  intros sys conf s s' d'. split.
  - intros e [H|H].
    + apply Connect_error_handle in H. subst d'. reflexivity.
    + rewrite Connect_guide_cases in H.
      destruct (os_MkdirAll sys _ (fst s)) as [[e1|] w1];
        [injection H as _ <- <-; reflexivity|].
      destruct (sql_Open sys _ _ w1) as [[e2|] w2];
        [injection H as _ <- <-; reflexivity|].
      destruct (sql_Ping sys _ w2) as [[e3|] w3];
        [injection H as _ <- <-; reflexivity|].
      destruct (sql_Exec sys _ _ w3) as [[e4|] w4];
        [injection H as _ <- <-; reflexivity|discriminate].
  - intros H.
    assert (Hd : d' = connected conf).
    { destruct H as [H|H].
      - apply Connect_success in H. now destruct H as (?&?&?&?&_&_&_&_&_&->).
      - apply Connect_guide_success in H. now destruct H as (?&?&?&?&_&_&_&_&_&->). }
    subst d'.
    eexists. split; [reflexivity|]. split.
    { now rewrite dataSourceName_SetMaxIdleConns, dataSourceName_SetMaxOpenConns. }
    split.
    { now rewrite maxOpen_SetMaxIdleConns, maxOpen_SetMaxOpenConns. }
    unfold SQLiteDriver_Ping, Ping, connected. cbn [SQLiteDriver.db].
    destruct (sql_Ping sys _ (fst s')); reflexivity.
Qed.

Lemma Connect_then_Ping_witness :
  SQLiteDriver_Ping (sys := Fixture.system (Fixture.sound []))
    SQLiteDriver.zero
    (Fixture.mkEngine ["data"] [] false,
     connect_calls (Fixture.system (Fixture.sound []))
       (NewSQLiteConfig "data/tujifund.db") "PRAGMA foreign_keys = ON:")
  = (Panic,
     (Fixture.mkEngine ["data"] [] false,
      connect_calls (Fixture.system (Fixture.sound []))
        (NewSQLiteConfig "data/tujifund.db") "PRAGMA foreign_keys = ON:"))
  /\ exists p,
       Some (SetMaxIdleConns 2 (SetMaxOpenConns 1 (opened (NewSQLiteConfig "data/tujifund.db"))))
       = Some p
       /\ dataSourceName p = "file:data/tujifund.db?cache=shared&_journal_mode=WAL"
       /\ maxOpen p = 1%Z
       /\ SQLiteDriver_Ping (sys := Fixture.system (Fixture.sound []))
            (connected (NewSQLiteConfig "data/tujifund.db"))
            (Fixture.mkEngine ["data"] [] true,
             connect_calls (Fixture.system (Fixture.sound []))
               (NewSQLiteConfig "data/tujifund.db") "PRAGMA foreign_keys = ON;")
          = (Ret None,
             (Fixture.mkEngine ["data"] [] true,
              (connect_calls (Fixture.system (Fixture.sound []))
                 (NewSQLiteConfig "data/tujifund.db") "PRAGMA foreign_keys = ON;"
               ++ [EvPing p])%list)).
Proof.
  split.
  - exact (proj1 (Connect_then_Ping (Fixture.system (Fixture.sound []))
                    (NewSQLiteConfig "data/tujifund.db") (Fixture.start _) _ _)
             _ (or_introl eq_refl)).
  - exact (proj2 (Connect_then_Ping (Fixture.system (Fixture.sound []))
                    (NewSQLiteConfig "data/tujifund.db") (Fixture.start _)
                    (Fixture.mkEngine ["data"] [] true,
                     connect_calls (Fixture.system (Fixture.sound []))
                       (NewSQLiteConfig "data/tujifund.db") "PRAGMA foreign_keys = ON;")
                    (connected (NewSQLiteConfig "data/tujifund.db")))
             (or_intror eq_refl)).
Defined.

(** ** [PostgresDriver.Connect] *)

Section PostgresConnect.

Context {sys : Sys}.

(** The fresh handle [sql.Open] gives the PostgreSQL Connect. *)
Lemma PostgresDriver_Connect_cases (d : PostgresDriver.t) (conf : DBConfig)
    (s : State sys) :
  let p0 := mkDB "postgres" (PostgresDriver.dsn_of conf) 0 0 0 in
  PostgresDriver.Connect d conf s
  = match sql_Open sys "postgres" (PostgresDriver.dsn_of conf) (fst s) with
    | (Some e, w1) =>
        (Ret (Some (Errorf_w "failed to connect to PostgreSQL database: " e), d),
         (w1, (snd s ++ [EvOpen "postgres" (PostgresDriver.dsn_of conf)])%list))
    | (None, w1) =>
        match sql_Ping sys p0 w1 with
        | (Some e, w2) =>
            (Ret (Some (Errorf_w "failed to ping PostgreSQL database: " e), d),
             (w2, (snd s ++ [EvOpen "postgres" (PostgresDriver.dsn_of conf);
                             EvPing p0])%list))
        | (None, w2) =>
            (Ret (None,
                  PostgresDriver.mk
                    (Some (SetConnMaxLifetime
                             (wrap64 (ConnMaxLifetime conf * 1000000000))
                             (SetMaxIdleConns (MaxIdleConns conf)
                                (SetMaxOpenConns (MaxOpenConns conf) p0))))
                    conf),
             (w2, (snd s ++ [EvOpen "postgres" (PostgresDriver.dsn_of conf);
                             EvPing p0])%list))
        end
    end.
Proof.
  unfold PostgresDriver.Connect. run_monad.
  destruct (sql_Open sys _ _ (fst s)) as [[e1|] w1]; simpl; [reflexivity|].
  destruct (sql_Ping sys _ w1) as [[e2|] w2]; simpl; now rewrite <- app_assoc.
Qed.

End PostgresConnect.

(** X18: the PostgreSQL Connect never panics.  When [sql.Open] fails it
    returns that error wrapped as "failed to connect to PostgreSQL
    database" and has called nothing else; when the pool is opened and
    the ping fails it returns that error wrapped as "failed to ping
    PostgreSQL database"; in both cases the handle is as it was.  It
    returns no other error. *)
Theorem PostgresDriver_Connect_failure :
  forall (sys : Sys) (d : PostgresDriver.t) (conf : DBConfig) (s : State sys),
    fst (PostgresDriver.Connect d conf s) <> Panic
    /\ (forall cause w1,
           sql_Open sys "postgres" (PostgresDriver.dsn_of conf) (fst s) = (Some cause, w1) ->
           PostgresDriver.Connect d conf s
           = (Ret (Some (Errorf_w "failed to connect to PostgreSQL database: " cause), d),
              (w1, (snd s ++ [EvOpen "postgres" (PostgresDriver.dsn_of conf)])%list)))
    /\ (forall cause w1 w2,
           sql_Open sys "postgres" (PostgresDriver.dsn_of conf) (fst s) = (None, w1) ->
           sql_Ping sys (mkDB "postgres" (PostgresDriver.dsn_of conf) 0 0 0) w1
           = (Some cause, w2) ->
           PostgresDriver.Connect d conf s
           = (Ret (Some (Errorf_w "failed to ping PostgreSQL database: " cause), d),
              (w2, (snd s ++ [EvOpen "postgres" (PostgresDriver.dsn_of conf);
                              EvPing (mkDB "postgres" (PostgresDriver.dsn_of conf) 0 0 0)])%list)))
    /\ (forall e d' s',
           PostgresDriver.Connect d conf s = (Ret (Some e, d'), s') ->
           d' = d
           /\ exists cause,
                (e = Errorf_w "failed to connect to PostgreSQL database: " cause
                 /\ sql_Open sys "postgres" (PostgresDriver.dsn_of conf) (fst s)
                    = (Some cause, fst s'))
                \/ (e = Errorf_w "failed to ping PostgreSQL database: " cause
                    /\ exists w1,
                         sql_Open sys "postgres" (PostgresDriver.dsn_of conf) (fst s)
                         = (None, w1)
                         /\ sql_Ping sys (mkDB "postgres" (PostgresDriver.dsn_of conf) 0 0 0) w1
                            = (Some cause, fst s'))).
Proof.
  intros sys d conf s. rewrite PostgresDriver_Connect_cases.
  destruct (sql_Open sys _ _ (fst s)) as [[e1|] w1].
  - split; [discriminate|]. split; [|split].
    + now intros cause w1' [= <- <-].
    + discriminate.
    + intros e d' s' [= <- <- <-]. split; [reflexivity|].
      exists e1. left. now split.
  - destruct (sql_Ping sys _ w1) as [[e2|] w2] eqn:E2.
    + split; [discriminate|]. split; [discriminate|]. split.
      * intros cause w1' w2' [= <-]. rewrite E2. now intros [= <- <-].
      * intros e d' s' [= <- <- <-]. split; [reflexivity|].
        exists e2. right. split; [reflexivity|]. now exists w1.
    + split; [discriminate|]. split; [discriminate|]. split; [|discriminate].
      intros cause w1' w2' [= <-]. rewrite E2. discriminate.
Qed.

Lemma PostgresDriver_Connect_failure_witness :
  PostgresDriver.Connect (sys := Fixture.system (Fixture.no_driver []))
    PostgresDriver.zero (NewPostgresConfig "localhost" 5432 "u" "p" "d" "disable")
    (Fixture.start _)
  = (Ret (Some (Errorf_w "failed to connect to PostgreSQL database: "
                  (errorString "sql: unknown driver")),
          PostgresDriver.zero),
     (Fixture.empty,
      ([] ++ [EvOpen "postgres"
                "host=localhost port=5432 user=u password=p dbname=d sslmode=disable"])%list))
  /\ PostgresDriver.Connect
       (sys := Fixture.system
                 (Fixture.mkSetup None None
                    (Some (errorString "dial tcp 127.0.0.1:5432: connect: connection refused"))
                    false []))
       PostgresDriver.zero (NewPostgresConfig "localhost" 5432 "u" "p" "d" "disable")
       (Fixture.start _)
     = (Ret (Some (Errorf_w "failed to ping PostgreSQL database: "
                     (errorString "dial tcp 127.0.0.1:5432: connect: connection refused")),
             PostgresDriver.zero),
        (Fixture.empty,
         ([] ++ [EvOpen "postgres"
                   "host=localhost port=5432 user=u password=p dbname=d sslmode=disable";
                 EvPing (mkDB "postgres"
                           "host=localhost port=5432 user=u password=p dbname=d sslmode=disable"
                           0 0 0)])%list)).
Proof.
  split.
  - exact (proj1 (proj2 (PostgresDriver_Connect_failure
                           (Fixture.system (Fixture.no_driver []))
                           PostgresDriver.zero
                           (NewPostgresConfig "localhost" 5432 "u" "p" "d" "disable")
                           (Fixture.start _)))
             (errorString "sql: unknown driver") Fixture.empty eq_refl).
  - exact (proj1 (proj2 (proj2 (PostgresDriver_Connect_failure
                                  (Fixture.system
                                     (Fixture.mkSetup None None
                                        (Some (errorString "dial tcp 127.0.0.1:5432: connect: connection refused"))
                                        false []))
                                  PostgresDriver.zero
                                  (NewPostgresConfig "localhost" 5432 "u" "p" "d" "disable")
                                  (Fixture.start _))))
             (errorString "dial tcp 127.0.0.1:5432: connect: connection refused")
             Fixture.empty Fixture.empty eq_refl eq_refl).
Defined.

Lemma wrap64_in_range (z : Z) :
  (- 2 ^ 63 <= z < 2 ^ 63)%Z -> wrap64 z = z.
Proof.
  intros H. unfold wrap64. rewrite Z.mod_small; lia.
Qed.

Lemma wrap64_overflow (z : Z) :
  (2 ^ 63 <= z < 2 ^ 64)%Z -> wrap64 z = (z - 2 ^ 64)%Z.
Proof.
  intros H. unfold wrap64.
  replace (z + 2 ^ 63)%Z with ((z - 2 ^ 63) + 1 * 2 ^ 64)%Z by lia.
  rewrite Z_mod_plus_full, Z.mod_small; lia.
Qed.

Lemma driverName_setters (a b c : Z) (p : DB) :
  driverName (SetConnMaxLifetime a (SetMaxIdleConns b (SetMaxOpenConns c p)))
  = driverName p.
Proof.
  unfold SetConnMaxLifetime, SetMaxIdleConns, SetMaxOpenConns, SetMaxIdleConns.
  simpl. repeat (destruct (_ && _); simpl); reflexivity.
Qed.

Lemma dataSourceName_setters (a b c : Z) (p : DB) :
  dataSourceName (SetConnMaxLifetime a (SetMaxIdleConns b (SetMaxOpenConns c p)))
  = dataSourceName p.
Proof.
  simpl. now rewrite dataSourceName_SetMaxIdleConns, dataSourceName_SetMaxOpenConns.
Qed.

Lemma maxLifetime_SetConnMaxLifetime (n : Z) (p : DB) :
  maxLifetime (SetConnMaxLifetime n p) = if (n <? 0)%Z then 0%Z else n.
Proof.
  reflexivity.
Qed.

(** X19: after a successful PostgreSQL Connect the handle holds the
    configuration and a pool opened on the connection string built from
    it, with the open limit of the configuration, and the maximum
    lifetime is ConnMaxLifetime seconds when that is between 0 and
    9223372036. *)
Theorem PostgresDriver_Connect_success :
  forall (sys : Sys) (d d' : PostgresDriver.t) (conf : DBConfig) (s s' : State sys),
    PostgresDriver.Connect d conf s = (Ret (None, d'), s') ->
    exists p,
      d' = PostgresDriver.mk (Some p) conf
      /\ driverName p = "postgres"
      /\ dataSourceName p
         = "host=" ++ Host conf ++ " port=" ++ fmt.Sprint_int (Port conf)
           ++ " user=" ++ User conf ++ " password=" ++ Password conf
           ++ " dbname=" ++ DBName conf ++ " sslmode=" ++ SSLMode conf
      /\ openLimit p
         = (if (MaxOpenConns conf <=? 0)%Z then None else Some (MaxOpenConns conf))
      /\ ((0 <= ConnMaxLifetime conf <= 9223372036)%Z ->
          maxLifetime p = (ConnMaxLifetime conf * 1000000000)%Z).
Proof.
  intros sys d d' conf s s'. rewrite PostgresDriver_Connect_cases.
  destruct (sql_Open sys _ _ (fst s)) as [[e1|] w1]; [discriminate|].
  destruct (sql_Ping sys _ w1) as [[e2|] w2]; [discriminate|].
  intros [= <- <-]. eexists. split; [reflexivity|].
  split; [now rewrite driverName_setters|].
  split; [now rewrite dataSourceName_setters|]. split.
  - unfold openLimit. simpl maxOpen.
    rewrite maxOpen_SetMaxIdleConns, maxOpen_SetMaxOpenConns.
    destruct (MaxOpenConns conf <? 0)%Z eqn:E1;
      destruct (MaxOpenConns conf <=? 0)%Z eqn:E2; try reflexivity; lia.
  - intros H. rewrite maxLifetime_SetConnMaxLifetime, wrap64_in_range by lia.
    destruct (ConnMaxLifetime conf * 1000000000 <? 0)%Z eqn:E; [lia | reflexivity].
Qed.

Lemma PostgresDriver_Connect_success_witness :
  exists p,
    PostgresDriver.mk
      (Some (mkDB "postgres"
               "host=localhost port=5432 user=u password=p dbname=d sslmode=disable"
               10 5 3600000000000))
      (NewPostgresConfig "localhost" 5432 "u" "p" "d" "disable")
    = PostgresDriver.mk (Some p) (NewPostgresConfig "localhost" 5432 "u" "p" "d" "disable")
    /\ driverName p = "postgres"
    /\ dataSourceName p
       = "host=localhost port=5432 user=u password=p dbname=d sslmode=disable"
    /\ openLimit p = Some 10%Z
    /\ ((0 <= 3600 <= 9223372036)%Z -> maxLifetime p = (3600 * 1000000000)%Z).
Proof.
  exact (PostgresDriver_Connect_success (Fixture.system (Fixture.sound []))
           PostgresDriver.zero _
           (NewPostgresConfig "localhost" 5432 "u" "p" "d" "disable")
           (Fixture.start _) _ eq_refl).
Defined.

(** X20: a ConnMaxLifetime from 9223372037 to 18446744073 seconds makes
    the product with [time.Second] overflow 64 bits to a negative
    duration, and the pool of a successful Connect then has lifetime 0:
    its connections never expire. *)
Theorem PostgresDriver_Connect_lifetime_overflow :
  forall (sys : Sys) (d d' : PostgresDriver.t) (conf : DBConfig) (s s' : State sys),
    PostgresDriver.Connect d conf s = (Ret (None, d'), s') ->
    (9223372037 <= ConnMaxLifetime conf <= 18446744073)%Z ->
    exists p, PostgresDriver.db d' = Some p /\ maxLifetime p = 0%Z.
Proof.
  intros sys d d' conf s s'. rewrite PostgresDriver_Connect_cases.
  destruct (sql_Open sys _ _ (fst s)) as [[e1|] w1]; [discriminate|].
  destruct (sql_Ping sys _ w1) as [[e2|] w2]; [discriminate|].
  intros [= <- <-] H. eexists. split; [reflexivity|].
  rewrite maxLifetime_SetConnMaxLifetime, wrap64_overflow by lia.
  destruct (ConnMaxLifetime conf * 1000000000 - 2 ^ 64 <? 0)%Z eqn:E;
    [reflexivity | lia].
Qed.

Lemma PostgresDriver_Connect_lifetime_overflow_witness :
  exists p,
    Some (mkDB "postgres"
            "host=localhost port=5432 user=u password=p dbname=d sslmode=disable"
            10 5 0)
    = Some p
    /\ maxLifetime p = 0%Z.
Proof.
  refine (PostgresDriver_Connect_lifetime_overflow (Fixture.system (Fixture.sound []))
            PostgresDriver.zero
            (PostgresDriver.mk
               (Some (mkDB "postgres"
                        "host=localhost port=5432 user=u password=p dbname=d sslmode=disable"
                        10 5 0))
               Fixture.long_lived)
            Fixture.long_lived (Fixture.start _) _ eq_refl _).
  simpl. lia.
Defined.

(** ** [NewDriver] *)

(** X21: for a driver name that is neither "sqlite" nor "postgres"
    (the comparison is exact), NewDriver returns no driver and the error
    "unsupported database driver: <name>", and calls nothing. *)
Theorem NewDriver_unsupported :
  forall (sys : Sys) (conf : DBConfig) (s : State sys),
    Driver conf <> "sqlite" ->
    Driver conf <> "postgres" ->
    NewDriver conf s
    = (Ret (None, Some (errorString ("unsupported database driver: " ++ Driver conf))), s).
Proof.
  intros sys conf s H1 H2. unfold NewDriver.
  apply String.eqb_neq in H1, H2. now rewrite H1, H2.
Qed.

Lemma NewDriver_unsupported_witness :
  NewDriver (sys := Fixture.system (Fixture.sound []))
    (mkDBConfig "SQLite" "data/tujifund.db" "" 0 "" "" "" "" 1 2 3600) (Fixture.start _)
  = (Ret (None, Some (errorString "unsupported database driver: SQLite")),
     Fixture.start _).
Proof.
  apply (NewDriver_unsupported (Fixture.system (Fixture.sound []))
           (mkDBConfig "SQLite" "data/tujifund.db" "" 0 "" "" "" "" 1 2 3600));
    discriminate.
Defined.

Section NewDriverFacts.

Context {sys : Sys}.

(** The two branches of NewDriver, by the outcome of their Connect. *)
Lemma NewDriver_sqlite (conf : DBConfig) (s : State sys) :
  Driver conf = "sqlite" ->
  NewDriver conf s
  = match SQLiteDriver.Connect SQLiteDriver.zero conf s with
    | (Ret (Some e, _), s') => (Ret (None, Some e), s')
    | (Ret (None, d), s') => (Ret (Some (SQLite d), None), s')
    | (Panic, s') => (Panic, s')
    end.
Proof.
  intros H. unfold NewDriver. rewrite H. simpl. unfold bind, ret.
  destruct (SQLiteDriver.Connect SQLiteDriver.zero conf s) as [[[[e|] d]|] s'];
    reflexivity.
Qed.

Lemma NewDriver_postgres (conf : DBConfig) (s : State sys) :
  Driver conf = "postgres" ->
  NewDriver conf s
  = match PostgresDriver.Connect PostgresDriver.zero conf s with
    | (Ret (Some e, _), s') => (Ret (None, Some e), s')
    | (Ret (None, d), s') => (Ret (Some (Postgres d), None), s')
    | (Panic, s') => (Panic, s')
    end.
Proof.
  intros H. unfold NewDriver. rewrite H. simpl. unfold bind, ret.
  destruct (PostgresDriver.Connect PostgresDriver.zero conf s) as [[[[e|] d]|] s'];
    reflexivity.
Qed.

End NewDriverFacts.

(** X22: NewDriver returns a driver or an error, never both and never
    neither; a driver it returns has the dialect the configuration names
    and a pool. *)
Theorem NewDriver_result_shape :
  forall (sys : Sys) (conf : DBConfig) (s s' : State sys)
         (driver : option DBDriver) (err : option error),
    NewDriver conf s = (Ret (driver, err), s') ->
    (driver = None /\ err <> None)
    \/ (err = None
        /\ exists d p,
             driver = Some d /\ GetDialect d = Driver conf /\ pool d = Some p).
Proof.
  intros sys conf s s' driver err.
  destruct (String.eqb_spec (Driver conf) "sqlite") as [Hs|Hs].
  - rewrite (NewDriver_sqlite conf s Hs).
    destruct (SQLiteDriver.Connect SQLiteDriver.zero conf s) as [[[[e|] d]|] s1] eqn:E;
      [| |discriminate]; intros [= <- <- <-].
    + left. split; [reflexivity | discriminate].
    + right. split; [reflexivity|].
      apply Connect_success in E. destruct E as (?&?&?&?&_&_&_&_&_&->).
      eexists _, _. split; [reflexivity|]. split; [now rewrite Hs | reflexivity].
  - destruct (String.eqb_spec (Driver conf) "postgres") as [Hp|Hp].
    + rewrite (NewDriver_postgres conf s Hp), PostgresDriver_Connect_cases.
      destruct (sql_Open sys _ _ (fst s)) as [[e1|] w1].
      { intros [= <- <- <-]. left. split; [reflexivity | discriminate]. }
      destruct (sql_Ping sys _ w1) as [[e2|] w2]; intros [= <- <- <-].
      * left. split; [reflexivity | discriminate].
      * right. split; [reflexivity|].
        eexists _, _. split; [reflexivity|]. split; [now rewrite Hp | reflexivity].
    + unfold NewDriver. apply String.eqb_neq in Hs, Hp. rewrite Hs, Hp.
      intros [= <- <- <-]. left. split; [reflexivity | discriminate].
Qed.

Lemma NewDriver_result_shape_witness :
  (Some (Postgres (PostgresDriver.mk
                     (Some (mkDB "postgres"
                              "host=localhost port=5432 user=u password=p dbname=d sslmode=disable"
                              10 5 3600000000000))
                     (NewPostgresConfig "localhost" 5432 "u" "p" "d" "disable")))
   = None /\ @None error <> None)
  \/ (@None error = None
      /\ exists d p,
           Some (Postgres (PostgresDriver.mk
                             (Some (mkDB "postgres"
                                      "host=localhost port=5432 user=u password=p dbname=d sslmode=disable"
                                      10 5 3600000000000))
                             (NewPostgresConfig "localhost" 5432 "u" "p" "d" "disable")))
           = Some d
           /\ GetDialect d = "postgres" /\ pool d = Some p).
Proof.
  exact (NewDriver_result_shape (Fixture.system (Fixture.sound []))
           (NewPostgresConfig "localhost" 5432 "u" "p" "d" "disable")
           (Fixture.start _) _ _ _ eq_refl).
Defined.

(** ** [main] of the application *)

Lemma Main_config_sqlite (getenv : Main.Getenv) :
  getenv "DB_DRIVER" = "" \/ getenv "DB_DRIVER" = "sqlite" ->
  Main.config getenv
  = inr (NewSQLiteConfig
           (if getenv "DB_PATH" =? "" then "data/tujifund.db" else getenv "DB_PATH")).
Proof.
  intros [H|H]; unfold Main.config; rewrite H; reflexivity.
Qed.

Lemma Main_config_postgres (getenv : Main.Getenv) :
  getenv "DB_DRIVER" = "postgres" ->
  Main.config getenv
  = inr (NewPostgresConfig
           (if getenv "DB_HOST" =? "" then "localhost" else getenv "DB_HOST")
           match strconv.Atoi (getenv "DB_PORT") with
           | Some port => port
           | None => 5432%Z
           end
           (getenv "DB_USER") (getenv "DB_PASSWORD") (getenv "DB_NAME")
           (if getenv "DB_SSLMODE" =? "" then "disable" else getenv "DB_SSLMODE")).
Proof.
  intros H. unfold Main.config. rewrite H. reflexivity.
Qed.

(** X23: the configuration [main] builds names a driver NewDriver knows:
    "sqlite" when DB_DRIVER is unset or "sqlite", "postgres" when it is
    "postgres"; for every other value [main] stops with "Unsupported
    database driver: <value>" before it builds one. *)
Theorem Main_config_supported :
  forall getenv : Main.Getenv,
    match Main.config getenv with
    | inr conf =>
        (Driver conf = "sqlite" \/ Driver conf = "postgres")
        /\ Driver conf
           = (if getenv "DB_DRIVER" =? "" then "sqlite" else getenv "DB_DRIVER")
    | inl msg =>
        getenv "DB_DRIVER" <> "" /\ getenv "DB_DRIVER" <> "sqlite"
        /\ getenv "DB_DRIVER" <> "postgres"
        /\ msg = "Unsupported database driver: " ++ getenv "DB_DRIVER"
    end.
Proof.
  intros getenv. unfold Main.config.
  destruct (String.eqb_spec (getenv "DB_DRIVER") "") as [H0|H0].
  - simpl. split; [now left | reflexivity].
  - destruct (String.eqb_spec (getenv "DB_DRIVER") "sqlite") as [H1|H1].
    + simpl. split; [now left | now rewrite H1].
    + destruct (String.eqb_spec (getenv "DB_DRIVER") "postgres") as [H2|H2].
      * simpl. split; [now right | now rewrite H2].
      * repeat split; assumption.
Qed.

(** X24: in SQLite mode (DB_DRIVER unset or "sqlite") [main] connects
    with the Connect of the driver's source file, whose pragma statement
    ends in a colon.  When the engine answers an error to that statement,
    [main] stops in [log.Fatalf] with "Failed to create database driver:
    failed to enable foreign keys: " and the engine's message, the calls
    made being those of Connect: the schema is not touched.  So on an
    engine that refuses the statement, [main] never goes on. *)
Theorem Main_sqlite_stops_at_pragma :
  forall (sys : Sys) (getenv : Main.Getenv) (conf : DBConfig) (s : State sys),
    Main.config getenv = inr conf ->
    Driver conf = "sqlite" ->
    (forall w1 w2 w3 w4 cause,
        os_MkdirAll sys (filepath_Dir sys (SQLitePath conf)) (fst s) = (None, w1) ->
        sql_Open sys "sqlite" (SQLiteDriver.dsn_of conf) w1 = (None, w2) ->
        sql_Ping sys (opened conf) w2 = (None, w3) ->
        sql_Exec sys (opened conf) "PRAGMA foreign_keys = ON:" w3 = (Some cause, w4) ->
        Main.main getenv s
        = (Ret (Main.Fatalf ("Failed to create database driver: "
                             ++ "failed to enable foreign keys: " ++ Error cause)),
           (w4, (snd s ++ connect_calls sys conf "PRAGMA foreign_keys = ON:")%list)))
    /\ ((forall p w, fst (sql_Exec sys p "PRAGMA foreign_keys = ON:" w) <> None) ->
        forall driver logs s',
          Main.main getenv s <> (Ret (Main.Continue driver logs), s')).
Proof.
  intros sys getenv conf s Hconf Hdriver.
  unfold Main.main. rewrite Hconf.
  split.
  - intros w1 w2 w3 w4 cause H1 H2 H3 H4.
    unfold bind at 1. rewrite (NewDriver_sqlite conf s Hdriver), Connect_cases.
    now rewrite H1, H2, H3, H4.
  - intros Hstrict driver logs s'.
    unfold bind at 1. rewrite (NewDriver_sqlite conf s Hdriver), Connect_cases.
    destruct (os_MkdirAll sys _ (fst s)) as [[e1|] w1]; [discriminate|].
    destruct (sql_Open sys _ _ w1) as [[e2|] w2]; [discriminate|].
    destruct (sql_Ping sys _ w2) as [[e3|] w3]; [discriminate|].
    pose proof (Hstrict (opened conf) w3) as H4.
    destruct (sql_Exec sys _ _ w3) as [[e4|] w4]; [discriminate|].
    now contradiction H4.
Qed.

Lemma Main_sqlite_stops_at_pragma_witness :
  Main.main (sys := Fixture.system (Fixture.sound Fixture.two_tables))
    (Fixture.env []) (Fixture.start _)
  = (Ret (Main.Fatalf ("Failed to create database driver: "
                       ++ "failed to enable foreign keys: "
                       ++ "SQL logic error: syntax error")),
     (Fixture.mkEngine ["data"] [] false,
      ([] ++ connect_calls (Fixture.system (Fixture.sound Fixture.two_tables))
               (NewSQLiteConfig "data/tujifund.db") "PRAGMA foreign_keys = ON:")%list))
  /\ (forall driver logs s',
         Main.main (sys := Fixture.system (Fixture.sound Fixture.two_tables))
           (Fixture.env []) (Fixture.start _)
         <> (Ret (Main.Continue driver logs), s')).
Proof.
  pose proof (Main_sqlite_stops_at_pragma
                (Fixture.system (Fixture.sound Fixture.two_tables))
                (Fixture.env []) (NewSQLiteConfig "data/tujifund.db") (Fixture.start _)
                eq_refl eq_refl) as [Hstop Hnever].
  split.
  - exact (Hstop (Fixture.mkEngine ["data"] [] false) (Fixture.mkEngine ["data"] [] false)
             (Fixture.mkEngine ["data"] [] false) (Fixture.mkEngine ["data"] [] false)
             (errorString "SQL logic error: syntax error")
             eq_refl eq_refl eq_refl eq_refl).
  - apply Hnever. intros p w. discriminate.
Defined.

(** *** The port *)

Lemma string_of_uint_head (d : Decimal.uint) :
  d <> Decimal.Nil ->
  exists c r,
    NilEmpty.string_of_uint d = String c r
    /\ Ascii.eqb c "-" = false /\ Ascii.eqb c "+" = false.
Proof.
  intros H. destruct d; [contradiction|..]; simpl; eexists _, _; repeat split.
Qed.

Lemma Atoi_unsigned (d : Decimal.uint) :
  d <> Decimal.Nil ->
  strconv.Atoi (NilEmpty.string_of_uint d)
  = if ((- 2 ^ 63 <=? Z.of_uint d) && (Z.of_uint d <=? 2 ^ 63 - 1))%Z
    then Some (Z.of_uint d) else None.
Proof.
  intros H. destruct (string_of_uint_head d H) as (c & r & E & Hm & Hp).
  unfold strconv.Atoi. rewrite E, Hm, Hp. cbn [orb]. rewrite <- E, NilEmpty.usu.
  reflexivity.
Qed.

(** Printing an [int] and reading it back gives the [int]. *)
Lemma Atoi_Sprint_int (n : Z) :
  (- 2 ^ 63 <= n <= 2 ^ 63 - 1)%Z -> strconv.Atoi (fmt.Sprint_int n) = Some n.
Proof.
  intros H. unfold fmt.Sprint_int. destruct n as [|p|p]; simpl Z.to_int.
  - reflexivity.
  - simpl NilEmpty.string_of_int.
    rewrite (Atoi_unsigned _ (DecimalPos.Unsigned.to_uint_nonnil p)).
    unfold Z.of_uint. rewrite DecimalPos.Unsigned.of_to. simpl Z.of_N.
    now rewrite (proj2 (Z.leb_le _ _) (proj1 H)), (proj2 (Z.leb_le _ _) (proj2 H)).
  - simpl NilEmpty.string_of_int.
    destruct (string_of_uint_head _ (DecimalPos.Unsigned.to_uint_nonnil p)) as (c & r & E & _ & _).
    unfold strconv.Atoi. cbn [Ascii.eqb Bool.eqb orb andb].
    rewrite E, <- E, NilEmpty.usu.
    unfold Z.of_uint. rewrite DecimalPos.Unsigned.of_to. simpl Z.of_N.
    change (- Z.pos p)%Z with (Z.neg p).
    now rewrite (proj2 (Z.leb_le _ _) (proj1 H)), (proj2 (Z.leb_le _ _) (proj2 H)).
Qed.

(** X25: with DB_DRIVER "postgres", the port of the configuration is the
    number DB_PORT is the decimal writing of, for every [int], negative
    ones and zero too (no range of ports is checked), and 5432 when
    DB_PORT is unset. *)
Theorem Main_config_port :
  forall (getenv : Main.Getenv),
    getenv "DB_DRIVER" = "postgres" ->
    exists conf,
      Main.config getenv = inr conf
      /\ (forall n,
             (- 2 ^ 63 <= n <= 2 ^ 63 - 1)%Z ->
             getenv "DB_PORT" = fmt.Sprint_int n -> Port conf = n)
      /\ (getenv "DB_PORT" = "" -> Port conf = 5432%Z).
Proof.
  intros getenv H. eexists. split; [exact (Main_config_postgres getenv H)|].
  split.
  - intros n Hn Hp. simpl Port. now rewrite Hp, Atoi_Sprint_int.
  - intros Hp. simpl Port. now rewrite Hp.
Qed.

Lemma Main_config_port_witness :
  exists conf,
    Main.config (Fixture.env [("DB_DRIVER", "postgres"); ("DB_PORT", "-15432")])
    = inr conf
    /\ Port conf = (-15432)%Z.
Proof.
  destruct (Main_config_port
              (Fixture.env [("DB_DRIVER", "postgres"); ("DB_PORT", "-15432")])
              eq_refl) as (conf & Hconf & Hport & _).
  exists conf. split; [exact Hconf|].
  apply Hport; [split; discriminate | reflexivity].
Defined.

(** X26: [main] stops only before the schema: when it ends in
    [log.Fatalf], either DB_DRIVER names no known driver and nothing has
    been called, or NewDriver has returned the error of the message.  A
    failure of InitializeSchema is logged and [main] goes on. *)
Theorem Main_fatal_before_schema :
  forall (sys : Sys) (getenv : Main.Getenv) (s s' : State sys) (msg : string),
    Main.main getenv s = (Ret (Main.Fatalf msg), s') ->
    (Main.config getenv = inl msg /\ s' = s)
    \/ (exists conf driver e,
           Main.config getenv = inr conf
           /\ NewDriver conf s = (Ret (driver, Some e), s')
           /\ msg = "Failed to create database driver: " ++ Error e).
Proof.
  intros sys getenv s s' msg. unfold Main.main.
  destruct (Main.config getenv) as [m|conf].
  - intros [= <- <-]. now left.
  - unfold bind at 1.
    destruct (NewDriver conf s) as [[[driver [e|]]|] s1] eqn:E; [| |discriminate].
    + intros [= <- <-]. right. exists conf, driver, e. repeat split. exact E.
    + destruct driver as [driver|]; [|discriminate].
      unfold bind, ret.
      destruct (SchemaManager.InitializeSchema _ s1) as [[[e|]|] s2]; discriminate.
Qed.

Lemma Main_fatal_before_schema_witness :
  (Main.config (Fixture.env [("DB_DRIVER", "mysql")])
   = inl "Unsupported database driver: mysql"
   /\ Fixture.start (Fixture.sound []) = Fixture.start (Fixture.sound []))
  \/ (exists conf driver e,
         Main.config (Fixture.env [("DB_DRIVER", "mysql")]) = inr conf
         /\ NewDriver (sys := Fixture.system (Fixture.sound [])) conf (Fixture.start _)
            = (Ret (driver, Some e), Fixture.start _)
         /\ "Unsupported database driver: mysql"
            = "Failed to create database driver: " ++ Error e).
Proof.
  exact (Main_fatal_before_schema (Fixture.system (Fixture.sound []))
           (Fixture.env [("DB_DRIVER", "mysql")]) (Fixture.start _) (Fixture.start _)
           "Unsupported database driver: mysql" eq_refl).
Defined.

(** ** [main] of the migration script *)

(** X27: when one of the flags -sqlite, -pguser, -pgdbname is missing the
    script prints its usage and exits with status 1, without a call to a
    database or to the file system. *)
Theorem Migrate_usage :
  forall (sys : Sys) (f : Migrate.Flags) (s : State sys),
    Migrate.sqlite f = "" \/ Migrate.pguser f = "" \/ Migrate.pgdbname f = "" ->
    Migrate.main f s = (Ret Migrate.Usage, s).
Proof.
  intros sys f s H. unfold Migrate.main.
  destruct H as [H|[H|H]]; rewrite H; simpl; rewrite ?orb_true_r; reflexivity.
Qed.

Lemma Migrate_usage_witness :
  Migrate.main (sys := Fixture.system (Fixture.sound Fixture.two_tables))
    (Migrate.flags "data/tujifund.db" "" "tujifund") (Fixture.start _)
  = (Ret Migrate.Usage, Fixture.start _).
Proof.
  exact (Migrate_usage (Fixture.system (Fixture.sound Fixture.two_tables))
           (Migrate.flags "data/tujifund.db" "" "tujifund") (Fixture.start _)
           (or_intror (or_introl eq_refl))).
Defined.

(** X28: the script connects to the source with the Connect of the
    driver's source file.  When the three required flags are given and the
    engine answers an error to the pragma statement with the colon, the
    script stops in [log.Fatalf] with "Failed to connect to SQLite
    database: failed to enable foreign keys: " and the engine's message,
    having made the calls of that Connect and no other: the target is not
    opened.  So on an engine that refuses the statement the script never
    reports "Migration completed successfully". *)
Theorem Migrate_stops_at_pragma :
  forall (sys : Sys) (f : Migrate.Flags) (s : State sys),
    (forall w1 w2 w3 w4 cause,
        Migrate.sqlite f <> "" ->
        Migrate.pguser f <> "" ->
        Migrate.pgdbname f <> "" ->
        os_MkdirAll sys (filepath_Dir sys (Migrate.sqlite f)) (fst s) = (None, w1) ->
        sql_Open sys "sqlite"
          (SQLiteDriver.dsn_of (NewSQLiteConfig (Migrate.sqlite f))) w1
        = (None, w2) ->
        sql_Ping sys (opened (NewSQLiteConfig (Migrate.sqlite f))) w2 = (None, w3) ->
        sql_Exec sys (opened (NewSQLiteConfig (Migrate.sqlite f)))
          "PRAGMA foreign_keys = ON:" w3
        = (Some cause, w4) ->
        Migrate.main f s
        = (Ret (Migrate.Fatalf ("Failed to connect to SQLite database: "
                                ++ "failed to enable foreign keys: " ++ Error cause)),
           (w4, (snd s ++ connect_calls sys (NewSQLiteConfig (Migrate.sqlite f))
                            "PRAGMA foreign_keys = ON:")%list)))
    /\ ((forall p w, fst (sql_Exec sys p "PRAGMA foreign_keys = ON:" w) <> None) ->
        forall s', Migrate.main f s <> (Ret Migrate.Completed, s')).
Proof.
  intros sys f s. unfold Migrate.main. split.
  - intros w1 w2 w3 w4 cause Hs Hu Hd H1 H2 H3 H4.
    apply String.eqb_neq in Hs, Hu, Hd. rewrite Hs, Hu, Hd. cbn [orb].
    unfold bind at 1.
    rewrite (NewDriver_sqlite (NewSQLiteConfig (Migrate.sqlite f)) s eq_refl),
      Connect_cases.
    cbn [SQLitePath NewSQLiteConfig].
    cbn [SQLitePath NewSQLiteConfig] in H1.
    now rewrite H1, H2, H3, H4.
  - intros Hstrict s'.
    destruct ((Migrate.sqlite f =? "") || (Migrate.pguser f =? "")
              || (Migrate.pgdbname f =? "")); [discriminate|].
    unfold bind at 1.
    rewrite (NewDriver_sqlite (NewSQLiteConfig (Migrate.sqlite f)) s eq_refl),
      Connect_cases.
    destruct (os_MkdirAll sys _ (fst s)) as [[e1|] w1]; [discriminate|].
    destruct (sql_Open sys _ _ w1) as [[e2|] w2]; [discriminate|].
    destruct (sql_Ping sys _ w2) as [[e3|] w3]; [discriminate|].
    pose proof (Hstrict (opened (NewSQLiteConfig (Migrate.sqlite f))) w3) as H4.
    destruct (sql_Exec sys _ _ w3) as [[e4|] w4]; [discriminate|].
    now contradiction H4.
Qed.

Lemma Migrate_stops_at_pragma_witness :
  Migrate.main (sys := Fixture.system (Fixture.sound Fixture.two_tables))
    (Migrate.flags "data/tujifund.db" "u" "d") (Fixture.start _)
  = (Ret (Migrate.Fatalf ("Failed to connect to SQLite database: "
                          ++ "failed to enable foreign keys: "
                          ++ "SQL logic error: syntax error")),
     (Fixture.mkEngine ["data"] [] false,
      ([] ++ connect_calls (Fixture.system (Fixture.sound Fixture.two_tables))
               (NewSQLiteConfig "data/tujifund.db") "PRAGMA foreign_keys = ON:")%list))
  /\ (forall s',
         Migrate.main (sys := Fixture.system (Fixture.sound Fixture.two_tables))
           (Migrate.flags "data/tujifund.db" "u" "d") (Fixture.start _)
         <> (Ret Migrate.Completed, s')).
Proof.
  pose proof (Migrate_stops_at_pragma
                (Fixture.system (Fixture.sound Fixture.two_tables))
                (Migrate.flags "data/tujifund.db" "u" "d") (Fixture.start _))
    as [Hstop Hnever].
  split.
  - refine (Hstop (Fixture.mkEngine ["data"] [] false) (Fixture.mkEngine ["data"] [] false)
              (Fixture.mkEngine ["data"] [] false) (Fixture.mkEngine ["data"] [] false)
              (errorString "SQL logic error: syntax error")
              _ _ _ eq_refl eq_refl eq_refl eq_refl); discriminate.
  - apply Hnever. intros p w. discriminate.
Defined.

(** X29: when the script stops in [log.Fatalf], either NewDriver has
    returned an error for the SQLite configuration, or it has returned
    none for it and an error for the PostgreSQL configuration, or both
    have returned a driver and InitializeSchema of the PostgreSQL driver
    has returned an error; the message is "Failed to connect to SQLite
    database: ", "Failed to connect to PostgreSQL database: " or "Failed
    to initialize PostgreSQL schema: " followed by the message of that
    error.  The script never stops with "Migration failed". *)
Theorem Migrate_fatal_messages :
  forall (sys : Sys) (f : Migrate.Flags) (s s' : State sys) (msg : string),
    Migrate.main f s = (Ret (Migrate.Fatalf msg), s') ->
    (exists driver e,
        NewDriver (NewSQLiteConfig (Migrate.sqlite f)) s = (Ret (driver, Some e), s')
        /\ msg = "Failed to connect to SQLite database: " ++ Error e)
    \/ (exists sqliteDriver s1 driver e,
           NewDriver (NewSQLiteConfig (Migrate.sqlite f)) s
           = (Ret (sqliteDriver, None), s1)
           /\ NewDriver
                (NewPostgresConfig (Migrate.pghost f) (Migrate.pgport f)
                   (Migrate.pguser f) (Migrate.pgpassword f) (Migrate.pgdbname f)
                   "disable") s1
              = (Ret (driver, Some e), s')
           /\ msg = "Failed to connect to PostgreSQL database: " ++ Error e)
    \/ (exists sqliteDriver s1 pgDriver s2 e,
           NewDriver (NewSQLiteConfig (Migrate.sqlite f)) s
           = (Ret (Some sqliteDriver, None), s1)
           /\ NewDriver
                (NewPostgresConfig (Migrate.pghost f) (Migrate.pgport f)
                   (Migrate.pguser f) (Migrate.pgpassword f) (Migrate.pgdbname f)
                   "disable") s1
              = (Ret (Some pgDriver, None), s2)
           /\ SchemaManager.InitializeSchema (SchemaManager.NewSchemaManager pgDriver) s2
              = (Ret (Some e), s')
           /\ msg = "Failed to initialize PostgreSQL schema: " ++ Error e).
Proof.
  intros sys f s s' msg. unfold Migrate.main.
  destruct ((Migrate.sqlite f =? "") || (Migrate.pguser f =? "")
            || (Migrate.pgdbname f =? "")); [discriminate|].
  unfold bind at 1.
  destruct (NewDriver (NewSQLiteConfig (Migrate.sqlite f)) s)
    as [[[sqliteDriver [e1|]]|] s1]; [| |discriminate].
  { intros [= <- <-]. left. now exists sqliteDriver, e1. }
  unfold bind at 1.
  destruct (NewDriver _ s1) as [[[pgDriver [e2|]]|] s2] eqn:E2; [| |discriminate].
  { intros [= <- <-]. right. left. exists sqliteDriver, s1, pgDriver, e2.
    split; [reflexivity|]. split; [exact E2|reflexivity]. }
  destruct sqliteDriver as [sqliteDriver|]; [|discriminate].
  destruct pgDriver as [pgDriver|]; [|discriminate].
  unfold bind at 1.
  destruct (SchemaManager.InitializeSchema _ s2) as [[[e3|]|] s3] eqn:E3;
    [| |discriminate].
  { intros [= <- <-]. right. right.
    exists sqliteDriver, s1, pgDriver, s2, e3.
    split; [reflexivity|]. split; [exact E2|]. split; [exact E3|reflexivity]. }
  unfold MigrationRunner.migrateData, bind, ret. discriminate.
Qed.

Lemma Migrate_fatal_messages_witness :
  exists driver e,
    NewDriver (sys := Fixture.system (Fixture.sound Fixture.two_tables))
      (NewSQLiteConfig "data/tujifund.db") (Fixture.start _)
    = (Ret (driver, Some e),
       (Fixture.mkEngine ["data"] [] false,
        connect_calls (Fixture.system (Fixture.sound Fixture.two_tables))
          (NewSQLiteConfig "data/tujifund.db") "PRAGMA foreign_keys = ON:"))
    /\ "Failed to connect to SQLite database: failed to enable foreign keys: SQL logic error: syntax error"
       = "Failed to connect to SQLite database: " ++ Error e.
Proof.
  destruct (Migrate_fatal_messages
              (Fixture.system (Fixture.sound Fixture.two_tables))
              (Migrate.flags "data/tujifund.db" "u" "d") (Fixture.start _)
              (Fixture.mkEngine ["data"] [] false,
               connect_calls (Fixture.system (Fixture.sound Fixture.two_tables))
                 (NewSQLiteConfig "data/tujifund.db") "PRAGMA foreign_keys = ON:")
              "Failed to connect to SQLite database: failed to enable foreign keys: SQL logic error: syntax error"
              eq_refl)
    as [H|[(d1 & s1 & d2 & e & H & _)|(d1 & s1 & d2 & s2 & e & H & _)]].
  - exact H.
  - discriminate H.
  - discriminate H.
Defined.
